(** * DataPad synchronisation service: a shallow embedding

    This development embeds the synchronisation core of the web-adobe-api
    service:

    - [app/schemas/datapad.py]   the enums and the request and response records;
    - [app/services/datapad_client.py]   the REST client: error classification
      and the retry policy wrapped around [_request];
    - [app/services/sync_service.py]   [SyncService]: [sync_document],
      [_sync_field], [_map_field_type], [get_sync_status],
      [reset_sync_status], and the global names of the module;
    - [app/api/routes/datapad.py]   the field routes and the form routes;
    - [app/services/pdf_service.py]   the field types that the extraction
      stores.

    Python strings are Rocq strings that hold the UTF-8 encoding of the text,
    Python integers are [Z], counters are [nat].  Exceptions are values of [Exn] and
    a call that may raise returns a [Result].  The database session, the remote
    client and the clock are threaded explicitly through a [World]. *)

From Stdlib Require Import List String Ascii ZArith Lia Bool Arith DecimalString.
Import ListNotations.

Local Open Scope string_scope.
Local Open Scope list_scope.

(** ** Python truthiness *)

(** [bool(s)] for a string: the empty string is falsy. *)
Definition truthy_str (s : string) : bool :=
  match s with
  | EmptyString => false
  | String _ _ => true
  end.

(** [bool(x)] for an [Optional[str]]: [None] and [""] are falsy. *)
Definition truthy_opt (o : option string) : bool :=
  match o with
  | None => false
  | Some s => truthy_str s
  end.

(** [bool(l)] for a list: the empty list is falsy. *)
Definition truthy_list {A : Type} (l : list A) : bool :=
  match l with
  | [] => false
  | _ :: _ => true
  end.

(** [bool(x)] for an [Optional[List]]: [None] and [[]] are falsy. *)
Definition truthy_opt_list {A : Type} (o : option (list A)) : bool :=
  match o with
  | None => false
  | Some l => truthy_list l
  end.

(** [a or b] where [a] is an [Optional[str]] and [b] a [str]. *)
Definition py_or (a : option string) (b : string) : string :=
  match a with
  | Some s => if truthy_str s then s else b
  | None => b
  end.

(** [len(s)] counts code points: in UTF-8 every byte but a continuation
    byte (10xxxxxx) starts one. *)
Definition continuation (c : ascii) : bool :=
  let n := nat_of_ascii c in
  ((128 <=? n) && (n <? 192))%nat.

Fixpoint len (s : string) : nat :=
  match s with
  | EmptyString => 0
  | String c rest => if continuation c then len rest else S (len rest)
  end.

(** [str.lower()].  [A]-[Z] go to [a]-[z]; U+212A KELVIN SIGN (the bytes 226
    132 170) goes to [k]; U+0130 (196 176) goes to [i] followed by U+0307
    (204 135).  These are all the characters whose lower-case form has an
    ASCII character in it.  Any other character is left as it is: where
    Python changes it, the result has no ASCII character in its place
    either, so the two agree on which ASCII text a string lower-cases to,
    and the source only ever compares the result with ASCII keys. *)
Definition lower_ascii (c : ascii) : ascii :=
  let n := nat_of_ascii c in
  if ((65 <=? n) && (n <=? 90))%nat then ascii_of_nat (n + 32) else c.

Fixpoint lower (s : string) : string :=
  match s with
  | EmptyString => EmptyString
  | String c rest =>
      match rest with
      | EmptyString => String (lower_ascii c) EmptyString
      | String c2 rest2 =>
          if Ascii.eqb c "196" && Ascii.eqb c2 "176" then
            String "i" (String "204" (String "135" (lower rest2)))
          else
            match rest2 with
            | EmptyString => String (lower_ascii c) (lower rest)
            | String c3 rest3 =>
                if Ascii.eqb c "226" && Ascii.eqb c2 "132" && Ascii.eqb c3 "170"
                then String "k" (lower rest3)
                else String (lower_ascii c) (lower rest)
            end
      end
  end.

(** [d.get(key, default)] on a dictionary literal, kept as the list of its
    items in source order. *)
Fixpoint dict_get (d : list (string * string)) (key default : string) : string :=
  match d with
  | [] => default
  | (k, v) :: rest => if String.eqb key k then v else dict_get rest key default
  end.

(** [max(xs, default=None)] on integers. *)
Definition max_default (xs : list Z) : option Z :=
  match xs with
  | [] => None
  | x :: rest => Some (fold_left Z.max rest x)
  end.

(** [sum(1 for x in xs if p(x))] *)
Definition count_if {A : Type} (p : A -> bool) (xs : list A) : nat :=
  List.length (filter p xs).

(** ** Exceptions and results *)

(** The [DataPadAPIError] hierarchy of [datapad_client.py]. *)
Inductive ApiErrorClass : Type :=
| DataPadAPIError
| DataPadAuthenticationError
| DataPadRateLimitError
| DataPadNotFoundError
| DataPadValidationError.

(** [e.__class__.__name__] *)
Definition class_name (c : ApiErrorClass) : string :=
  match c with
  | DataPadAPIError => "DataPadAPIError"
  | DataPadAuthenticationError => "DataPadAuthenticationError"
  | DataPadRateLimitError => "DataPadRateLimitError"
  | DataPadNotFoundError => "DataPadNotFoundError"
  | DataPadValidationError => "DataPadValidationError"
  end.

(** The exceptions that occur in the embedded code.  [ApiError] carries the
    class, [message] and [status_code] of a [DataPadAPIError]; the others are
    named after their Python classes ([httpx.TimeoutException],
    [httpx.NetworkError], [tenacity.RetryError], [ValueError],
    [pydantic.ValidationError], [NameError], [TypeError]); [OtherException]
    is any other subclass of [Exception]. *)
Inductive Exn : Type :=
| ApiError (cls : ApiErrorClass) (message : string) (status_code : option Z)
| TimeoutException (msg : string)
| NetworkError (msg : string)
| RetryError (msg : string)
| ValueError (msg : string)
| ValidationError (msg : string)
| OtherException (msg : string)
| NameError (msg : string)
| TypeError (msg : string).

(** [str(e)] *)
Definition str_exn (e : Exn) : string :=
  match e with
  | ApiError _ m _ => m
  | TimeoutException m => m
  | NetworkError m => m
  | RetryError m => m
  | ValueError m => m
  | ValidationError m => m
  | OtherException m => m
  | NameError m => m
  | TypeError m => m
  end.

Inductive Result (A : Type) : Type :=
| Ok (a : A)
| Raise (e : Exn).
Arguments Ok {A} a.
Arguments Raise {A} e.

(** ** Global names *)

(** The global names of a module: a function looks a global name up when the
    line that uses it is run, and the lookup of a name that is bound neither
    there nor among the builtins raises [NameError].  The names looked up
    below, [Form] and [FormField], are no builtins, so the builtins are left
    out. *)
Definition Globals : Type := list string.

Definition bound (g : Globals) (name : string) : bool :=
  existsb (String.eqb name) g.

Definition load_name (g : Globals) (name : string) : Result unit :=
  if bound g name then Ok tt
  else Raise (NameError ("name '" ++ name ++ "' is not defined")).

(** ** Schemas ([app/schemas/datapad.py]) *)

Inductive DataPadFieldType : Type :=
| text | textarea | number | email | phone | date
| checkbox | radio | select | signature | file.

(** The string value of each member of the [str] enum. *)
Definition DataPadFieldType_value (t : DataPadFieldType) : string :=
  match t with
  | text => "text"
  | textarea => "textarea"
  | number => "number"
  | email => "email"
  | phone => "phone"
  | date => "date"
  | checkbox => "checkbox"
  | radio => "radio"
  | select => "select"
  | signature => "signature"
  | file => "file"
  end.

Definition DataPadFieldType_members : list DataPadFieldType :=
  [text; textarea; number; email; phone; date;
   checkbox; radio; select; signature; file].

(** Coercion of a string to the enum, as pydantic does for a field declared
    [DataPadFieldType]: the member whose value is the string, if any. *)
Definition DataPadFieldType_of_string (s : string) : option DataPadFieldType :=
  find (fun t => String.eqb s (DataPadFieldType_value t)) DataPadFieldType_members.

Inductive SyncStatus : Type :=
| pending | syncing | synced | error | conflict.

Definition SyncStatus_eqb (a b : SyncStatus) : bool :=
  match a, b with
  | pending, pending | syncing, syncing | synced, synced
  | error, error | conflict, conflict => true
  | _, _ => false
  end.

(** The [metadata] dictionary built by [_create_datapad_field]. *)
Module Metadata.
Record t : Type := mk {
    pdf_name : string;
    form_id : Z;
    field_id : Z
}.
End Metadata.

(** [validation_rules] is either [None] or [{"pattern": p}]: it is kept as
    the optional pattern. *)
Module DataPadField.
Record t : Type := mk {
    id : string;
    label : string;
    field_type : DataPadFieldType;
    group : option string;
    required : bool;
    default_value : option string;
    validation_rules : option string;
    metadata : option Metadata.t
}.
End DataPadField.

Module DataPadFieldCreate.
Record t : Type := mk {
    label : string;
    field_type : DataPadFieldType;
    group : option string;
    required : bool;
    default_value : option string;
    validation_rules : option string;
    metadata : option Metadata.t
}.
End DataPadFieldCreate.

Module DataPadFieldUpdate.
Record t : Type := mk {
    label : option string;
    field_type : option DataPadFieldType;
    group : option string;
    required : option bool;
    default_value : option string;
    validation_rules : option string;
    metadata : option Metadata.t
}.
End DataPadFieldUpdate.

(** The constraints [Field(..., min_length=1, max_length=255)] on [label] and
    [Field(None, max_length=100)] on [group]; the lengths are counted in
    code points. *)
Definition label_ok (s : string) : bool :=
  ((1 <=? len s) && (len s <=? 255))%nat.

Definition group_ok (g : option string) : bool :=
  match g with
  | None => true
  | Some s => (len s <=? 100)%nat
  end.

(** Construction of a [DataPadFieldCreate] from keyword arguments whose
    [field_type] is a plain string: pydantic validates the constraints and
    coerces the type, and raises [ValidationError] otherwise. *)
Definition new_DataPadFieldCreate (label field_type : string) (group : option string)
    (required : bool) (validation_rules : option string)
    (metadata : option Metadata.t) : Result DataPadFieldCreate.t :=
  if negb (label_ok label) then Raise (ValidationError "label")
  else match DataPadFieldType_of_string field_type with
       | None => Raise (ValidationError "field_type")
       | Some t =>
           if negb (group_ok group) then Raise (ValidationError "group")
           else Ok (DataPadFieldCreate.mk label t group required None
                      validation_rules metadata)
       end.

Definition new_DataPadFieldUpdate (label field_type : string) (group : option string)
    (required : bool) (validation_rules : option string)
    : Result DataPadFieldUpdate.t :=
  if negb (label_ok label) then Raise (ValidationError "label")
  else match DataPadFieldType_of_string field_type with
       | None => Raise (ValidationError "field_type")
       | Some t =>
           if negb (group_ok group) then Raise (ValidationError "group")
           else Ok (DataPadFieldUpdate.mk (Some label) (Some t) group (Some required)
                      None validation_rules None)
       end.

Module DataPadSyncPayload.
Record t : Type := mk {
    form_id : Z;
    field_ids : list Z;
    force : bool;
    conflict_resolution : string
}.
(** [DataPadSyncPayload(form_id=form_id)]: the declared defaults. *)
Definition default (form_id : Z) : t := mk form_id [] false "skip".
End DataPadSyncPayload.

Module DataPadSyncResult.
Record t : Type := mk {
    field_id : Z;
    status : SyncStatus;
    datapad_field_id : option string;
    error_message : option string;
    synced_at : option Z
}.
End DataPadSyncResult.

(** The [summary] dictionary always has the four keys written by
    [sync_document]; it is kept as a record of the four counters. *)
Module Summary.
Record t : Type := mk {
    synced : nat;
    pending : nat;
    failed : nat;
    skipped : nat
}.
Definition zero : t := mk 0 0 0 0.
End Summary.

Module DataPadSyncResponse.
Record t : Type := mk {
    form_id : Z;
    status : SyncStatus;
    results : list DataPadSyncResult.t;
    summary : Summary.t;
    message : option string;
    started_at : option Z;
    completed_at : option Z
}.
End DataPadSyncResponse.

Module DataPadSyncStatusResponse.
Record t : Type := mk {
  form_id : Z;
  status : SyncStatus;
  total_fields : nat;
  synced_fields : nat;
  pending_fields : nat;
  failed_fields : nat;
  last_sync_at : option Z;
  error_count : nat;
  errors : list string
}.
End DataPadSyncStatusResponse.

(** ** The REST client ([app/services/datapad_client.py]) *)

(** What one [httpx] request yields.  A response carries its status code, the
    message that [_handle_error_response] reads from its body, and what
    [response.json()] gives: a failure to decode, an object that validates as
    a [DataPadField], any other JSON object (the empty body counts as
    [{}]), or a JSON value that is no object (an array, a string, a number,
    [true], [false] or [null]).  The three other outcomes are the exceptions
    the request can raise. *)
Inductive Body : Type :=
| NotJson (err : string)
| JsonField (f : DataPadField.t)
| JsonOther
| JsonNoObject.

Inductive HttpOutcome : Type :=
| Response (status_code : Z) (message : string) (body : Body)
| Timeout (msg : string)
| Network (msg : string)
| Failure (msg : string).

(** [_handle_error_response]: the exception raised for an error status. *)
Definition _handle_error_response (status_code : Z) (message : string) : Exn :=
  if (status_code =? 401)%Z || (status_code =? 403)%Z then
    ApiError DataPadAuthenticationError message (Some status_code)
  else if (status_code =? 404)%Z then
    ApiError DataPadNotFoundError message (Some status_code)
  else if (status_code =? 422)%Z then
    ApiError DataPadValidationError message (Some status_code)
  else if (status_code =? 429)%Z then
    ApiError DataPadRateLimitError message (Some status_code)
  else
    ApiError DataPadAPIError message (Some status_code).

(** The body of [_request], run on the outcome of its one [client.request]
    call: error statuses are classified, time-outs and network errors are
    re-raised as they are, [DataPadAPIError] is re-raised, anything else
    becomes a plain [DataPadAPIError]. *)
Definition _request_body (o : HttpOutcome) : Result Body :=
  match o with
  | Response status_code message body =>
      if (400 <=? status_code)%Z then Raise (_handle_error_response status_code message)
      else match body with
           | NotJson err => Raise (ApiError DataPadAPIError ("Unexpected error: " ++ err) None)
           | _ => Ok body
           end
  | Timeout msg => Raise (TimeoutException msg)
  | Network msg => Raise (NetworkError msg)
  | Failure msg => Raise (ApiError DataPadAPIError ("Unexpected error: " ++ msg) None)
  end.

(** The three arguments of the [@retry] decorator (tenacity). *)

(** [retry_if_exception_type((httpx.TimeoutException, httpx.NetworkError))] *)
Definition retry_if_exception_type (e : Exn) : bool :=
  match e with
  | TimeoutException _ | NetworkError _ => true
  | _ => false
  end.

(** [wait_exponential(multiplier, min, max)]: the seconds slept after attempt
    [attempt_number], [max(max(0, min), min(multiplier * 2 ** (n - 1), max))]. *)
Definition wait_exponential (multiplier min max : Z) (attempt_number : nat) : Z :=
  Z.max (Z.max 0 min) (Z.min (multiplier * 2 ^ (Z.of_nat attempt_number - 1)) max).

(** [stop_after_attempt(n)] *)
Definition stop_after_attempt (max_attempt_number attempt_number : nat) : bool :=
  (max_attempt_number <=? attempt_number)%nat.

Module DataPadClient.

(** The client together with the network it talks to: [net i] is the outcome
    of the [i]-th request ever sent, [sent] logs the requests (method and
    URL path) and [slept] the seconds slept between attempts. *)
Record t : Type := mk {
  net : nat -> HttpOutcome;
  sent : list (string * string);
  slept : list Z
}.

(** One [client.request(...)]. *)
Definition request (method endpoint : string) (c : t) : HttpOutcome * t :=
  (net c (List.length (sent c)), mk (net c) (sent c ++ [(method, endpoint)])%list (slept c)).

Definition sleep (seconds : Z) (c : t) : t :=
  mk (net c) (sent c) (slept c ++ [seconds])%list.

(** The loop that [@retry(retry=..., wait=..., stop=...)] wraps around the
    body: attempts are numbered from 1; an attempt that raises an exception
    selected by [retry] is repeated after the [wait] unless [stop] holds, in
    which case [RetryError] is raised (no [reraise=True] is given); any other
    exception, and any result, leaves the loop.  [left] bounds the further
    attempts and only serves the recursion. *)
Fixpoint retrying (left attempt_number : nat) (method endpoint : string) (c : t)
    : Result Body * t :=
  let (o, c1) := request method endpoint c in
  match _request_body o with
  | Ok data => (Ok data, c1)
  | Raise e =>
      if retry_if_exception_type e then
        if stop_after_attempt 3 attempt_number then (Raise (RetryError (str_exn e)), c1)
        else match left with
             | O => (Raise (RetryError (str_exn e)), c1)
             | S left' =>
                 retrying left' (S attempt_number) method endpoint
                   (sleep (wait_exponential 1 2 10 attempt_number) c1)
             end
      else (Raise e, c1)
  end.

(** [_request] as the decorator leaves it. *)
Definition _request (method endpoint : string) (c : t) : Result Body * t :=
  retrying 2 1 method endpoint c.

(** Construction of a [DataPadField] from the response data, passed as
    keyword arguments: the schema refuses an object that is no field with
    its [ValidationError]; for data that is no mapping the call itself
    raises [TypeError]. *)
Definition to_field (r : Result Body) : Result DataPadField.t :=
  match r with
  | Ok (JsonField f) => Ok f
  | Ok JsonNoObject => Raise (TypeError "argument after ** must be a mapping")
  | Ok _ => Raise (ValidationError "DataPadField")
  | Raise e => Raise e
  end.

Definition create_field (field_data : DataPadFieldCreate.t) (c : t)
    : Result DataPadField.t * t :=
  let (data, c') := _request "POST" "/api/v1/fields" c in
  (to_field data, c').

Definition update_field (field_id : string) (update_data : DataPadFieldUpdate.t) (c : t)
    : Result DataPadField.t * t :=
  let (data, c') := _request "PATCH" ("/api/v1/fields/" ++ field_id) c in
  (to_field data, c').

(** [delete_field]: the data of the response is dropped. *)
Definition delete_field (field_id : string) (c : t) : Result unit * t :=
  let (data, c') := _request "DELETE" ("/api/v1/fields/" ++ field_id) c in
  (match data with
   | Ok _ => Ok tt
   | Raise e => Raise e
   end, c').

End DataPadClient.

(** What [SyncService] needs from its [datapad] collaborator; the real client
    and the in-memory mock both offer it.  [R] is the state of the remote
    side. *)
Class DataPadAPI (R : Type) : Type := {
  create_field : DataPadFieldCreate.t -> R -> Result DataPadField.t * R;
  update_field : string -> DataPadFieldUpdate.t -> R -> Result DataPadField.t * R
}.

#[export] Instance DataPadClient_API : DataPadAPI DataPadClient.t := {
  create_field := DataPadClient.create_field;
  update_field := DataPadClient.update_field
}.

(** ** The local store *)

(** [str(n)] for an integer. *)
Definition str_Z (z : Z) : string := NilZero.string_of_int (Z.to_int z).

(** [str(x)] for an [Optional[str]], as an f-string renders it. *)
Definition str_opt (o : option string) : string :=
  match o with
  | Some s => s
  | None => "None"
  end.

(** Modelled from the spec: the model classes [Form] and [FormField] that
    [sync_service.py] queries are not among the sources.  A [FormField] row
    has the columns [SyncService] reads and writes, which are those of the
    spec's PdfField: identity, parent document, source name, display label,
    group, type, required flag, validation pattern, optional remote field
    id, sync status and update time.  The status column holds the plain
    strings the service assigns and compares. *)
Module FormField.
Record t : Type := mk {
  id : Z;
  form_id : Z;
  pdf_name : string;
  display_label : option string;
  group_name : option string;
  field_type : string;
  required : bool;
  validation_pattern : option string;
  datapad_field_id : option string;
  status : string;
  updated_at : Z
}.

Definition set_status (v : string) (f : t) : t :=
  mk (id f) (form_id f) (pdf_name f) (display_label f) (group_name f) (field_type f)
     (required f) (validation_pattern f) (datapad_field_id f) v (updated_at f).

Definition set_updated_at (v : Z) (f : t) : t :=
  mk (id f) (form_id f) (pdf_name f) (display_label f) (group_name f) (field_type f)
     (required f) (validation_pattern f) (datapad_field_id f) (status f) v.

Definition set_datapad_field_id (v : option string) (f : t) : t :=
  mk (id f) (form_id f) (pdf_name f) (display_label f) (group_name f) (field_type f)
     (required f) (validation_pattern f) v (status f) (updated_at f).
End FormField.

(** A call made on the [datapad] collaborator, with its arguments. *)
Inductive Call : Type :=
| CreateField (field_data : DataPadFieldCreate.t)
| UpdateField (field_id : string) (update_data : DataPadFieldUpdate.t).

Definition is_create (c : Call) : bool :=
  match c with CreateField _ => true | UpdateField _ _ => false end.

(** Everything a [SyncService] acts on: the primary keys of the [Form] rows,
    the [FormField] rows, the remote side behind [self.datapad], the log of
    the calls made on it (kept only to state how many were made), and the
    clock read by [datetime.utcnow()]. *)
Record World (R : Type) : Type := mkWorld {
  forms : list Z;
  fields : list FormField.t;
  datapad : R;
  calls : list Call;
  clock : Z
}.
Arguments mkWorld {R}.
Arguments forms {R}.
Arguments fields {R}.
Arguments datapad {R}.
Arguments calls {R}.
Arguments clock {R}.

Section Store.
Context {R : Type}.

(** [datetime.utcnow()]: every reading advances the clock. *)
Definition utcnow (w : World R) : Z * World R :=
  (clock w, mkWorld (forms w) (fields w) (datapad w) (calls w) (clock w + 1)%Z).

(** [self.session.get(Form, document_id)] is not [None]. *)
Definition form_exists (document_id : Z) (w : World R) : bool :=
  existsb (Z.eqb document_id) (forms w).

(** [self.session.get(FormField, id)] *)
Definition session_get (id : Z) (w : World R) : option FormField.t :=
  find (fun r => (FormField.id r =? id)%Z) (fields w).

(** [self.session.add(field)] followed by [self.session.commit()]: the row
    with the primary key of the object takes the object's state. *)
Definition persist (field : FormField.t) (w : World R) : World R :=
  mkWorld (forms w)
    (map (fun r => if (FormField.id r =? FormField.id field)%Z then field else r) (fields w))
    (datapad w) (calls w) (clock w).

(** [select(FormField).where(FormField.form_id == document_id)], narrowed by
    [.where(FormField.id.in_(field_ids))] when [field_ids] is truthy, then
    [.all()]. *)
Definition select_fields (document_id : Z) (field_ids : option (list Z)) (w : World R)
    : list FormField.t :=
  let query := filter (fun r => (FormField.form_id r =? document_id)%Z) (fields w) in
  if truthy_opt_list field_ids then
    filter (fun r => existsb (Z.eqb (FormField.id r))
                       (match field_ids with Some l => l | None => [] end)) query
  else query.

End Store.

(** ** [SyncService] ([app/services/sync_service.py]) *)

Module SyncService.

(** The global names of [sync_service.py] once it is imported: those of its
    [import] statements and of its own top-level statements.  [Form] and
    [FormField], which [sync_document], [get_sync_status] and
    [reset_sync_status] look up, are not among them: from [app.models.form]
    the module imports [PdfDocument] and [PdfField]. *)
Definition module_globals : Globals :=
  [ "annotations"; "logging"; "datetime"; "List"; "Optional"; "Tuple";
    "Session"; "select"; "PdfDocument"; "PdfField";
    "DataPadFieldCreate"; "DataPadSyncPayload"; "DataPadSyncResponse";
    "DataPadSyncResult"; "DataPadSyncStatusResponse"; "SyncStatus";
    "DataPadAPIError"; "DataPadClient"; "DataPadNotFoundError";
    "logger"; "SyncConflictError"; "SyncService" ].

(** The dictionary literal of [_map_field_type]. *)
Definition mapping : list (string * string) :=
  [ ("text", "text");
    ("textarea", "textarea");
    ("number", "number");
    ("email", "email");
    ("phone", "phone");
    ("date", "date");
    ("checkbox", "checkbox");
    ("radio", "radio");
    ("dropdown", "select");
    ("signature", "signature");
    ("file", "file") ].

Definition _map_field_type (pdf_field_type : string) : string :=
  dict_get mapping (lower pdf_field_type) "text".

(** The [validation_rules] argument: [{"pattern": p}] if the pattern is
    truthy, else [None]. *)
Definition validation_rules_of (field : FormField.t) : option string :=
  if truthy_opt (FormField.validation_pattern field)
  then FormField.validation_pattern field else None.

(** The payload built by [_create_datapad_field]. *)
Definition create_data_of (field : FormField.t) : Result DataPadFieldCreate.t :=
  let field_type := _map_field_type (FormField.field_type field) in
  new_DataPadFieldCreate
    (py_or (FormField.display_label field) (FormField.pdf_name field))
    field_type
    (FormField.group_name field)
    (FormField.required field)
    (validation_rules_of field)
    (Some (Metadata.mk (FormField.pdf_name field) (FormField.form_id field)
             (FormField.id field))).

(** The payload built by [_update_datapad_field]. *)
Definition update_data_of (field : FormField.t) : Result DataPadFieldUpdate.t :=
  let field_type := _map_field_type (FormField.field_type field) in
  new_DataPadFieldUpdate
    (py_or (FormField.display_label field) (FormField.pdf_name field))
    field_type
    (FormField.group_name field)
    (FormField.required field)
    (validation_rules_of field).

Section WithClient.
Context {R : Type} {api : DataPadAPI R}.

Definition _create_datapad_field (field : FormField.t) (w : World R)
    : Result DataPadField.t * World R :=
  match create_data_of field with
  | Raise e => (Raise e, w)
  | Ok create_data =>
      let (r, d) := create_field create_data (datapad w) in
      (r, mkWorld (forms w) (fields w) d (calls w ++ [CreateField create_data]) (clock w))
  end.

Definition _update_datapad_field (field : FormField.t) (w : World R)
    : Result DataPadField.t * World R :=
  match update_data_of field with
  | Raise e => (Raise e, w)
  | Ok update_data =>
      let field_id := str_opt (FormField.datapad_field_id field) in
      let (r, d) := update_field field_id update_data (datapad w) in
      (r, mkWorld (forms w) (fields w) d (calls w ++ [UpdateField field_id update_data])
            (clock w))
  end.

(** [_sync_field].  The function calls itself from its [NotFound] handler;
    [fuel] bounds the depth of these nested calls, and [None] is returned
    when the bound is reached.  The result carries the final state of the
    [field] object next to the [DataPadSyncResult]. *)
Fixpoint _sync_field (fuel : nat) (field : FormField.t) (force : bool)
    (conflict_resolution : string) (w : World R)
    : option (FormField.t * DataPadSyncResult.t * World R) :=
  match fuel with
  | O => None
  | S fuel' =>
      (* Skip if already synced and not forcing *)
      if truthy_opt (FormField.datapad_field_id field)
         && String.eqb (FormField.status field) "synced"
         && negb force
      then
        Some (field,
              DataPadSyncResult.mk (FormField.id field) synced
                (FormField.datapad_field_id field) None None,
              w)
      else
        (* Update field status to syncing *)
        let field := FormField.set_status "syncing" field in
        let (now, w) := utcnow w in
        let field := FormField.set_updated_at now field in
        let w := persist field w in
        let (r, w) :=
          if truthy_opt (FormField.datapad_field_id field)
          then _update_datapad_field field w
          else _create_datapad_field field w in
        match r with
        | Ok datapad_field =>
            let field := FormField.set_datapad_field_id
                           (Some (DataPadField.id datapad_field)) field in
            let field := FormField.set_status "synced" field in
            let (now, w) := utcnow w in
            let field := FormField.set_updated_at now field in
            let w := persist field w in
            let (synced_at, w) := utcnow w in
            Some (field,
                  DataPadSyncResult.mk (FormField.id field) synced
                    (Some (DataPadField.id datapad_field)) None (Some synced_at),
                  w)
        | Raise (ApiError DataPadNotFoundError message _) =>
            if String.eqb conflict_resolution "overwrite" then
              let field := FormField.set_datapad_field_id None field in
              _sync_field fuel' field true conflict_resolution w
            else
              let field := FormField.set_status "conflict" field in
              let w := persist field w in
              Some (field,
                    DataPadSyncResult.mk (FormField.id field) conflict None
                      (Some ("DataPad field not found: " ++ message)%string) None,
                    w)
        | Raise (ApiError cls message _) =>
            let field := FormField.set_status "error" field in
            let w := persist field w in
            Some (field,
                  DataPadSyncResult.mk (FormField.id field) error None
                    (Some (class_name cls ++ ": " ++ message)%string) None,
                  w)
        | Raise e =>
            let field := FormField.set_status "error" field in
            let w := persist field w in
            Some (field,
                  DataPadSyncResult.mk (FormField.id field) error None
                    (Some ("Unexpected error: " ++ str_exn e)%string) None,
                  w)
        end
  end.

(** The update of [summary] after one result. *)
Definition count_result (summary : Summary.t) (result : DataPadSyncResult.t) : Summary.t :=
  let s := DataPadSyncResult.status result in
  if SyncStatus_eqb s synced then
    Summary.mk (Summary.synced summary + 1) (Summary.pending summary)
      (Summary.failed summary) (Summary.skipped summary)
  else if SyncStatus_eqb s pending then
    Summary.mk (Summary.synced summary) (Summary.pending summary + 1)
      (Summary.failed summary) (Summary.skipped summary)
  else if SyncStatus_eqb s error then
    Summary.mk (Summary.synced summary) (Summary.pending summary)
      (Summary.failed summary + 1) (Summary.skipped summary)
  else
    Summary.mk (Summary.synced summary) (Summary.pending summary)
      (Summary.failed summary) (Summary.skipped summary + 1).

(** The loop [for field in fields] of [sync_document]. *)
Fixpoint sync_loop (fuel : nat) (todo : list FormField.t) (force : bool)
    (conflict_resolution : string) (results : list DataPadSyncResult.t)
    (summary : Summary.t) (w : World R)
    : option (list DataPadSyncResult.t * Summary.t * World R) :=
  match todo with
  | [] => Some (results, summary, w)
  | field :: rest =>
      match _sync_field fuel field force conflict_resolution w with
      | None => None
      | Some (_, result, w) =>
          sync_loop fuel rest force conflict_resolution
            (results ++ [result]) (count_result summary result) w
      end
  end.

(** The document-level status computed from [summary]. *)
Definition overall_status (summary : Summary.t) : SyncStatus :=
  if (0 <? Summary.failed summary)%nat then error
  else if (0 <? Summary.pending summary)%nat then syncing
  else synced.

(** [sync_document], run with the global names [g].  The names [Form] (line
    97) and [FormField] (line 102) are looked up when these lines are run.
    [fuel] bounds the nesting of [_sync_field]; [None] says that the bound
    was reached, and nothing is said about what the interpreter does
    then. *)
Definition sync_document (g : Globals) (fuel : nat) (document_id : Z)
    (field_ids : option (list Z)) (force : bool) (conflict_resolution : string)
    (w : World R) : option (Result DataPadSyncResponse.t * World R) :=
  let (started_at, w) := utcnow w in
  (* Get document *)
  match load_name g "Form" with
  | Raise e => Some (Raise e, w)
  | Ok _ =>
  if negb (form_exists document_id w) then
    Some (Raise (ValueError ("Document " ++ str_Z document_id ++ " not found")), w)
  else
    (* Get fields to sync *)
    match load_name g "FormField" with
    | Raise e => Some (Raise e, w)
    | Ok _ =>
    let todo := select_fields document_id field_ids w in
    if negb (truthy_list todo) then
      let (completed_at, w) := utcnow w in
      Some (Ok (DataPadSyncResponse.mk document_id synced [] Summary.zero
                  (Some "No fields to sync") (Some started_at) (Some completed_at)),
            w)
    else
      (* Process each field *)
      match sync_loop fuel todo force conflict_resolution [] Summary.zero w with
      | None => None
      | Some (results, summary, w) =>
          let overall := overall_status summary in
          let (completed_at, w) := utcnow w in
          Some (Ok (DataPadSyncResponse.mk document_id overall results summary
                      None (Some started_at) (Some completed_at)),
                w)
      end
    end
  end.

(** The loop of [reset_sync_status].  The single [commit] after the loop is
    folded into the [add] of each object: nothing reads the session in
    between. *)
Fixpoint reset_loop (todo : list FormField.t) (count : nat) (w : World R)
    : nat * World R :=
  match todo with
  | [] => (count, w)
  | field :: rest =>
      let field := FormField.set_status "pending" field in
      let field := FormField.set_datapad_field_id None field in
      let (now, w) := utcnow w in
      let field := FormField.set_updated_at now field in
      let w := persist field w in
      reset_loop rest (count + 1) w
  end.

(** [reset_sync_status], run with the global names [g]: [FormField] is
    looked up on line 401, before anything else is done. *)
Definition reset_sync_status (g : Globals) (document_id : Z)
    (field_ids : option (list Z)) (w : World R) : Result nat * World R :=
  match load_name g "FormField" with
  | Raise e => (Raise e, w)
  | Ok _ =>
      let (count, w) := reset_loop (select_fields document_id field_ids w) 0 w in
      (Ok count, w)
  end.

(** [get_sync_status], run with the global names [g]: [Form] is looked up
    on line 344 and [FormField] on line 349.  It reads the session and
    nothing else, so the world is not threaded through it. *)
Definition get_sync_status (g : Globals) (document_id : Z) (w : World R)
    : Result DataPadSyncStatusResponse.t :=
  match load_name g "Form" with
  | Raise e => Raise e
  | Ok _ =>
  if negb (form_exists document_id w) then
    Raise (ValueError ("Document " ++ str_Z document_id ++ " not found"))
  else
    match load_name g "FormField" with
    | Raise e => Raise e
    | Ok _ =>
    (* Get all fields *)
    let rows := select_fields document_id None w in
    let total_fields := List.length rows in
    let synced_fields :=
      count_if (fun f => String.eqb (FormField.status f) "synced") rows in
    let pending_fields :=
      count_if (fun f => existsb (String.eqb (FormField.status f)) ["pending"; "draft"])
        rows in
    let failed_fields :=
      count_if (fun f => String.eqb (FormField.status f) "error") rows in
    (* Get last sync time *)
    let synced_rows := filter (fun f => String.eqb (FormField.status f) "synced") rows in
    let last_sync_at :=
      if truthy_list synced_rows then max_default (map FormField.updated_at synced_rows)
      else None in
    (* Collect errors *)
    let errors :=
      map (fun f => ("Field " ++ str_Z (FormField.id f) ++ " ("
                     ++ FormField.pdf_name f ++ "): Sync failed")%string)
        (filter (fun f => String.eqb (FormField.status f) "error") rows) in
    (* Determine overall status *)
    let status :=
      if (0 <? failed_fields)%nat then error
      else if (0 <? pending_fields)%nat then pending
      else if (total_fields =? synced_fields)%nat then synced
      else pending in
    Ok (DataPadSyncStatusResponse.mk document_id status total_fields synced_fields
          pending_fields failed_fields last_sync_at (List.length errors) errors)
    end
  end.

End WithClient.
End SyncService.

(** ** The routes ([app/api/routes/datapad.py]) *)

Module Routes.

(** [HTTPException(status_code=..., detail=...)]; the [detail] is rendered as
    the message it carries. *)
Record HTTPException : Type := mk {
  status_code : Z;
  detail : string
}.

(** [handle_datapad_error] *)
Definition handle_datapad_error (cls : ApiErrorClass) (message : string)
    (code : option Z) : HTTPException :=
  let status_code :=
    match cls with
    | DataPadAuthenticationError => 401%Z
    | DataPadNotFoundError => 404%Z
    | DataPadValidationError => 422%Z
    | DataPadRateLimitError => 429%Z
    | DataPadAPIError =>
        match code with
        | Some c => if (c =? 0)%Z then 500%Z else c
        | None => 500%Z
        end
    end in
  mk status_code message.

Section WithClient.
Context {R : Type} {api : DataPadAPI R}.

(** [sync_form]: the payload defaults, the call of [sync_document] with
    [field_ids] turned into [None] when it is empty, and the three [except]
    clauses ([pydantic.ValidationError] is a [ValueError]).  [g] are the
    global names of the module of the service.  The result is [None] when
    that of [sync_document] is: the bound on the nested calls was reached,
    and nothing is said about what the handler does then. *)
Definition sync_form (g : Globals) (fuel : nat) (form_id : Z)
    (payload : option DataPadSyncPayload.t) (w : World R)
    : option ((HTTPException + DataPadSyncResponse.t) * World R) :=
  let payload :=
    match payload with
    | Some p => p
    | None => DataPadSyncPayload.default form_id
    end in
  match SyncService.sync_document g fuel form_id
          (if truthy_list (DataPadSyncPayload.field_ids payload)
           then Some (DataPadSyncPayload.field_ids payload) else None)
          (DataPadSyncPayload.force payload)
          (DataPadSyncPayload.conflict_resolution payload) w with
  | None => None
  | Some (Ok response, w') => Some (inr response, w')
  | Some (Raise (ValueError msg), w') => Some (inl (mk 404 msg), w')
  | Some (Raise (ValidationError msg), w') => Some (inl (mk 404 msg), w')
  | Some (Raise (ApiError cls message code), w') =>
      Some (inl (handle_datapad_error cls message code), w')
  | Some (Raise e, w') => Some (inl (mk 500 ("Sync failed: " ++ str_exn e)), w')
  end.

(** What a route handler ends with: the value it returns, the
    [HTTPException] it raises, or an exception that none of its [except]
    clauses catches. *)
Inductive Outcome (A : Type) : Type :=
| Returned (a : A)
| HttpRaised (exc : HTTPException)
| Propagated (e : Exn).
Arguments Returned {A} a.
Arguments HttpRaised {A} exc.
Arguments Propagated {A} e.

(** The [try] ... [except DataPadAPIError as e: raise handle_datapad_error(e)]
    that the field routes wrap around a client call. *)
Definition guarded {A : Type} (r : Result A * R) : Outcome A * R :=
  match r with
  | (Ok a, d) => (Returned a, d)
  | (Raise (ApiError cls message code), d) =>
      (HttpRaised (handle_datapad_error cls message code), d)
  | (Raise e, d) => (Propagated e, d)
  end.

Definition create_datapad_field (field_data : DataPadFieldCreate.t) (d : R)
    : Outcome DataPadField.t * R :=
  guarded (create_field field_data d).

Definition update_datapad_field (field_id : string) (update_data : DataPadFieldUpdate.t)
    (d : R) : Outcome DataPadField.t * R :=
  guarded (update_field field_id update_data d).

(** The [get_sync_status] route: [ValueError] becomes a 404. *)
Definition get_sync_status (g : Globals) (form_id : Z) (w : World R)
    : Outcome DataPadSyncStatusResponse.t :=
  match SyncService.get_sync_status g form_id w with
  | Ok response => Returned response
  | Raise (ValueError msg) => HttpRaised (mk 404 msg)
  | Raise (ValidationError msg) => HttpRaised (mk 404 msg)
  | Raise e => Propagated e
  end.

(** The [reset_sync] route: the count of [reset_sync_status] under
    ["fields_reset"]; [ValueError] becomes a 404. *)
Definition reset_sync (g : Globals) (form_id : Z) (field_ids : option (list Z))
    (w : World R) : Outcome (Z * nat) * World R :=
  match SyncService.reset_sync_status g form_id field_ids w with
  | (Ok count, w') => (Returned (form_id, count), w')
  | (Raise (ValueError msg), w') => (HttpRaised (mk 404 msg), w')
  | (Raise (ValidationError msg), w') => (HttpRaised (mk 404 msg), w')
  | (Raise e, w') => (Propagated e, w')
  end.

End WithClient.

Arguments Returned {A} a.
Arguments HttpRaised {A} exc.
Arguments Propagated {A} e.

(** The [delete_datapad_field] route; the collaborator interface of the
    synchronisation has no delete, so the route is given over the REST
    client. *)
Definition delete_datapad_field (field_id : string) (d : DataPadClient.t)
    : Outcome unit * DataPadClient.t :=
  guarded (DataPadClient.delete_field field_id d).

End Routes.

(** ** The field types of the extraction ([app/services/pdf_service.py]) *)

Module PDFAnalysisService.

(** The dictionary literal of [_map_field_type], keyed by the PyMuPDF widget
    type. *)
Definition mapping : list (Z * string) :=
  [ (1%Z, "checkbox");
    (2%Z, "text");
    (3%Z, "select");
    (4%Z, "signature");
    (5%Z, "text");
    (6%Z, "checkbox");
    (7%Z, "text") ].

Fixpoint get (d : list (Z * string)) (key : Z) (default : string) : string :=
  match d with
  | [] => default
  | (k, v) :: rest => if (key =? k)%Z then v else get rest key default
  end.

Definition _map_field_type (fitz_type : Z) : string :=
  get mapping fitz_type "text".

End PDFAnalysisService.

(** ** Sample data *)

Module Sample.

Definition remote_field (id : string) : DataPadField.t :=
  DataPadField.mk id "Kundennummer" text (Some "Allgemein") true None None None.

(** A local field of document 1. *)
Definition field (id : Z) (datapad_field_id : option string) (status : string)
    : FormField.t :=
  FormField.mk id 1 "customer_no" (Some "Kundennummer") (Some "Allgemein") "Text"
    true None datapad_field_id status 0.

(** A client whose network answers the requests with the listed outcomes, in
    order, and times out afterwards. *)
Definition client (script : list HttpOutcome) : DataPadClient.t :=
  DataPadClient.mk (fun i => nth i script (Timeout "timed out")) [] [].

Definition world (rows : list FormField.t) (script : list HttpOutcome)
    : World DataPadClient.t :=
  mkWorld [1%Z] rows (client script) [] 100.

(** A client whose network answers every request with the same outcome. *)
Definition always (o : HttpOutcome) : DataPadClient.t :=
  DataPadClient.mk (fun _ => o) [] [].

(** A remote side that accepts every call, as the in-memory mock accepts
    every create; its state counts the fields created. *)
Definition accepting : DataPadAPI nat := {|
  create_field := fun field_data n =>
    (Ok (DataPadField.mk ("mock-" ++ str_Z (Z.of_nat n))
           (DataPadFieldCreate.label field_data)
           (DataPadFieldCreate.field_type field_data)
           (DataPadFieldCreate.group field_data)
           (DataPadFieldCreate.required field_data)
           (DataPadFieldCreate.default_value field_data)
           (DataPadFieldCreate.validation_rules field_data)
           (DataPadFieldCreate.metadata field_data)),
     S n);
  update_field := fun field_id update_data n => (Ok (remote_field field_id), n)
|}.

Definition ok (id : string) : HttpOutcome := Response 200 "" (JsonField (remote_field id)).
Definition not_found : HttpOutcome := Response 404 "Field not found" JsonOther.
Definition server_error : HttpOutcome := Response 500 "Internal error" JsonOther.

(** Document 1 with two unmapped fields; the remote side fails on the first
    create and accepts the second. *)
Definition two_fields : World DataPadClient.t :=
  world [field 7 None "draft"; field 8 None "draft"] [server_error; ok "dp-8"].

End Sample.

(** * Vocabulary of the statements *)

(** ** The field type mapping *)

(** The capital of a lower-case ASCII letter. *)
Definition capital (k : ascii) : ascii :=
  ascii_of_nat (nat_of_ascii k - 32).

(** [s] is [key] up to case, for a [key] of lower-case ASCII letters:
    character by character [s] has the letter of [key] or its capital;
    U+212A KELVIN SIGN (the bytes 226 132 170) counts as a capital [k]. *)
Fixpoint caseless (s key : string) : bool :=
  match key with
  | EmptyString =>
      match s with
      | EmptyString => true
      | String _ _ => false
      end
  | String k key' =>
      match s with
      | EmptyString => false
      | String c s' =>
          if Ascii.eqb c k || Ascii.eqb c (capital k) then caseless s' key'
          else if Ascii.eqb k "k" then
            match s' with
            | String c2 (String c3 s3) =>
                if Ascii.eqb c "226" && Ascii.eqb c2 "132" && Ascii.eqb c3 "170"
                then caseless s3 key'
                else false
            | _ => false
            end
          else false
      end
  end.

(** A key of lower-case ASCII letters. *)
Definition small_letter (k : ascii) : bool :=
  ((97 <=? nat_of_ascii k) && (nat_of_ascii k <=? 122))%nat.

Fixpoint small_letters (key : string) : bool :=
  match key with
  | EmptyString => true
  | String k key' => small_letter k && small_letters key'
  end.

(** Every 8-bit character. *)
Definition all_ascii : list ascii := map ascii_of_nat (seq 0 256).

(** ** Global names *)

(** The names [Form] and [FormField] are bound. *)
Definition names_bound (g : Globals) : Prop :=
  bound g "Form" = true /\ bound g "FormField" = true.

(** The global names of the module of the service once [Form] and
    [FormField] are bound as well, to the mapped classes of the tables that
    [forms] and [fields] hold. *)
Definition with_models : Globals :=
  "Form" :: "FormField" :: SyncService.module_globals.

(** ** The transport *)

(** A transient failure of the transport: a time-out or a network error. *)
Definition transient (o : HttpOutcome) : bool :=
  match o with
  | Timeout _ | Network _ => true
  | _ => false
  end.

(** What the last attempt of [_request] turns its outcome into. *)
Definition final_result (o : HttpOutcome) : Result Body :=
  match _request_body o with
  | Ok data => Ok data
  | Raise e => if retry_if_exception_type e then Raise (RetryError (str_exn e)) else Raise e
  end.

(** ** The steps of [_sync_field] *)

Section StepsOfSyncField.
Context {R : Type} {api : DataPadAPI R}.

(** The guard of the first [if]. *)
Definition skipped (field : FormField.t) (force : bool) : bool :=
  truthy_opt (FormField.datapad_field_id field)
  && String.eqb (FormField.status field) "synced"
  && negb force.

(** The field and the world once the status ["syncing"] is committed. *)
Definition mark_syncing (field : FormField.t) (w : World R) : FormField.t * World R :=
  let field1 := FormField.set_updated_at (clock w) (FormField.set_status "syncing" field) in
  (field1, persist field1 (snd (utcnow w))).

(** The call in the [try] block. *)
Definition remote_call (field : FormField.t) (w : World R) : Result DataPadField.t * World R :=
  if truthy_opt (FormField.datapad_field_id field)
  then SyncService._update_datapad_field field w
  else SyncService._create_datapad_field field w.

(** The end of the [try] block after a successful call. *)
Definition finish_synced (field : FormField.t) (datapad_field : DataPadField.t)
    (w : World R) : FormField.t * DataPadSyncResult.t * World R :=
  let field2 :=
    FormField.set_updated_at (clock w)
      (FormField.set_status "synced"
         (FormField.set_datapad_field_id (Some (DataPadField.id datapad_field)) field)) in
  (field2,
   DataPadSyncResult.mk (FormField.id field) synced
     (Some (DataPadField.id datapad_field)) None (Some (clock w + 1)%Z),
   snd (utcnow (persist field2 (snd (utcnow w))))).

(** The handlers that end with a result of status [s] and a message. *)
Definition finish_failed (s : SyncStatus) (status : string) (field : FormField.t)
    (error_message : string) (w : World R)
    : FormField.t * DataPadSyncResult.t * World R :=
  let field2 := FormField.set_status status field in
  (field2,
   DataPadSyncResult.mk (FormField.id field) s None (Some error_message) None,
   persist field2 w).

End StepsOfSyncField.

(** ** Results and summaries *)

(** A result is either a success without error message, or an [error] or
    [conflict] entry that carries a non-empty message. *)
Definition entry_ok (result : DataPadSyncResult.t) : Prop :=
  (DataPadSyncResult.status result = synced
   /\ DataPadSyncResult.error_message result = None)
  \/ ((DataPadSyncResult.status result = error
       \/ DataPadSyncResult.status result = conflict)
      /\ exists m, DataPadSyncResult.error_message result = Some m /\ m <> "").

(** The number of results that have the status [s]. *)
Definition count_status (s : SyncStatus) (results : list DataPadSyncResult.t) : nat :=
  List.length (filter (fun r => SyncStatus_eqb (DataPadSyncResult.status r) s) results).

(** The [create_field] of the client never raises [DataPadNotFoundError]
    (so it is for the in-memory mock, whose [create_field] raises
    nothing). *)
Definition create_never_not_found {R : Type} {api : DataPadAPI R} : Prop :=
  forall (field_data : DataPadFieldCreate.t) (r : R) (message : string) (code : option Z),
    fst (create_field field_data r) <> Raise (ApiError DataPadNotFoundError message code).

(** ** Rows *)

(** The row that [reset_sync_status] writes for [field] at time [now]. *)
Definition reset_row (now : Z) (field : FormField.t) : FormField.t :=
  FormField.set_updated_at now
    (FormField.set_datapad_field_id None (FormField.set_status "pending" field)).

(** A row without its update time. *)
Definition core (field : FormField.t) : FormField.t :=
  FormField.set_updated_at 0 field.

(** The rows of a document. *)
Definition document_fields {R : Type} (document_id : Z) (w : World R) : list FormField.t :=
  filter (fun r => (FormField.form_id r =? document_id)%Z) (fields w).

(** [id] is the primary key of the [FormField] table. *)
Definition primary_key {R : Type} (w : World R) : Prop :=
  NoDup (map FormField.id (fields w)).

(** The rows after a reset of a whole document, up to update times: the
    rows of the document are reset, the others are as they were. *)
Definition reset_core (document_id : Z) (r : FormField.t) : FormField.t :=
  if (FormField.form_id r =? document_id)%Z then core (reset_row 0 r) else core r.

(** The string that [_sync_field] stores in the status column when its
    result has the status [s]. *)
Definition status_string (s : SyncStatus) : string :=
  match s with
  | pending => "pending"
  | syncing => "syncing"
  | synced => "synced"
  | error => "error"
  | conflict => "conflict"
  end.

(** A stored row agrees with the entry that [_sync_field] returned for it. *)
Definition row_entry (row : FormField.t) (result : DataPadSyncResult.t) : Prop :=
  FormField.status row = status_string (DataPadSyncResult.status result)
  /\ DataPadSyncResult.field_id result = FormField.id row
  /\ (DataPadSyncResult.status result = synced ->
      FormField.datapad_field_id row = DataPadSyncResult.datapad_field_id result).

(** The result of the skip branch of [_sync_field]. *)
Definition skip_result (field : FormField.t) : DataPadSyncResult.t :=
  DataPadSyncResult.mk (FormField.id field) synced (FormField.datapad_field_id field)
    None None.

(** The selection of [select_fields] as a test on one row. *)
Definition selected (document_id : Z) (field_ids : option (list Z)) (r : FormField.t) : bool :=
  (FormField.form_id r =? document_id)%Z
  && (if truthy_opt_list field_ids
      then existsb (Z.eqb (FormField.id r)) (match field_ids with Some l => l | None => [] end)
      else true).

(** ** Claims as the spec words them *)

(** The claim C4 as the spec words it: any non-null remote field id
    suffices. *)
Definition already_synced_skipped_when_non_null : Prop :=
  forall (field : FormField.t) (w : World DataPadClient.t) (remote_id : string),
    FormField.datapad_field_id field = Some remote_id ->
    FormField.status field = "synced" ->
    SyncService._sync_field 1 field false "skip" w
    = Some (field,
            DataPadSyncResult.mk (FormField.id field) synced (Some remote_id) None None,
            w).

(** * Properties *)

(** ** The field type mapping *)

Section FieldTypeMapping.
Import SyncService.

Ltac split_keys :=
  repeat match goal with
    | |- context [String.eqb ?a ?b] => destruct (String.eqb_spec a b)
    end.

Lemma dict_get_mapping_member (k : string) :
  exists t, DataPadFieldType_of_string (dict_get mapping k "text") = Some t
            /\ DataPadFieldType_value t = dict_get mapping k "text".
Proof.
  unfold mapping; cbn [dict_get].
  split_keys; eexists; split; reflexivity.
Qed.

(** Checking a property of characters on every character. *)
Lemma in_all_ascii (c : ascii) : In c all_ascii.
Proof.
  unfold all_ascii. rewrite <- (ascii_nat_embedding c). apply in_map, in_seq.
  pose proof (nat_ascii_bounded c). lia.
Qed.

Lemma for_all_ascii (p : ascii -> bool) :
  forallb p all_ascii = true -> forall c, p c = true.
Proof. intros H c. exact (proj1 (forallb_forall p all_ascii) H c (in_all_ascii c)). Qed.

(** A character lower-cases to the small letter [k] exactly when it is [k]
    or its capital. *)
Lemma lower_ascii_small (c k : ascii) :
  small_letter k = true ->
  Ascii.eqb (lower_ascii c) k = Ascii.eqb c k || Ascii.eqb c (capital k).
Proof.
  intros Hk.
  assert (Hall : forallb (fun c0 =>
             forallb (fun k0 => implb (small_letter k0)
                        (Bool.eqb (Ascii.eqb (lower_ascii c0) k0)
                           (Ascii.eqb c0 k0 || Ascii.eqb c0 (capital k0)))) all_ascii)
           all_ascii = true) by (vm_compute; reflexivity).
  pose proof (for_all_ascii _ (for_all_ascii _ Hall c) k) as H. cbv beta in H.
  rewrite Hk in H. cbn [implb] in H.
  apply Bool.eqb_prop in H. exact H.
Qed.

(** No small letter, and no capital, is one of the bytes 196, 204 and 226. *)
Lemma small_letter_bytes (k : ascii) :
  small_letter k = true ->
  Ascii.eqb "196" k = false /\ Ascii.eqb "196" (capital k) = false
  /\ Ascii.eqb "226" k = false /\ Ascii.eqb "226" (capital k) = false
  /\ Ascii.eqb "204" k = false.
Proof.
  intros Hk.
  assert (H : forall k,
             implb (small_letter k)
               (negb (Ascii.eqb "196" k) && negb (Ascii.eqb "196" (capital k))
                && negb (Ascii.eqb "226" k) && negb (Ascii.eqb "226" (capital k))
                && negb (Ascii.eqb "204" k)) = true)
    by (apply for_all_ascii; vm_compute; reflexivity).
  specialize (H k). rewrite Hk in H. cbn [implb] in H.
  repeat (apply andb_true_iff in H; destruct H as (H & ?)).
  repeat split; apply negb_true_iff; assumption.
Qed.

Lemma lower_step (c : ascii) (rest : string) :
  lower (String c rest)
  = match rest with
    | EmptyString => String (lower_ascii c) EmptyString
    | String c2 rest2 =>
        if Ascii.eqb c "196" && Ascii.eqb c2 "176" then
          String "i" (String "204" (String "135" (lower rest2)))
        else
          match rest2 with
          | EmptyString => String (lower_ascii c) (lower rest)
          | String c3 rest3 =>
              if Ascii.eqb c "226" && Ascii.eqb c2 "132" && Ascii.eqb c3 "170"
              then String "k" (lower rest3)
              else String (lower_ascii c) (lower rest)
          end
    end.
Proof. destruct rest as [| c2 [| c3 rest3]]; reflexivity. Qed.

(** Lower-casing gives a key of small letters exactly for the strings that
    are the key up to case. *)
Lemma lower_eqb_caseless (key : string) :
  small_letters key = true ->
  forall s, String.eqb (lower s) key = caseless s key.
Proof.
  induction key as [| k key IH]; intros Hkey s.
  - destruct s as [| c rest]; [reflexivity |].
    rewrite lower_step. cbn [caseless].
    destruct rest as [| c2 [| c3 rest3]]; [reflexivity | |].
    + destruct (_ && _); reflexivity.
    + destruct (Ascii.eqb c "196" && Ascii.eqb c2 "176"); [reflexivity |].
      destruct (_ && _ && _); reflexivity.
  - cbn [small_letters] in Hkey. apply andb_true_iff in Hkey.
    destruct Hkey as (Hk & Hkey). specialize (IH Hkey).
    destruct (small_letter_bytes k Hk) as (H196 & H196c & H226 & H226c & H204).
    destruct s as [| c rest]; [reflexivity |].
    rewrite lower_step. cbn [caseless].
    assert (Hplain : String.eqb (String (lower_ascii c) (lower rest)) (String k key)
                     = if Ascii.eqb c k || Ascii.eqb c (capital k)
                       then caseless rest key else false).
    { cbn [String.eqb]. rewrite (lower_ascii_small c k Hk), IH. reflexivity. }
    destruct rest as [| c2 rest2].
    + change (String (lower_ascii c) "") with (String (lower_ascii c) (lower "")).
      rewrite Hplain. destruct (_ || _); [reflexivity |].
      destruct (Ascii.eqb k "k"); reflexivity.
    + destruct (Ascii.eqb c "196" && Ascii.eqb c2 "176") eqn:Hidot.
      * apply andb_true_iff in Hidot. destruct Hidot as (Hc & _).
        apply Ascii.eqb_eq in Hc. subst c. rewrite H196, H196c. cbn [orb].
        cbn [String.eqb]. transitivity false.
        { destruct (Ascii.eqb "i" k); [| reflexivity].
          destruct key as [| k2 key2]; [reflexivity |].
          cbn [small_letters] in Hkey. apply andb_true_iff in Hkey.
          destruct (small_letter_bytes k2 (proj1 Hkey)) as (_ & _ & _ & _ & ->).
          reflexivity. }
        { destruct (Ascii.eqb k "k"); [| reflexivity]. destruct rest2; reflexivity. }
      * destruct rest2 as [| c3 rest3].
        -- rewrite Hplain. destruct (_ || _); [reflexivity |].
           destruct (Ascii.eqb k "k"); reflexivity.
        -- destruct (Ascii.eqb c "226" && Ascii.eqb c2 "132" && Ascii.eqb c3 "170")
             eqn:Hkelvin.
           ++ pose proof Hkelvin as Hc.
              apply andb_true_iff in Hc. destruct Hc as (Hc & _).
              apply andb_true_iff in Hc. destruct Hc as (Hc & _).
              apply Ascii.eqb_eq in Hc. subst c. rewrite H226, H226c. cbn [orb].
              cbn [String.eqb]. rewrite IH, (Ascii.eqb_sym "k" k).
              reflexivity.
           ++ rewrite Hplain. destruct (_ || _); [reflexivity |].
              destruct (Ascii.eqb k "k"); reflexivity.
Qed.

Lemma new_create_field_type label ft group required rules meta p :
  new_DataPadFieldCreate label ft group required rules meta = Ok p ->
  DataPadFieldType_of_string ft = Some (DataPadFieldCreate.field_type p).
Proof.
  unfold new_DataPadFieldCreate.
  destruct (negb (label_ok label)); [discriminate |].
  destruct (DataPadFieldType_of_string ft); [| discriminate].
  destruct (negb (group_ok group)); [discriminate |].
  intros E; injection E as <-; reflexivity.
Qed.

Lemma new_update_field_type label ft group required rules p :
  new_DataPadFieldUpdate label ft group required rules = Ok p ->
  option_map Some (DataPadFieldType_of_string ft)
  = Some (DataPadFieldUpdate.field_type p).
Proof.
  unfold new_DataPadFieldUpdate.
  destruct (negb (label_ok label)); [discriminate |].
  destruct (DataPadFieldType_of_string ft); [| discriminate].
  destruct (negb (group_ok group)); [discriminate |].
  intros E; injection E as <-; reflexivity.
Qed.

(** C10.  [_map_field_type] is total into the remote type enum: for every
    input string its result is the value of a member of [DataPadFieldType],
    so the payloads that [_create_datapad_field] and [_update_datapad_field]
    build for a field carry that member as their type and their
    construction never fails on the type.  The result is ["select"] for an
    input that is ["dropdown"] up to case, the type itself for an input
    that is, up to case, one of ["text"], ["textarea"], ["number"],
    ["email"], ["phone"], ["date"], ["checkbox"], ["radio"], ["signature"]
    and ["file"], and ["text"] for every other input. *)
Theorem map_field_type_total (s : string) :
  (exists t : DataPadFieldType,
      DataPadFieldType_of_string (_map_field_type s) = Some t
      /\ DataPadFieldType_value t = _map_field_type s
      /\ forall field : FormField.t,
           FormField.field_type field = s ->
           (forall p, create_data_of field = Ok p -> DataPadFieldCreate.field_type p = t)
           /\ (forall p, update_data_of field = Ok p ->
                         DataPadFieldUpdate.field_type p = Some t)
           /\ create_data_of field <> Raise (ValidationError "field_type")
           /\ update_data_of field <> Raise (ValidationError "field_type"))
  /\ _map_field_type s
     = (if caseless s "text" then "text"
        else if caseless s "textarea" then "textarea"
        else if caseless s "number" then "number"
        else if caseless s "email" then "email"
        else if caseless s "phone" then "phone"
        else if caseless s "date" then "date"
        else if caseless s "checkbox" then "checkbox"
        else if caseless s "radio" then "radio"
        else if caseless s "dropdown" then "select"
        else if caseless s "signature" then "signature"
        else if caseless s "file" then "file"
        else "text")
  /\ (caseless s "dropdown" = true -> _map_field_type s = "select")
  /\ (forall k,
        In k ["text"; "textarea"; "number"; "email"; "phone"; "date"; "checkbox";
              "radio"; "signature"; "file"] ->
        caseless s k = true -> _map_field_type s = k)
  /\ ((forall k,
         In k ["text"; "textarea"; "number"; "email"; "phone"; "date"; "checkbox";
               "radio"; "dropdown"; "signature"; "file"] ->
         caseless s k = false) ->
      _map_field_type s = "text").
Proof.
  assert (Hcase : _map_field_type s
                  = (if caseless s "text" then "text"
                     else if caseless s "textarea" then "textarea"
                     else if caseless s "number" then "number"
                     else if caseless s "email" then "email"
                     else if caseless s "phone" then "phone"
                     else if caseless s "date" then "date"
                     else if caseless s "checkbox" then "checkbox"
                     else if caseless s "radio" then "radio"
                     else if caseless s "dropdown" then "select"
                     else if caseless s "signature" then "signature"
                     else if caseless s "file" then "file"
                     else "text")).
  { unfold _map_field_type, mapping. cbn [dict_get].
    rewrite !lower_eqb_caseless by reflexivity. reflexivity. }
  assert (Hkey : forall k, caseless s k = true -> small_letters k = true ->
                           _map_field_type s = dict_get mapping k "text").
  { intros k H Hk. rewrite <- (lower_eqb_caseless k Hk) in H.
    apply String.eqb_eq in H. unfold _map_field_type. rewrite H. reflexivity. }
  split; [| split; [exact Hcase | split; [| split]]].
  - unfold _map_field_type.
    destruct (dict_get_mapping_member (lower s)) as (t & Ht & Hv).
    exists t. split; [exact Ht | split; [exact Hv |]].
    intros field <-. unfold create_data_of, update_data_of, _map_field_type.
    repeat split.
    + intros p Hp. apply new_create_field_type in Hp. congruence.
    + intros p Hp. apply new_update_field_type in Hp.
      rewrite Ht in Hp. cbn in Hp. congruence.
    + unfold new_DataPadFieldCreate. rewrite Ht.
      destruct (negb (label_ok _)); [discriminate |].
      destruct (negb (group_ok _)); discriminate.
    + unfold new_DataPadFieldUpdate. rewrite Ht.
      destruct (negb (label_ok _)); [discriminate |].
      destruct (negb (group_ok _)); discriminate.
  - intros H. exact (Hkey "dropdown" H eq_refl).
  - intros k Hk H.
    repeat (destruct Hk as [<- | Hk]; [exact (Hkey _ H eq_refl) |]).
    destruct Hk.
  - intros H. rewrite Hcase.
    rewrite !H by (cbn [In]; tauto). reflexivity.
Qed.

End FieldTypeMapping.
(** ** The retry policy of [_request] *)

Section Retry.
Import DataPadClient.

Lemma retry_iff_transient (o : HttpOutcome) :
  match _request_body o with
  | Ok _ => transient o = false
  | Raise e => retry_if_exception_type e = transient o
  end.
Proof.
  destruct o as [sc msg body | | |]; cbn; try reflexivity.
  destruct (400 <=? sc)%Z.
  - unfold _handle_error_response.
    repeat match goal with |- context [if ?b then _ else _] => destruct b end;
      reflexivity.
  - destruct body; reflexivity.
Qed.

Lemma wait_exponential_bounds (attempt_number : nat) :
  (2 <= wait_exponential 1 2 10 attempt_number <= 10)%Z.
Proof. unfold wait_exponential. lia. Qed.

(** The attempts of the loop started at attempt [a] with [left] further
    attempts allowed, [a + left = 3]: it sends [n] requests, all but the last
    answered by a transient failure, sleeps after each of these, and returns
    what the last outcome gives. *)
Lemma retrying_spec (left : nat) :
  forall (a : nat) (method endpoint : string) (c : t),
    a + left = 3 ->
    exists n : nat,
      1 <= n <= left + 1
      /\ net (snd (retrying left a method endpoint c)) = net c
      /\ sent (snd (retrying left a method endpoint c))
         = (sent c ++ repeat (method, endpoint) n)%list
      /\ slept (snd (retrying left a method endpoint c))
         = (slept c ++ map (wait_exponential 1 2 10) (seq a (n - 1)))%list
      /\ (forall i, i < n - 1 -> transient (net c (List.length (sent c) + i)) = true)
      /\ (n < left + 1 -> transient (net c (List.length (sent c) + (n - 1))) = false)
      /\ fst (retrying left a method endpoint c)
         = final_result (net c (List.length (sent c) + (n - 1))).
Proof.
  induction left as [| left IH]; intros a method endpoint c Ha.
  - exists 1. cbn [retrying request]. unfold final_result.
    replace (List.length (sent c) + (1 - 1)) with (List.length (sent c)) by lia.
    destruct (_request_body (net c (List.length (sent c)))) as [data | e];
      cbn [fst snd net sent slept repeat seq map Nat.sub].
    + rewrite app_nil_r. repeat split; try lia; intros; lia.
    + replace (stop_after_attempt 3 a) with true
        by (unfold stop_after_attempt; symmetry; apply Nat.leb_le; lia).
      destruct (retry_if_exception_type e);
        cbn [fst snd net sent slept repeat seq map Nat.sub];
        rewrite app_nil_r; repeat split; try lia; intros; lia.
  - cbn [retrying request].
    pose proof (retry_iff_transient (net c (List.length (sent c)))) as Htr.
    unfold final_result.
    destruct (_request_body (net c (List.length (sent c)))) as [data | e] eqn:Hbody.
    + exists 1. cbn [fst snd net sent slept repeat seq map Nat.sub].
      replace (List.length (sent c) + 0) with (List.length (sent c)) by lia.
      rewrite Hbody, app_nil_r. repeat split; try lia; auto; intros; lia.
    + destruct (retry_if_exception_type e) eqn:Hretry.
      * replace (stop_after_attempt 3 a) with false
          by (unfold stop_after_attempt; symmetry; apply Nat.leb_gt; lia).
        set (c1 := sleep _ _).
        destruct (IH (S a) method endpoint c1 ltac:(lia))
          as (n & Hn & Hnet & Hsent & Hslept & Hpre & Hlast & Hres).
        assert (Hlen : List.length (sent c1) = List.length (sent c) + 1)
          by (subst c1; cbn [sleep sent]; rewrite length_app; reflexivity).
        assert (Hnet1 : net c1 = net c) by reflexivity.
        assert (Hidx : forall k, List.length (sent c1) + k = List.length (sent c) + S k)
          by (intros k; lia).
        exists (S n).
        replace (S n - 1) with (S (n - 1)) by lia.
        split; [lia |].
        split; [rewrite Hnet; exact Hnet1 |].
        split.
        { rewrite Hsent. subst c1; cbn [sleep sent repeat].
          rewrite <- app_assoc. reflexivity. }
        split.
        { rewrite Hslept. subst c1; cbn [sleep slept seq map].
          rewrite <- app_assoc. reflexivity. }
        split.
        { intros i Hi. destruct i as [| i].
          - rewrite Nat.add_0_r. congruence.
          - rewrite <- Hidx, <- Hnet1. apply Hpre. lia. }
        split.
        { intros Hlt. rewrite <- Hidx, <- Hnet1. apply Hlast. lia. }
        rewrite Hres, Hnet1, Hidx. reflexivity.
      * exists 1. cbn [fst snd net sent slept repeat seq map Nat.sub].
        replace (List.length (sent c) + 0) with (List.length (sent c)) by lia.
        rewrite Hbody, Hretry, app_nil_r.
        repeat split; try lia; try (intros; lia). intros _. congruence.
Qed.

(** C7.  One call of [_request] sends between one and three requests.  Every
    request but the last was answered by a time-out or a network error, and
    a request that is not answered so is the last one: only transient
    failures are retried, three attempts at most.  After the attempt
    numbered [k] that is retried the client sleeps
    [wait_exponential 1 2 10 k] seconds, between 2 and 10.  When the first
    request is answered with a status of 400 or more, it is the only request
    sent, nothing is slept, and the classified error of
    [_handle_error_response] is raised. *)
Theorem request_retry_policy (method endpoint : string) (c : t) :
  let r := fst (_request method endpoint c) in
  let c' := snd (_request method endpoint c) in
  exists n : nat,
    1 <= n <= 3
    /\ net c' = net c
    /\ sent c' = (sent c ++ repeat (method, endpoint) n)%list
    /\ slept c' = (slept c ++ map (wait_exponential 1 2 10) (seq 1 (n - 1)))%list
    /\ (forall k, (2 <= wait_exponential 1 2 10 k <= 10)%Z)
    /\ (forall i, i < n - 1 -> transient (net c (List.length (sent c) + i)) = true)
    /\ (n < 3 -> transient (net c (List.length (sent c) + (n - 1))) = false)
    /\ r = final_result (net c (List.length (sent c) + (n - 1)))
    /\ (forall status_code message body,
          net c (List.length (sent c)) = Response status_code message body ->
          (400 <= status_code)%Z ->
          n = 1 /\ slept c' = slept c
          /\ r = Raise (_handle_error_response status_code message)).
Proof.
  cbv zeta. unfold _request.
  destruct (retrying_spec 2 1 method endpoint c eq_refl)
    as (n & Hn & Hnet & Hsent & Hslept & Hpre & Hlast & Hres).
  exists n.
  split; [lia |]. split; [exact Hnet |]. split; [exact Hsent |].
  split; [exact Hslept |]. split; [exact wait_exponential_bounds |].
  split; [exact Hpre |]. split; [exact Hlast |]. split; [exact Hres |].
  intros status_code message body Hfirst Hcode.
  assert (n = 1) as ->.
  { destruct (Nat.eq_dec n 1) as [| Hne]; [assumption | exfalso].
    specialize (Hpre 0 ltac:(lia)). rewrite Nat.add_0_r, Hfirst in Hpre.
    discriminate. }
  split; [reflexivity |]. split.
  - rewrite Hslept. cbn. apply app_nil_r.
  - rewrite Hres. cbn [Nat.sub]. rewrite Nat.add_0_r, Hfirst.
    pose proof (retry_iff_transient (Response status_code message body)) as Htr.
    unfold final_result. cbn [_request_body] in *.
    apply Z.leb_le in Hcode. rewrite Hcode in *. cbn [transient] in Htr.
    rewrite Htr. reflexivity.
Qed.

End Retry.

(** ** One field: [_sync_field] *)

Section Steps.
Context {R : Type} {api : DataPadAPI R}.
Import SyncService.

Lemma _sync_field_step (fuel : nat) (field : FormField.t) (force : bool)
    (conflict_resolution : string) (w : World R) :
  _sync_field (S fuel) field force conflict_resolution w
  = if skipped field force then
      Some (field,
            DataPadSyncResult.mk (FormField.id field) synced
              (FormField.datapad_field_id field) None None,
            w)
    else
      match remote_call (fst (mark_syncing field w)) (snd (mark_syncing field w)) with
      | (Ok datapad_field, w2) =>
          Some (finish_synced (fst (mark_syncing field w)) datapad_field w2)
      | (Raise (ApiError DataPadNotFoundError message _), w2) =>
          if String.eqb conflict_resolution "overwrite" then
            _sync_field fuel
              (FormField.set_datapad_field_id None (fst (mark_syncing field w)))
              true conflict_resolution w2
          else
            Some (finish_failed conflict "conflict" (fst (mark_syncing field w))
                    ("DataPad field not found: " ++ message) w2)
      | (Raise (ApiError cls message _), w2) =>
          Some (finish_failed error "error" (fst (mark_syncing field w))
                  (class_name cls ++ ": " ++ message) w2)
      | (Raise e, w2) =>
          Some (finish_failed error "error" (fst (mark_syncing field w))
                  ("Unexpected error: " ++ str_exn e) w2)
      end.
Proof.
  cbn [_sync_field]. unfold skipped.
  destruct (truthy_opt _ && _ && negb force); [reflexivity |].
  unfold mark_syncing, remote_call, finish_synced, finish_failed.
  cbn [utcnow fst snd].
  destruct (if truthy_opt _ then _ else _) as [[datapad_field | e] w2]; [reflexivity |].
  destruct e as [cls message c | | | | | | | |]; reflexivity.
Qed.

End Steps.

Section SyncField.
Context {R : Type} {api : DataPadAPI R}.
Import SyncService.

Lemma truthy_opt_some (o : option string) (s : string) :
  o = Some s -> s <> "" -> truthy_opt o = true.
Proof. intros -> Hs. destruct s; [contradiction | reflexivity]. Qed.

Lemma session_get_persist (field0 field : FormField.t) (w : World R) :
  FormField.id field = FormField.id field0 ->
  session_get (FormField.id field0) w <> None ->
  session_get (FormField.id field0) (persist field w) = Some field.
Proof.
  unfold session_get, persist; cbn [fields]. intros Hid. rewrite Hid.
  induction (fields w) as [| r rows IH]; cbn [find map]; [congruence |].
  destruct (FormField.id r =? FormField.id field0)%Z eqn:E.
  - intros _. rewrite Hid, Z.eqb_refl. reflexivity.
  - rewrite E. exact IH.
Qed.

Lemma skipped_false (field : FormField.t) (force : bool) :
  truthy_opt (FormField.datapad_field_id field) = true ->
  String.eqb (FormField.status field) "synced" && negb force = false ->
  skipped field force = false.
Proof. unfold skipped. intros -> H. exact H. Qed.

Lemma remote_call_update (field : FormField.t) (w : World R)
    (update_data : DataPadFieldUpdate.t) (r : Result DataPadField.t) (d : R) :
  truthy_opt (FormField.datapad_field_id field) = true ->
  update_data_of field = Ok update_data ->
  update_field (str_opt (FormField.datapad_field_id field)) update_data (datapad w)
  = (r, d) ->
  remote_call (fst (mark_syncing field w)) (snd (mark_syncing field w))
  = (r, mkWorld (forms w) (fields (snd (mark_syncing field w))) d
          (calls w ++ [UpdateField (str_opt (FormField.datapad_field_id field)) update_data])
          (clock w + 1)).
Proof.
  intros Hid Hdata Hcall. unfold remote_call.
  change (FormField.datapad_field_id (fst (mark_syncing field w)))
    with (FormField.datapad_field_id field).
  rewrite Hid. unfold _update_datapad_field.
  change (update_data_of (fst (mark_syncing field w))) with (update_data_of field).
  rewrite Hdata.
  change (FormField.datapad_field_id (fst (mark_syncing field w)))
    with (FormField.datapad_field_id field).
  change (datapad (snd (mark_syncing field w))) with (datapad w).
  rewrite Hcall. reflexivity.
Qed.

Lemma remote_call_create (field : FormField.t) (w : World R)
    (create_data : DataPadFieldCreate.t) (r : Result DataPadField.t) (d : R) :
  truthy_opt (FormField.datapad_field_id field) = false ->
  create_data_of field = Ok create_data ->
  create_field create_data (datapad w) = (r, d) ->
  remote_call (fst (mark_syncing field w)) (snd (mark_syncing field w))
  = (r, mkWorld (forms w) (fields (snd (mark_syncing field w))) d
          (calls w ++ [CreateField create_data]) (clock w + 1)).
Proof.
  intros Hid Hdata Hcall. unfold remote_call.
  change (FormField.datapad_field_id (fst (mark_syncing field w)))
    with (FormField.datapad_field_id field).
  rewrite Hid. unfold _create_datapad_field.
  change (create_data_of (fst (mark_syncing field w))) with (create_data_of field).
  rewrite Hdata.
  change (datapad (snd (mark_syncing field w))) with (datapad w).
  rewrite Hcall. reflexivity.
Qed.

Lemma append_nonempty (a b : string) : a <> "" -> (a ++ b)%string <> "".
Proof. destruct a; [contradiction | discriminate]. Qed.

(** C2.  Let a field with a remote field id be synchronised (it is not
    skipped), let its update payload be built, and let [update_field] raise
    [DataPadNotFoundError].  Under the policy ["skip"] or ["merge"],
    [_sync_field] returns with the field in status ["conflict"] and its
    remote field id unchanged; the result has the status [conflict] and a
    non-empty error message; the call of [update_field] is the only call
    made on the client; the stored row of the field is the returned
    field. *)
Theorem sync_field_not_found_conflict (fuel : nat) (field : FormField.t) (force : bool)
    (conflict_resolution : string) (w : World R)
    (update_data : DataPadFieldUpdate.t) (message : string) (code : option Z) (d : R) :
  truthy_opt (FormField.datapad_field_id field) = true ->
  String.eqb (FormField.status field) "synced" && negb force = false ->
  update_data_of field = Ok update_data ->
  update_field (str_opt (FormField.datapad_field_id field)) update_data (datapad w)
  = (Raise (ApiError DataPadNotFoundError message code), d) ->
  conflict_resolution = "skip" \/ conflict_resolution = "merge" ->
  exists (field' : FormField.t) (result : DataPadSyncResult.t) (w' : World R),
    _sync_field (S fuel) field force conflict_resolution w = Some (field', result, w')
    /\ FormField.status field' = "conflict"
    /\ FormField.datapad_field_id field' = FormField.datapad_field_id field
    /\ DataPadSyncResult.field_id result = FormField.id field
    /\ DataPadSyncResult.status result = conflict
    /\ (exists m, DataPadSyncResult.error_message result = Some m /\ m <> "")
    /\ calls w' = calls w
                  ++ [UpdateField (str_opt (FormField.datapad_field_id field)) update_data]
    /\ datapad w' = d
    /\ (session_get (FormField.id field) w <> None ->
        session_get (FormField.id field) w' = Some field').
Proof.
  intros Hid Hskip Hdata Hcall Hcr.
  rewrite _sync_field_step, (skipped_false _ _ Hid Hskip).
  rewrite (remote_call_update _ _ _ _ _ Hid Hdata Hcall).
  assert (String.eqb conflict_resolution "overwrite" = false) as ->
    by (destruct Hcr as [-> | ->]; reflexivity).
  eexists _, _, _. split; [reflexivity |].
  repeat split.
  - eexists; split; [reflexivity |]. apply append_nonempty. discriminate.
  - intros Hstored.
    apply (session_get_persist field); [reflexivity |].
    cbn [mark_syncing snd].
    change (session_get (FormField.id field)
              (persist (fst (mark_syncing field w)) (snd (utcnow w))) <> None).
    rewrite (session_get_persist field); [discriminate | reflexivity | exact Hstored].
Qed.

(** X1.  The retry under the policy ["overwrite"], when it goes as intended:
    the update raises [DataPadNotFoundError], the remote field id is
    cleared, and the [create_field] call that follows succeeds.  Then that
    create is the only call after the update, and the field ends ["synced"]
    (not ["conflict"]) with the id of the created remote field. *)
Theorem sync_field_not_found_overwrite (fuel : nat) (field : FormField.t) (force : bool)
    (w : World R) (update_data : DataPadFieldUpdate.t) (message : string)
    (code : option Z) (d1 : R) (create_data : DataPadFieldCreate.t)
    (datapad_field : DataPadField.t) (d2 : R) :
  truthy_opt (FormField.datapad_field_id field) = true ->
  String.eqb (FormField.status field) "synced" && negb force = false ->
  update_data_of field = Ok update_data ->
  update_field (str_opt (FormField.datapad_field_id field)) update_data (datapad w)
  = (Raise (ApiError DataPadNotFoundError message code), d1) ->
  create_data_of field = Ok create_data ->
  create_field create_data d1 = (Ok datapad_field, d2) ->
  exists (field' : FormField.t) (result : DataPadSyncResult.t) (w' : World R),
    _sync_field (S (S fuel)) field force "overwrite" w = Some (field', result, w')
    /\ FormField.status field' = "synced"
    /\ FormField.datapad_field_id field' = Some (DataPadField.id datapad_field)
    /\ DataPadSyncResult.status result = synced
    /\ DataPadSyncResult.datapad_field_id result = Some (DataPadField.id datapad_field)
    /\ DataPadSyncResult.error_message result = None
    /\ calls w' = calls w
                  ++ [UpdateField (str_opt (FormField.datapad_field_id field)) update_data;
                      CreateField create_data]
    /\ datapad w' = d2
    /\ (session_get (FormField.id field) w <> None ->
        session_get (FormField.id field) w' = Some field').
Proof.
  intros Hid Hskip Hupd Hcall Hcre Hcreate.
  rewrite _sync_field_step, (skipped_false _ _ Hid Hskip).
  rewrite (remote_call_update _ _ _ _ _ Hid Hupd Hcall).
  cbn [String.eqb Ascii.eqb Bool.eqb].
  set (w1 := mkWorld _ _ d1 _ _).
  set (field1 := FormField.set_datapad_field_id None (fst (mark_syncing field w))).
  rewrite _sync_field_step.
  change (skipped field1 true) with false. cbv iota.
  assert (Hcall1 : create_field create_data (datapad w1) = (Ok datapad_field, d2))
    by exact Hcreate.
  rewrite (remote_call_create field1 w1 create_data _ _ eq_refl Hcre Hcall1).
  eexists _, _, _. split; [reflexivity |].
  repeat split.
  - subst w1. cbn [calls]. rewrite <- app_assoc. reflexivity.
  - intros Hstored.
    change (FormField.id field) with (FormField.id field1).
    apply session_get_persist; [reflexivity |].
    change (session_get (FormField.id field1)
              (persist (fst (mark_syncing field1 w1)) (snd (utcnow w1))) <> None).
    rewrite session_get_persist; [discriminate | reflexivity |].
    change (session_get (FormField.id field)
              (persist (fst (mark_syncing field w)) (snd (utcnow w))) <> None).
    rewrite (session_get_persist field); [discriminate | reflexivity | exact Hstored].
Qed.

Lemma skipped_forced (field : FormField.t) : skipped field true = false.
Proof. unfold skipped. cbn [negb]. apply andb_false_r. Qed.

Lemma skipped_unmapped (field : FormField.t) (force : bool) :
  truthy_opt (FormField.datapad_field_id field) = false -> skipped field force = false.
Proof. unfold skipped. intros ->. reflexivity. Qed.

(** X3.  A field with a remote field id that is synchronised with
    [force = true], whatever its status: when the update payload is built
    and [update_field] succeeds, that call is the only call made on the
    client (no [create_field]), and the field ends ["synced"] with the id of
    the returned remote field. *)
Theorem sync_field_forced_update (fuel : nat) (field : FormField.t)
    (conflict_resolution : string) (w : World R)
    (update_data : DataPadFieldUpdate.t) (datapad_field : DataPadField.t) (d : R) :
  truthy_opt (FormField.datapad_field_id field) = true ->
  update_data_of field = Ok update_data ->
  update_field (str_opt (FormField.datapad_field_id field)) update_data (datapad w)
  = (Ok datapad_field, d) ->
  exists (field' : FormField.t) (result : DataPadSyncResult.t) (w' : World R),
    _sync_field (S fuel) field true conflict_resolution w = Some (field', result, w')
    /\ FormField.status field' = "synced"
    /\ FormField.datapad_field_id field' = Some (DataPadField.id datapad_field)
    /\ DataPadSyncResult.status result = synced
    /\ DataPadSyncResult.datapad_field_id result = Some (DataPadField.id datapad_field)
    /\ calls w' = calls w
                  ++ [UpdateField (str_opt (FormField.datapad_field_id field)) update_data]
    /\ datapad w' = d.
Proof.
  intros Hid Hdata Hcall.
  rewrite _sync_field_step, skipped_forced.
  rewrite (remote_call_update _ _ _ _ _ Hid Hdata Hcall).
  eexists _, _, _. split; [reflexivity |]. repeat split.
Qed.

(** X4.  A field without remote field id: when the create payload is built
    and [create_field] succeeds, that call is the only call made on the
    client, and the field ends ["synced"] with the id of the created remote
    field. *)
Theorem sync_field_unmapped_create (fuel : nat) (field : FormField.t) (force : bool)
    (conflict_resolution : string) (w : World R)
    (create_data : DataPadFieldCreate.t) (datapad_field : DataPadField.t) (d : R) :
  truthy_opt (FormField.datapad_field_id field) = false ->
  create_data_of field = Ok create_data ->
  create_field create_data (datapad w) = (Ok datapad_field, d) ->
  exists (field' : FormField.t) (result : DataPadSyncResult.t) (w' : World R),
    _sync_field (S fuel) field force conflict_resolution w = Some (field', result, w')
    /\ FormField.status field' = "synced"
    /\ FormField.datapad_field_id field' = Some (DataPadField.id datapad_field)
    /\ DataPadSyncResult.status result = synced
    /\ DataPadSyncResult.datapad_field_id result = Some (DataPadField.id datapad_field)
    /\ calls w' = calls w ++ [CreateField create_data]
    /\ datapad w' = d.
Proof.
  intros Hid Hdata Hcall.
  rewrite _sync_field_step, (skipped_unmapped _ _ Hid).
  rewrite (remote_call_create _ _ _ _ _ Hid Hdata Hcall).
  eexists _, _, _. split; [reflexivity |]. repeat split.
Qed.

(** C4, as the code has it.  Let a field have a remote field id that is
    neither null nor the empty string, and the status ["synced"].  Then
    [_sync_field] with [force = false] returns at once: the field object and
    the whole world (the stored rows, the remote side, the log of client
    calls, the clock) are what they were, and the result has the status
    [synced] and carries the remote field id of the field. *)
Theorem sync_field_already_synced (fuel : nat) (field : FormField.t)
    (conflict_resolution : string) (w : World R) (remote_id : string) :
  FormField.datapad_field_id field = Some remote_id ->
  remote_id <> "" ->
  FormField.status field = "synced" ->
  _sync_field (S fuel) field false conflict_resolution w
  = Some (field,
          DataPadSyncResult.mk (FormField.id field) synced (Some remote_id) None None,
          w).
Proof.
  intros Hid Hne Hst. cbn [_sync_field].
  rewrite (truthy_opt_some _ _ Hid Hne), Hst, Hid. reflexivity.
Qed.

End SyncField.

(** ** The retry under ["overwrite"] against the REST client *)

Section OverwriteRetry.
Import SyncService.

Lemma request_not_found (method endpoint : string) (c : DataPadClient.t) :
  DataPadClient.net c (List.length (DataPadClient.sent c)) = Sample.not_found ->
  DataPadClient._request method endpoint c
  = (Raise (ApiError DataPadNotFoundError "Field not found" (Some 404%Z)),
     DataPadClient.mk (DataPadClient.net c)
       (DataPadClient.sent c ++ [(method, endpoint)]) (DataPadClient.slept c)).
Proof.
  intros H. unfold DataPadClient._request. cbn [DataPadClient.retrying DataPadClient.request].
  rewrite H. reflexivity.
Qed.

(** C1, at a failing input.  A field with the remote field id ["dp-1"] is
    synchronised under ["overwrite"] by the REST client, and the remote
    side answers 404 to the update and to the first create, then 200.  The
    handler runs a second time: two [create_field] calls follow the update,
    and a retry that is bounded by one nested call does not return. *)
Theorem overwrite_retry_repeats :
  let field := Sample.field 7 (Some "dp-1") "pending" in
  let w := Sample.world [field] [Sample.not_found; Sample.not_found; Sample.ok "dp-9"] in
  exists (field' : FormField.t) (result : DataPadSyncResult.t) (w' : World DataPadClient.t),
    _sync_field 3 field false "overwrite" w = Some (field', result, w')
    /\ map is_create (calls w') = [false; true; true]
    /\ List.length (filter is_create (calls w')) = 2
    /\ FormField.status field' = "synced"
    /\ _sync_field 2 field false "overwrite" w = None.
Proof.
  cbv zeta. eexists _, _, _.
  split; [vm_compute; reflexivity |].
  repeat split.
Qed.

(** X2.  As long as the remote side answers 404, the handler of
    ["overwrite"] calls [_sync_field] again: no bound on the nesting lets it
    return. *)
Theorem overwrite_retry_unbounded (fuel : nat) :
  forall (field : FormField.t) (force : bool) (w : World DataPadClient.t),
    (forall i, DataPadClient.net (datapad w) i = Sample.not_found) ->
    (exists update_data, update_data_of field = Ok update_data) ->
    (exists create_data, create_data_of field = Ok create_data) ->
    skipped field force = false ->
    _sync_field fuel field force "overwrite" w = None.
Proof.
  induction fuel as [| fuel IH]; intros field force w Hnet Hupd Hcre Hskip;
    [reflexivity |].
  rewrite _sync_field_step, Hskip.
  destruct Hupd as (update_data & Hupd). destruct Hcre as (create_data & Hcre).
  destruct (truthy_opt (FormField.datapad_field_id field)) eqn:Hid.
  - erewrite remote_call_update; [| exact Hid | exact Hupd |];
      [| cbn [update_field DataPadClient_API]; unfold DataPadClient.update_field;
         rewrite request_not_found by apply Hnet; reflexivity].
    cbn [String.eqb Ascii.eqb Bool.eqb].
    apply IH; [exact Hnet | exists update_data; exact Hupd
               | exists create_data; exact Hcre | reflexivity].
  - erewrite remote_call_create; [| exact Hid | exact Hcre |];
      [| cbn [create_field DataPadClient_API]; unfold DataPadClient.create_field;
         rewrite request_not_found by apply Hnet; reflexivity].
    cbn [String.eqb Ascii.eqb Bool.eqb].
    apply IH; [exact Hnet | exists update_data; exact Hupd
               | exists create_data; exact Hcre | reflexivity].
Qed.

End OverwriteRetry.

(** ** What one field does to the client and to the table *)

Section FieldEffects.
Context {R : Type} {api : DataPadAPI R}.
Import SyncService.

(** The call in the [try] block leaves the session and the clock alone and
    makes at most one call on the client: an update for a mapped field, a
    create for an unmapped one, none when the payload is refused. *)
Lemma remote_call_world (field : FormField.t) (w : World R)
    (r : Result DataPadField.t) (w2 : World R) :
  remote_call field w = (r, w2) ->
  forms w2 = forms w /\ fields w2 = fields w /\ clock w2 = clock w
  /\ exists new : list Call,
       calls w2 = calls w ++ new
       /\ (new = []
           \/ exists c, new = [c]
                        /\ is_create c = negb (truthy_opt (FormField.datapad_field_id field))).
Proof.
  unfold remote_call.
  destruct (truthy_opt (FormField.datapad_field_id field)).
  - unfold _update_datapad_field.
    destruct (update_data_of field) as [update_data | e].
    + destruct (update_field _ _ _) as [r0 d]. intros E; injection E as <- <-.
      repeat split. eexists. split; [reflexivity |]. right. eexists. split; reflexivity.
    + intros E; injection E as <- <-. repeat split.
      exists []. rewrite app_nil_r. split; [reflexivity | left; reflexivity].
  - unfold _create_datapad_field.
    destruct (create_data_of field) as [create_data | e].
    + destruct (create_field _ _) as [r0 d]. intros E; injection E as <- <-.
      repeat split. eexists. split; [reflexivity |]. right. eexists. split; reflexivity.
    + intros E; injection E as <- <-. repeat split.
      exists []. rewrite app_nil_r. split; [reflexivity | left; reflexivity].
Qed.

(** X9.  The calls that one run of [_sync_field] makes on the client: none
    when the field is skipped; otherwise at most one [update_field], which
    is then the first call, every later call being a [create_field]; and no
    [update_field] at all for a field without remote field id. *)
Theorem sync_field_calls (fuel : nat) :
  forall (field : FormField.t) (force : bool) (conflict_resolution : string)
         (w : World R) (field' : FormField.t) (result : DataPadSyncResult.t)
         (w' : World R),
    _sync_field fuel field force conflict_resolution w = Some (field', result, w') ->
    exists new : list Call,
      calls w' = calls w ++ new
      /\ Forall (fun c => is_create c = true) (tl new)
      /\ (truthy_opt (FormField.datapad_field_id field) = false ->
          Forall (fun c => is_create c = true) new)
      /\ (skipped field force = true -> new = []).
Proof.
  induction fuel as [| fuel IH]; intros field force cr w field' result w';
    [discriminate |].
  rewrite _sync_field_step.
  destruct (skipped field force) eqn:Hskip.
  { intros E; injection E as <- <- <-. exists []. rewrite app_nil_r.
    repeat split; constructor. }
  destruct (remote_call _ _) as [r w2] eqn:Hcall.
  destruct (remote_call_world _ _ _ _ Hcall) as (_ & _ & _ & new1 & Hcalls & Hnew1).
  change (calls (snd (mark_syncing field w))) with (calls w) in Hcalls.
  change (FormField.datapad_field_id (fst (mark_syncing field w)))
    with (FormField.datapad_field_id field) in Hnew1.
  assert (Hone : forall w3 : World R,
             calls w3 = calls w2 ->
             exists new : list Call,
               calls w3 = calls w ++ new
               /\ Forall (fun c => is_create c = true) (tl new)
               /\ (truthy_opt (FormField.datapad_field_id field) = false ->
                   Forall (fun c => is_create c = true) new)
               /\ (false = true -> new = [])).
  { intros w3 H3. exists new1. rewrite H3, Hcalls. split; [reflexivity |].
    destruct Hnew1 as [-> | (c & -> & Hc)].
    - repeat split; try constructor; try discriminate.
    - split; [constructor |]. split; [| discriminate].
      intros Hid. rewrite Hid in Hc. constructor; [exact Hc | constructor]. }
  destruct r as [datapad_field | e].
  { intros E; injection E as <- <- <-. apply Hone. reflexivity. }
  destruct e as [cls message code | m | m | m | m | m | m | m | m];
    try (intros E; injection E as <- <- <-; apply Hone; reflexivity).
  destruct cls; try (intros E; injection E as <- <- <-; apply Hone; reflexivity).
  destruct (String.eqb cr "overwrite");
    [| intros E; injection E as <- <- <-; apply Hone; reflexivity].
  intros Hrec. apply IH in Hrec.
  destruct Hrec as (new2 & Hcalls2 & _ & Hcreates & _).
  specialize (Hcreates eq_refl).
  exists (new1 ++ new2). rewrite Hcalls2, Hcalls, app_assoc. split; [reflexivity |].
  destruct Hnew1 as [-> | (c & -> & Hc)]; cbn [app tl].
  - split; [destruct new2; [constructor | inversion Hcreates; assumption] |].
    split; [intros _; exact Hcreates | discriminate].
  - split; [exact Hcreates |]. split; [| discriminate].
    intros Hid. rewrite Hid in Hc. constructor; [exact Hc | exact Hcreates].
Qed.

Lemma some_eq {A : Type} (a b : A) : Some a = Some b -> a = b.
Proof. intros H. injection H as H. exact H. Qed.

Lemma persist_twice (f1 f2 : FormField.t) (w wa : World R) :
  fields wa = fields (persist f1 w) ->
  FormField.id f1 = FormField.id f2 ->
  fields (persist f2 wa) = fields (persist f2 w).
Proof.
  intros Hrows Hid. unfold persist in *. cbn [fields] in *. rewrite Hrows, map_map.
  apply map_ext. intros r.
  destruct (FormField.id r =? FormField.id f1)%Z eqn:E.
  - rewrite Hid, Z.eqb_refl. rewrite <- Hid, E. reflexivity.
  - reflexivity.
Qed.

Lemma finish_synced_effect (field1 : FormField.t) (datapad_field : DataPadField.t)
    (w2 : World R) (field' : FormField.t) (result : DataPadSyncResult.t) (w' : World R) :
  finish_synced field1 datapad_field w2 = (field', result, w') ->
  FormField.id field' = FormField.id field1
  /\ FormField.form_id field' = FormField.form_id field1
  /\ forms w' = forms w2
  /\ row_entry field' result
  /\ fields w' = fields (persist field' w2).
Proof.
  unfold finish_synced. intros E; injection E as <- <- <-. repeat split.
Qed.

Lemma finish_failed_effect (s : SyncStatus) (field1 : FormField.t) (msg : string)
    (w2 : World R) (field' : FormField.t) (result : DataPadSyncResult.t) (w' : World R) :
  s <> synced ->
  finish_failed s (status_string s) field1 msg w2 = (field', result, w') ->
  FormField.id field' = FormField.id field1
  /\ FormField.form_id field' = FormField.form_id field1
  /\ forms w' = forms w2
  /\ row_entry field' result
  /\ fields w' = fields (persist field' w2).
Proof.
  unfold finish_failed. intros Hs E; injection E as <- <- <-.
  repeat split. intros H. contradiction.
Qed.

(** What a run of [_sync_field] leaves behind: the returned field object
    has the key and the document of the field it was given and agrees with
    the returned entry; either the field was skipped and nothing changed, or
    the row with its key holds the returned object and no other row
    changed. *)
Lemma sync_field_effect (fuel : nat) :
  forall (field : FormField.t) (force : bool) (conflict_resolution : string)
         (w : World R) (field' : FormField.t) (result : DataPadSyncResult.t)
         (w' : World R),
    _sync_field fuel field force conflict_resolution w = Some (field', result, w') ->
    FormField.id field' = FormField.id field
    /\ FormField.form_id field' = FormField.form_id field
    /\ forms w' = forms w
    /\ row_entry field' result
    /\ ((skipped field force = true /\ w' = w /\ field' = field)
        \/ (skipped field force = false /\ fields w' = fields (persist field' w))).
Proof.
  induction fuel as [| fuel IH]; intros field force cr w field' result w';
    [discriminate |].
  rewrite _sync_field_step.
  destruct (skipped field force) eqn:Hskip.
  { intros E; injection E as <- <- <-.
    split; [reflexivity |]. split; [reflexivity |]. split; [reflexivity |].
    split; [| left; repeat split].
    unfold skipped in Hskip. apply andb_prop in Hskip. destruct Hskip as (Hskip & _).
    apply andb_prop in Hskip. destruct Hskip as (_ & Hst). apply String.eqb_eq in Hst.
    repeat split. exact Hst. }
  destruct (remote_call _ _) as [r w2] eqn:Hcall.
  destruct (remote_call_world _ _ _ _ Hcall) as (Hforms & Hrows & _ & _).
  change (forms (snd (mark_syncing field w))) with (forms w) in Hforms.
  change (fields (snd (mark_syncing field w)))
    with (fields (persist (fst (mark_syncing field w)) w)) in Hrows.
  assert (Hfail : forall s msg,
             s <> synced ->
             Some (finish_failed s (status_string s) (fst (mark_syncing field w)) msg w2)
             = Some (field', result, w') ->
             FormField.id field' = FormField.id field
             /\ FormField.form_id field' = FormField.form_id field
             /\ forms w' = forms w
             /\ row_entry field' result
             /\ ((false = true /\ w' = w /\ field' = field)
                 \/ (false = false /\ fields w' = fields (persist field' w)))).
  { intros s msg Hs E. apply some_eq in E.
    destruct (finish_failed_effect _ _ _ _ _ _ _ Hs E) as (Hid & Hdoc & Hf & Hentry & Hr).
    split; [exact Hid |]. split; [exact Hdoc |]. split; [congruence |].
    split; [exact Hentry |]. right. split; [reflexivity |].
    rewrite Hr. apply (persist_twice _ _ _ _ Hrows). symmetry. exact Hid. }
  destruct r as [datapad_field | e].
  { intros E. apply some_eq in E.
    destruct (finish_synced_effect _ _ _ _ _ _ E) as (Hid & Hdoc & Hf & Hentry & Hr).
    split; [exact Hid |]. split; [exact Hdoc |]. split; [congruence |].
    split; [exact Hentry |]. right. split; [reflexivity |].
    rewrite Hr. apply (persist_twice _ _ _ _ Hrows). symmetry. exact Hid. }
  destruct e as [cls message code | m | m | m | m | m | m | m | m];
    try (apply (Hfail error); discriminate).
  destruct cls; try (apply (Hfail error); discriminate).
  destruct (String.eqb cr "overwrite"); [| apply (Hfail conflict); discriminate].
  intros Hrec. apply IH in Hrec.
  destruct Hrec as (Hid & Hdoc & Hforms' & Hentry & [(Habs & _) | (_ & Hrows')]);
    [discriminate Habs |].
  split; [exact Hid |]. split; [exact Hdoc |]. split; [congruence |].
  split; [exact Hentry |]. right. split; [reflexivity |].
  rewrite Hrows'. apply (persist_twice (fst (mark_syncing field w))); [exact Hrows |].
  symmetry. exact Hid.
Qed.

End FieldEffects.

(** ** The field routes over the REST client *)

Section FieldRoutes.
Import DataPadClient.

Lemma request_error_status (method endpoint : string) (c : t)
    (status_code : Z) (message : string) (body : Body) :
  net c (List.length (sent c)) = Response status_code message body ->
  (400 <= status_code)%Z ->
  _request method endpoint c
  = (Raise (_handle_error_response status_code message),
     mk (net c) (sent c ++ [(method, endpoint)]) (slept c)).
Proof.
  intros Hfirst Hcode. unfold _request. cbn [retrying request]. rewrite Hfirst.
  cbn [_request_body]. apply Z.leb_le in Hcode. rewrite Hcode.
  unfold _handle_error_response.
  destruct ((status_code =? 401)%Z || (status_code =? 403)%Z); [reflexivity |].
  destruct (status_code =? 404)%Z; [reflexivity |].
  destruct (status_code =? 422)%Z; [reflexivity |].
  destruct (status_code =? 429)%Z; reflexivity.
Qed.

Lemma request_exhausted (method endpoint : string) (c : t) :
  (forall i, i < 3 -> transient (net c (List.length (sent c) + i)) = true) ->
  exists msg : string,
    _request method endpoint c
    = (Raise (RetryError msg),
       mk (net c) (sent c ++ repeat (method, endpoint) 3) (slept c ++ [2; 2]%Z)).
Proof.
  intros Hall. unfold _request.
  destruct (retrying_spec 2 1 method endpoint c eq_refl)
    as (n & Hn & Hnet & Hsent & Hslept & _ & Hlast & Hres).
  assert (n = 3) as ->.
  { destruct (Nat.eq_dec n 3) as [| Hne]; [assumption | exfalso].
    specialize (Hlast ltac:(lia)). rewrite Hall in Hlast by lia. discriminate. }
  destruct (retrying 2 1 method endpoint c) as [r [net' sent' slept']].
  cbn [fst snd net sent slept] in Hnet, Hsent, Hslept, Hres. subst net' sent' slept' r.
  specialize (Hall 2 ltac:(lia)). cbn [Nat.sub].
  unfold final_result.
  destruct (net c (List.length (sent c) + 2)) as [sc m b | m | m | m];
    try discriminate Hall; cbn [_request_body retry_if_exception_type];
    eexists; reflexivity.
Qed.

(** X12.  The field routes (create, update, delete) over the REST client,
    when the remote side answers the request with an error status (400 or
    more): the route raises an [HTTPException] with that same status,
    except that 403 becomes 401, and with the message of the remote answer;
    the request was sent once and nothing was slept. *)
Theorem field_routes_error_status (field_data : DataPadFieldCreate.t)
    (field_id : string) (update_data : DataPadFieldUpdate.t) (c : t)
    (status_code : Z) (message : string) (body : Body) :
  net c (List.length (sent c)) = Response status_code message body ->
  (400 <= status_code)%Z ->
  let exc := Routes.mk (if (status_code =? 403)%Z then 401%Z else status_code) message in
  Routes.create_datapad_field field_data c
  = (Routes.HttpRaised exc,
     mk (net c) (sent c ++ [("POST", "/api/v1/fields")]) (slept c))
  /\ Routes.update_datapad_field field_id update_data c
     = (Routes.HttpRaised exc,
        mk (net c) (sent c ++ [("PATCH", ("/api/v1/fields/" ++ field_id)%string)])
          (slept c))
  /\ Routes.delete_datapad_field field_id c
     = (Routes.HttpRaised exc,
        mk (net c) (sent c ++ [("DELETE", ("/api/v1/fields/" ++ field_id)%string)])
          (slept c)).
Proof.
  intros Hfirst Hcode. cbv zeta.
  change (Routes.create_datapad_field field_data c)
    with (Routes.guarded (create_field field_data c)).
  change (Routes.update_datapad_field field_id update_data c)
    with (Routes.guarded (update_field field_id update_data c)).
  unfold Routes.delete_datapad_field, create_field, update_field, delete_field.
  rewrite !(request_error_status _ _ _ _ _ _ Hfirst Hcode).
  cbn [to_field]. unfold Routes.guarded, _handle_error_response.
  destruct (Z.eqb_spec status_code 401) as [-> | H401];
    [repeat split; reflexivity |].
  destruct (Z.eqb_spec status_code 403) as [-> | H403];
    [repeat split; reflexivity |].
  destruct (Z.eqb_spec status_code 404) as [-> | H404];
    [repeat split; reflexivity |].
  destruct (Z.eqb_spec status_code 422) as [-> | H422];
    [repeat split; reflexivity |].
  destruct (Z.eqb_spec status_code 429) as [-> | H429];
    [repeat split; reflexivity |].
  cbn [orb]. unfold Routes.handle_datapad_error.
  destruct (Z.eqb_spec status_code 0) as [-> | H0]; [lia |].
  repeat split; reflexivity.
Qed.

(** X20.  The field routes over the REST client, when the remote side
    answers the request with a status below 400; one request is sent and
    nothing is slept.  When the body decodes to a field, the create and
    update routes return that field.  When the body is no JSON, the client
    raises a [DataPadAPIError] without status, and every field route
    raises the [HTTPException] 500 "Unexpected error: ...", although the
    remote side reported success.  When the body is JSON but no field, the
    delete route still returns, while the create and update routes end
    with an exception that their [except] clause does not catch: the
    [ValidationError] of the schema for a JSON object, a [TypeError] for a
    JSON value that is no object. *)
Theorem field_routes_success_status (field_data : DataPadFieldCreate.t)
    (field_id : string) (update_data : DataPadFieldUpdate.t) (c : t)
    (status_code : Z) (message : string) (body : Body) :
  net c (List.length (sent c)) = Response status_code message body ->
  (status_code < 400)%Z ->
  let created := fst (Routes.create_datapad_field field_data c) in
  let updated := fst (Routes.update_datapad_field field_id update_data c) in
  let deleted := fst (Routes.delete_datapad_field field_id c) in
  snd (Routes.create_datapad_field field_data c)
  = mk (net c) (sent c ++ [("POST", "/api/v1/fields")]) (slept c)
  /\ snd (Routes.delete_datapad_field field_id c)
     = mk (net c) (sent c ++ [("DELETE", ("/api/v1/fields/" ++ field_id)%string)])
         (slept c)
  /\ match body with
     | JsonField f =>
         created = Routes.Returned f /\ updated = Routes.Returned f
         /\ deleted = Routes.Returned tt
     | NotJson err =>
         created = Routes.HttpRaised (Routes.mk 500 ("Unexpected error: " ++ err))
         /\ updated = created
         /\ deleted = Routes.HttpRaised (Routes.mk 500 ("Unexpected error: " ++ err))
     | JsonOther =>
         (exists m, created = Routes.Propagated (ValidationError m))
         /\ updated = created
         /\ deleted = Routes.Returned tt
     | JsonNoObject =>
         (exists m, created = Routes.Propagated (TypeError m))
         /\ updated = created
         /\ deleted = Routes.Returned tt
     end.
Proof.
  intros Hfirst Hcode. cbv zeta.
  change (Routes.create_datapad_field field_data c)
    with (Routes.guarded (create_field field_data c)).
  change (Routes.update_datapad_field field_id update_data c)
    with (Routes.guarded (update_field field_id update_data c)).
  unfold Routes.delete_datapad_field, create_field, update_field, delete_field, _request.
  cbn [retrying request]. rewrite Hfirst. cbn [_request_body].
  replace (400 <=? status_code)%Z with false by (symmetry; apply Z.leb_gt; exact Hcode).
  destruct body as [err | f | |]; cbn; repeat split; try reflexivity;
    eexists; reflexivity.
Qed.

(** X13.  The field routes (create, update, delete) over the REST client,
    when three requests in a
    row end in a time-out or a network error: the client gives up with a
    [RetryError], which is no [DataPadAPIError], so the [except] clause of
    the route does not catch it and no [HTTPException] is made of it.
    Three requests were sent, with sleeps of 2 and 2 seconds between
    them. *)
Theorem field_routes_transport_failure (field_data : DataPadFieldCreate.t)
    (field_id : string) (update_data : DataPadFieldUpdate.t) (c : t) :
  (forall i, i < 3 -> transient (net c (List.length (sent c) + i)) = true) ->
  (exists msg : string,
      Routes.create_datapad_field field_data c
      = (Routes.Propagated (RetryError msg),
         mk (net c) (sent c ++ repeat ("POST", "/api/v1/fields") 3)
           (slept c ++ [2; 2]%Z)))
  /\ (exists msg : string,
         Routes.update_datapad_field field_id update_data c
         = (Routes.Propagated (RetryError msg),
            mk (net c)
              (sent c ++ repeat ("PATCH", ("/api/v1/fields/" ++ field_id)%string) 3)
              (slept c ++ [2; 2]%Z)))
  /\ (exists msg : string,
         Routes.delete_datapad_field field_id c
         = (Routes.Propagated (RetryError msg),
            mk (net c)
              (sent c ++ repeat ("DELETE", ("/api/v1/fields/" ++ field_id)%string) 3)
              (slept c ++ [2; 2]%Z))).
Proof.
  intros Hall.
  change (Routes.create_datapad_field field_data c)
    with (Routes.guarded (create_field field_data c)).
  change (Routes.update_datapad_field field_id update_data c)
    with (Routes.guarded (update_field field_id update_data c)).
  unfold Routes.delete_datapad_field, create_field, update_field, delete_field.
  split; [| split].
  - destruct (request_exhausted "POST" "/api/v1/fields" c Hall) as (msg & ->).
    exists msg. reflexivity.
  - destruct (request_exhausted "PATCH" ("/api/v1/fields/" ++ field_id) c Hall)
      as (msg & ->).
    exists msg. reflexivity.
  - destruct (request_exhausted "DELETE" ("/api/v1/fields/" ++ field_id) c Hall)
      as (msg & ->).
    exists msg. reflexivity.
Qed.

End FieldRoutes.

(** ** Failures around the remote call of [_sync_field] *)

Section FieldFailures.
Import SyncService.

Lemma payload_accepted (field : FormField.t) :
  label_ok (py_or (FormField.display_label field) (FormField.pdf_name field)) = true ->
  group_ok (FormField.group_name field) = true ->
  (exists create_data, create_data_of field = Ok create_data)
  /\ (exists update_data, update_data_of field = Ok update_data).
Proof.
  intros Hlabel Hgroup.
  unfold create_data_of, update_data_of, new_DataPadFieldCreate, new_DataPadFieldUpdate,
    _map_field_type.
  destruct (dict_get_mapping_member (lower (FormField.field_type field))) as (t & -> & _).
  rewrite Hlabel, Hgroup. cbn [negb]. split; eexists; reflexivity.
Qed.

Lemma payload_refused (field : FormField.t) :
  label_ok (py_or (FormField.display_label field) (FormField.pdf_name field)) = false
  \/ group_ok (FormField.group_name field) = false ->
  (exists m, create_data_of field = Raise (ValidationError m))
  /\ (exists m, update_data_of field = Raise (ValidationError m)).
Proof.
  intros H.
  unfold create_data_of, update_data_of, new_DataPadFieldCreate, new_DataPadFieldUpdate.
  destruct (label_ok _); cbn [negb]; [| split; eexists; reflexivity].
  destruct H as [H | ->]; [discriminate H |]. cbn [negb].
  destruct (DataPadFieldType_of_string _); split; eexists; reflexivity.
Qed.

(** X14.  A field that is not skipped and whose label (the display label,
    or the PDF name when that is missing or empty) is empty or longer than
    255 characters, or whose group name is longer than 100: building the
    payload fails before the client is reached.  For any client and any
    policy, [_sync_field] returns an [error] entry whose message starts
    with "Unexpected error: "; the field is left in the status ["error"]
    with the remote field id it had; no call was made on the client and
    the remote side is as it was. *)
Theorem sync_field_payload_refused {R : Type} {api : DataPadAPI R} (fuel : nat)
    (field : FormField.t) (force : bool) (conflict_resolution : string) (w : World R) :
  skipped field force = false ->
  label_ok (py_or (FormField.display_label field) (FormField.pdf_name field)) = false
  \/ group_ok (FormField.group_name field) = false ->
  exists (field' : FormField.t) (msg : string) (w' : World R),
    _sync_field (S fuel) field force conflict_resolution w
    = Some (field',
            DataPadSyncResult.mk (FormField.id field) error None
              (Some ("Unexpected error: " ++ msg)%string) None,
            w')
    /\ field' = FormField.set_status "error" (FormField.set_updated_at (clock w) field)
    /\ fields w' = fields (persist field' w)
    /\ calls w' = calls w /\ datapad w' = datapad w /\ forms w' = forms w
    /\ clock w' = (clock w + 1)%Z.
Proof.
  intros Hskip Hbad.
  destruct (payload_refused field Hbad) as ((m1 & Hcreate) & (m2 & Hupdate)).
  rewrite _sync_field_step, Hskip. unfold remote_call.
  change (FormField.datapad_field_id (fst (mark_syncing field w)))
    with (FormField.datapad_field_id field).
  destruct (truthy_opt (FormField.datapad_field_id field)).
  - unfold _update_datapad_field.
    change (update_data_of (fst (mark_syncing field w))) with (update_data_of field).
    rewrite Hupdate. eexists. exists m2. eexists. split; [reflexivity |].
    split; [reflexivity |]. split; [| repeat split].
    apply (persist_twice (fst (mark_syncing field w))); reflexivity.
  - unfold _create_datapad_field.
    change (create_data_of (fst (mark_syncing field w))) with (create_data_of field).
    rewrite Hcreate. eexists. exists m1. eexists. split; [reflexivity |].
    split; [reflexivity |]. split; [| repeat split].
    apply (persist_twice (fst (mark_syncing field w))); reflexivity.
Qed.

(** X15.  A field that is not skipped and whose payload is accepted,
    synchronised through the REST client while three requests in a row end
    in a time-out or a network error: the [RetryError] of the client is
    caught by the last [except] clause.  [_sync_field] returns an [error]
    entry whose message starts with "Unexpected error: " and leaves the
    field in the status ["error"] with the remote field id it had.  One
    call was made on the client, which sent three requests and slept 2 and
    2 seconds; the policy ["overwrite"] does not lead to a further
    attempt. *)
Theorem sync_field_transport_failure (fuel : nat) (field : FormField.t) (force : bool)
    (conflict_resolution : string) (w : World DataPadClient.t) :
  skipped field force = false ->
  label_ok (py_or (FormField.display_label field) (FormField.pdf_name field)) = true ->
  group_ok (FormField.group_name field) = true ->
  (forall i, i < 3 ->
     transient (DataPadClient.net (datapad w)
                  (List.length (DataPadClient.sent (datapad w)) + i)) = true) ->
  exists (field' : FormField.t) (msg : string) (w' : World DataPadClient.t) (call : Call),
    _sync_field (S fuel) field force conflict_resolution w
    = Some (field',
            DataPadSyncResult.mk (FormField.id field) error None
              (Some ("Unexpected error: " ++ msg)%string) None,
            w')
    /\ field' = FormField.set_status "error" (FormField.set_updated_at (clock w) field)
    /\ fields w' = fields (persist field' w)
    /\ calls w' = calls w ++ [call]
    /\ is_create call = negb (truthy_opt (FormField.datapad_field_id field))
    /\ List.length (DataPadClient.sent (datapad w'))
       = List.length (DataPadClient.sent (datapad w)) + 3
    /\ DataPadClient.slept (datapad w') = DataPadClient.slept (datapad w) ++ [2; 2]%Z.
Proof.
  intros Hskip Hlabel Hgroup Hall.
  destruct (payload_accepted field Hlabel Hgroup)
    as ((create_data & Hcreate) & (update_data & Hupdate)).
  rewrite _sync_field_step, Hskip.
  destruct (truthy_opt (FormField.datapad_field_id field)) eqn:Hid.
  - destruct (request_exhausted "PATCH"
                ("/api/v1/fields/" ++ str_opt (FormField.datapad_field_id field))
                (datapad w) Hall) as (msg & Hreq).
    rewrite (remote_call_update field w update_data (Raise (RetryError msg))
               (DataPadClient.mk (DataPadClient.net (datapad w))
                  (DataPadClient.sent (datapad w)
                   ++ repeat ("PATCH",
                              ("/api/v1/fields/"
                               ++ str_opt (FormField.datapad_field_id field))%string) 3)
                  (DataPadClient.slept (datapad w) ++ [2; 2]%Z)) Hid Hupdate).
    2: { cbn [update_field DataPadClient_API]. unfold DataPadClient.update_field.
         rewrite Hreq. reflexivity. }
    eexists. exists msg. eexists. eexists. split; [reflexivity |].
    split; [reflexivity |]. split; [| split; [reflexivity |]].
    + apply (persist_twice (fst (mark_syncing field w))); reflexivity.
    + split; [reflexivity |].
      cbn [persist datapad DataPadClient.sent DataPadClient.slept].
      rewrite length_app, repeat_length. split; reflexivity.
  - destruct (request_exhausted "POST" "/api/v1/fields" (datapad w) Hall)
      as (msg & Hreq).
    rewrite (remote_call_create field w create_data (Raise (RetryError msg))
               (DataPadClient.mk (DataPadClient.net (datapad w))
                  (DataPadClient.sent (datapad w)
                   ++ repeat ("POST", "/api/v1/fields") 3)
                  (DataPadClient.slept (datapad w) ++ [2; 2]%Z)) Hid Hcreate).
    2: { cbn [create_field DataPadClient_API]. unfold DataPadClient.create_field.
         rewrite Hreq. reflexivity. }
    eexists. exists msg. eexists. eexists. split; [reflexivity |].
    split; [reflexivity |]. split; [| split; [reflexivity |]].
    + apply (persist_twice (fst (mark_syncing field w))); reflexivity.
    + split; [reflexivity |].
      cbn [persist datapad DataPadClient.sent DataPadClient.slept].
      rewrite length_app, repeat_length. split; reflexivity.
Qed.

End FieldFailures.

(** ** From the extraction to the remote type *)

Section ExtractedTypes.

(** X19.  The type that the extraction stores for a PDF widget, sent
    through the type mapping of the synchronisation: widgets of the
    PyMuPDF types 1 and 6 reach the remote side as ["checkbox"], type 4 as
    ["signature"], and every other type as ["text"].  In particular a
    choice widget (type 3), which the extraction stores as ["select"], is
    synchronised as ["text"]: the mapping of the synchronisation knows
    ["dropdown"] but not ["select"], so no extracted field is ever sent as
    ["select"]. *)
Theorem extracted_type_synced_as (fitz_type : Z) :
  SyncService._map_field_type (PDFAnalysisService._map_field_type fitz_type)
  = (if (fitz_type =? 1)%Z || (fitz_type =? 6)%Z then "checkbox"
     else if (fitz_type =? 4)%Z then "signature"
     else "text")
  /\ (PDFAnalysisService._map_field_type fitz_type = "select" <-> fitz_type = 3%Z)
  /\ SyncService._map_field_type (PDFAnalysisService._map_field_type fitz_type)
     <> "select".
Proof.
  unfold PDFAnalysisService._map_field_type, PDFAnalysisService.mapping.
  cbn [PDFAnalysisService.get].
  destruct (Z.eqb_spec fitz_type 1) as [-> | H1];
    [repeat split; try discriminate; intros H; discriminate H |].
  destruct (Z.eqb_spec fitz_type 2) as [-> | H2];
    [repeat split; try discriminate; intros H; discriminate H |].
  destruct (Z.eqb_spec fitz_type 3) as [-> | H3];
    [repeat split; try discriminate; intros H; discriminate H |].
  destruct (Z.eqb_spec fitz_type 4) as [-> | H4];
    [repeat split; try discriminate; intros H; discriminate H |].
  destruct (Z.eqb_spec fitz_type 5) as [-> | H5];
    [repeat split; try discriminate; intros H; discriminate H |].
  destruct (Z.eqb_spec fitz_type 6) as [-> | H6];
    [repeat split; try discriminate; intros H; discriminate H |].
  destruct (Z.eqb_spec fitz_type 7) as [-> | H7];
    [repeat split; try discriminate; intros H; discriminate H |].
  repeat split; try discriminate. intros H; contradiction.
Qed.

End ExtractedTypes.

(** ** The module as it is shipped: [Form] and [FormField] are not bound *)

Section AsShipped.
Import SyncService.

Lemma sync_document_unbound {R : Type} {api : DataPadAPI R} (g : Globals) (fuel : nat)
    (document_id : Z) (field_ids : option (list Z)) (force : bool)
    (conflict_resolution : string) (w : World R) :
  bound g "Form" = false ->
  sync_document g fuel document_id field_ids force conflict_resolution w
  = Some (Raise (NameError "name 'Form' is not defined"), snd (utcnow w)).
Proof.
  intros H. unfold sync_document, load_name. cbn [utcnow]. rewrite H. reflexivity.
Qed.

Lemma sync_form_unbound {R : Type} {api : DataPadAPI R} (g : Globals) (fuel : nat)
    (form_id : Z) (payload : option DataPadSyncPayload.t) (w : World R) :
  bound g "Form" = false ->
  Routes.sync_form g fuel form_id payload w
  = Some (inl (Routes.mk 500 "Sync failed: name 'Form' is not defined"),
          snd (utcnow w)).
Proof.
  intros H. unfold Routes.sync_form. rewrite (sync_document_unbound _ _ _ _ _ _ _ H).
  reflexivity.
Qed.

(** C3, the defect.  The module never binds the name [Form]: line 97 of
    [sync_document] raises [NameError] on every call, whether the document
    exists or not, after the clock alone was read.  So a missing document
    is not reported by the [ValueError] "Document ... not found" that lines
    98 and 99 are written to raise, and the [sync_form] route answers with
    the status 500 "Sync failed: ..." where it is written to answer 404;
    for an existing document no field is processed at all. *)
Theorem sync_document_name_error {R : Type} {api : DataPadAPI R} (fuel : nat)
    (document_id : Z) (field_ids : option (list Z)) (force : bool)
    (conflict_resolution : string) (payload : option DataPadSyncPayload.t)
    (w : World R) :
  sync_document module_globals fuel document_id field_ids force conflict_resolution w
  = Some (Raise (NameError "name 'Form' is not defined"),
          mkWorld (forms w) (fields w) (datapad w) (calls w) (clock w + 1)%Z)
  /\ (forall msg w',
        sync_document module_globals fuel document_id field_ids force
          conflict_resolution w
        <> Some (Raise (ValueError msg), w'))
  /\ Routes.sync_form module_globals fuel document_id payload w
     = Some (inl (Routes.mk 500 "Sync failed: name 'Form' is not defined"),
             mkWorld (forms w) (fields w) (datapad w) (calls w) (clock w + 1)%Z).
Proof.
  split; [| split].
  - apply sync_document_unbound. reflexivity.
  - intros msg w'. rewrite sync_document_unbound by reflexivity. discriminate.
  - apply sync_form_unbound. reflexivity.
Qed.


(** C6, the defect.  Document 1 of the sample exists and the selection
    [field_ids = [5]] is empty, yet [sync_document] does not return the
    [synced] response with no results: it raises the [NameError] of line
    97.  No call is made on the client. *)
Theorem sync_document_empty_selection_name_error :
  form_exists 1 Sample.two_fields = true
  /\ select_fields 1 (Some [5%Z]) Sample.two_fields = []
  /\ forall fuel force conflict_resolution,
       sync_document module_globals fuel 1 (Some [5%Z]) force conflict_resolution
         Sample.two_fields
       = Some (Raise (NameError "name 'Form' is not defined"),
               mkWorld [1%Z] (fields Sample.two_fields) (datapad Sample.two_fields)
                 [] 101).
Proof.
  split; [reflexivity |]. split; [reflexivity |].
  intros fuel force conflict_resolution. reflexivity.
Qed.

Lemma reset_sync_status_unbound {R : Type} {api : DataPadAPI R} (g : Globals)
    (document_id : Z) (field_ids : option (list Z)) (w : World R) :
  bound g "FormField" = false ->
  reset_sync_status g document_id field_ids w
  = (Raise (NameError "name 'FormField' is not defined"), w).
Proof. intros H. unfold reset_sync_status, load_name. rewrite H. reflexivity. Qed.

(** C8, the defect.  The module never binds the name [FormField]: line 401
    of [reset_sync_status] raises [NameError] on every call, before any row
    is read.  Nothing is counted and nothing is reset: the two fields of the
    sample document keep the status ["draft"]. *)
Theorem reset_sync_status_name_error :
  (forall (R : Type) (api : DataPadAPI R) document_id field_ids (w : World R),
      reset_sync_status module_globals document_id field_ids w
      = (Raise (NameError "name 'FormField' is not defined"), w))
  /\ List.length (document_fields 1 Sample.two_fields) = 2
  /\ fst (reset_sync_status module_globals 1 None Sample.two_fields) <> Ok 2
  /\ map FormField.status
       (document_fields 1 (snd (reset_sync_status module_globals 1 None Sample.two_fields)))
     = ["draft"; "draft"].
Proof.
  split; [| split; [reflexivity | split; [discriminate | reflexivity]]].
  intros R api document_id field_ids w. apply reset_sync_status_unbound. reflexivity.
Qed.

(** C9, the defect.  Document 1 of the sample has two fields, and with
    [field_ids] the empty list neither of them is selected or
    synchronised: [sync_document] raises the [NameError] of line 97 before
    line 103 looks at [field_ids], and the [sync_form] route, given the
    empty list in its payload, answers with the status 500.  No call is
    made on the client. *)
Theorem sync_document_empty_field_ids_name_error :
  List.length (document_fields 1 Sample.two_fields) = 2
  /\ (forall fuel force conflict_resolution,
        sync_document module_globals fuel 1 (Some []) force conflict_resolution
          Sample.two_fields
        = Some (Raise (NameError "name 'Form' is not defined"),
                mkWorld [1%Z] (fields Sample.two_fields) (datapad Sample.two_fields)
                  [] 101))
  /\ (forall fuel force conflict_resolution,
        Routes.sync_form module_globals fuel 1
          (Some (DataPadSyncPayload.mk 1 [] force conflict_resolution))
          Sample.two_fields
        = Some (inl (Routes.mk 500 "Sync failed: name 'Form' is not defined"),
                mkWorld [1%Z] (fields Sample.two_fields) (datapad Sample.two_fields)
                  [] 101)).
Proof.
  split; [reflexivity |]. split; intros fuel force conflict_resolution; reflexivity.
Qed.

Lemma get_sync_status_unbound {R : Type} {api : DataPadAPI R} (g : Globals)
    (document_id : Z) (w : World R) :
  bound g "Form" = false ->
  get_sync_status g document_id w = Raise (NameError "name 'Form' is not defined").
Proof. intros H. unfold get_sync_status, load_name. rewrite H. reflexivity. Qed.

(** X18.  The two other form routes of the module as it is shipped.
    [get_sync_status] raises the [NameError] of line 344 for every
    document, existing or not, and [reset_sync_status] the one of line 401;
    neither is a [ValueError], so the [except] clause of the route does not
    catch it: the route raises no [HTTPException], in particular no 404,
    and returns nothing.  Nothing is read or written. *)
Theorem status_and_reset_routes {R : Type} {api : DataPadAPI R} (form_id : Z)
    (field_ids : option (list Z)) (w : World R) :
  get_sync_status module_globals form_id w
  = Raise (NameError "name 'Form' is not defined")
  /\ Routes.get_sync_status module_globals form_id w
     = Routes.Propagated (NameError "name 'Form' is not defined")
  /\ Routes.reset_sync module_globals form_id field_ids w
     = (Routes.Propagated (NameError "name 'FormField' is not defined"), w).
Proof.
  split; [| split].
  - apply get_sync_status_unbound. reflexivity.
  - unfold Routes.get_sync_status. rewrite get_sync_status_unbound by reflexivity.
    reflexivity.
  - unfold Routes.reset_sync. rewrite reset_sync_status_unbound by reflexivity.
    reflexivity.
Qed.

End AsShipped.

(** ** The loop over the fields *)

Section SyncLoop.
Context {R : Type} {api : DataPadAPI R}.
Import SyncService.

Lemma failed_entry_ok (s : SyncStatus) (status : string) (field : FormField.t)
    (message prefix : string) (w : World R) :
  s = error \/ s = conflict ->
  prefix <> "" ->
  entry_ok (snd (fst (finish_failed s status field (prefix ++ message) w))).
Proof.
  intros Hs Hp. right. split; [exact Hs |].
  eexists; split; [reflexivity |]. apply append_nonempty, Hp.
Qed.

(** Whatever [_sync_field] returns is an entry for the field it was given:
    every exception of the remote call has become an [error] or [conflict]
    entry, or was answered by the retry. *)
Lemma sync_field_result (fuel : nat) :
  forall (field : FormField.t) (force : bool) (conflict_resolution : string)
         (w : World R) (field' : FormField.t) (result : DataPadSyncResult.t)
         (w' : World R),
    _sync_field fuel field force conflict_resolution w = Some (field', result, w') ->
    DataPadSyncResult.field_id result = FormField.id field /\ entry_ok result.
Proof.
  induction fuel as [| fuel IH]; intros field force cr w field' result w';
    [discriminate |].
  rewrite _sync_field_step.
  destruct (skipped field force).
  { intros E; injection E as <- <- <-. split; [reflexivity | left; split; reflexivity]. }
  destruct (remote_call _ _) as [[datapad_field | e] w2].
  { intros E; injection E as <- <- <-. split; [reflexivity | left; split; reflexivity]. }
  assert (Hfail : forall s st msg prefix,
             s = error \/ s = conflict -> prefix <> "" ->
             Some (finish_failed s st (fst (mark_syncing field w)) (prefix ++ msg) w2)
             = Some (field', result, w') ->
             DataPadSyncResult.field_id result = FormField.id field /\ entry_ok result).
  { intros s st msg prefix Hs Hp E.
    pose proof (failed_entry_ok s st (fst (mark_syncing field w)) msg prefix w2 Hs Hp) as Hok.
    injection E as <- <- <-. split; [reflexivity | exact Hok]. }
  destruct e as [cls message code | m | m | m | m | m | m | m | m];
    try (apply Hfail; [left; reflexivity | discriminate]).
  destruct cls; cbn [class_name];
    try (apply Hfail; [left; reflexivity | discriminate]).
  destruct (String.eqb cr "overwrite").
  - intros E. apply IH in E. exact E.
  - apply Hfail; [right; reflexivity | discriminate].
Qed.

Lemma count_result_fold (results : list DataPadSyncResult.t) :
  forall summary : Summary.t,
    Summary.synced (fold_left count_result results summary)
    = Summary.synced summary + count_status synced results
    /\ Summary.pending (fold_left count_result results summary)
       = Summary.pending summary + count_status pending results
    /\ Summary.failed (fold_left count_result results summary)
       = Summary.failed summary + count_status error results
    /\ Summary.skipped (fold_left count_result results summary)
       = Summary.skipped summary + count_status syncing results
         + count_status conflict results.
Proof.
  unfold count_status.
  induction results as [| r rest IH]; intros summary; cbn [fold_left filter List.length].
  - repeat split; lia.
  - destruct (IH (count_result summary r)) as (H1 & H2 & H3 & H4).
    rewrite H1, H2, H3, H4. unfold count_result.
    destruct (DataPadSyncResult.status r); cbn; repeat split; lia.
Qed.

(** The loop appends one entry per field, in order, and counts each. *)
Lemma sync_loop_result (fuel : nat) (force : bool) (conflict_resolution : string)
    (todo : list FormField.t) :
  forall (results : list DataPadSyncResult.t) (summary : Summary.t) (w : World R)
         (results' : list DataPadSyncResult.t) (summary' : Summary.t) (w' : World R),
    sync_loop fuel todo force conflict_resolution results summary w
    = Some (results', summary', w') ->
    exists new : list DataPadSyncResult.t,
      results' = results ++ new
      /\ map DataPadSyncResult.field_id new = map FormField.id todo
      /\ Forall entry_ok new
      /\ summary' = fold_left count_result new summary.
Proof.
  induction todo as [| field rest IH]; intros results summary w results' summary' w';
    cbn [sync_loop].
  - intros E; injection E as <- <- <-. exists []. rewrite app_nil_r.
    repeat split; constructor.
  - destruct (_sync_field fuel field force conflict_resolution w)
      as [[[field1 result] w1] |] eqn:Hfield; [| discriminate].
    intros Hloop. apply IH in Hloop. destruct Hloop as (new & -> & Hids & Hok & ->).
    apply sync_field_result in Hfield. destruct Hfield as (Hid & Hentry).
    exists (result :: new). rewrite <- app_assoc. cbn [app map fold_left].
    repeat split; [congruence | constructor; assumption].
Qed.

(** The bound on the nesting only decides whether a run is cut short: a
    run that returns under some bound returns the same under any larger
    one. *)
Lemma sync_field_fuel_mono (fuel : nat) :
  forall (fuel' : nat) (field : FormField.t) (force : bool) (conflict_resolution : string)
         (w : World R) (out : FormField.t * DataPadSyncResult.t * World R),
    fuel <= fuel' ->
    _sync_field fuel field force conflict_resolution w = Some out ->
    _sync_field fuel' field force conflict_resolution w = Some out.
Proof.
  induction fuel as [| fuel IH]; intros fuel' field force cr w out Hle; [discriminate |].
  destruct fuel' as [| fuel']; [lia |].
  rewrite !_sync_field_step.
  destruct (skipped field force); [trivial |].
  destruct (remote_call _ _) as [[datapad_field | e] w2]; [trivial |].
  destruct e as [cls message code | m | m | m | m | m | m | m | m]; trivial.
  destruct cls; trivial.
  destruct (String.eqb cr "overwrite"); [| trivial].
  apply IH. lia.
Qed.

Lemma sync_loop_fuel_mono (fuel fuel' : nat) (force : bool) (conflict_resolution : string)
    (todo : list FormField.t) :
  fuel <= fuel' ->
  forall (results : list DataPadSyncResult.t) (summary : Summary.t) (w : World R)
         (out : list DataPadSyncResult.t * Summary.t * World R),
    sync_loop fuel todo force conflict_resolution results summary w = Some out ->
    sync_loop fuel' todo force conflict_resolution results summary w = Some out.
Proof.
  intros Hle. induction todo as [| field rest IH]; intros results summary w out;
    cbn [sync_loop]; [trivial |].
  destruct (_sync_field fuel field force conflict_resolution w)
    as [[[field1 result] w1] |] eqn:Hfield; [| discriminate].
  rewrite (sync_field_fuel_mono fuel fuel' _ _ _ _ _ Hle Hfield). apply IH.
Qed.

Lemma create_data_of_raises (field : FormField.t) (e : Exn) :
  create_data_of field = Raise e -> exists m, e = ValidationError m.
Proof.
  unfold create_data_of, new_DataPadFieldCreate.
  destruct (negb (label_ok _)); [intros E; injection E as <-; eauto |].
  destruct (DataPadFieldType_of_string _); [| intros E; injection E as <-; eauto].
  destruct (negb (group_ok _)); [intros E; injection E as <-; eauto | discriminate].
Qed.

Lemma sync_field_returns_no_overwrite (fuel : nat) (field : FormField.t) (force : bool)
    (conflict_resolution : string) (w : World R) :
  String.eqb conflict_resolution "overwrite" = false ->
  exists out, _sync_field (S fuel) field force conflict_resolution w = Some out.
Proof.
  intros Hcr. rewrite _sync_field_step, Hcr.
  destruct (skipped field force); [eexists; reflexivity |].
  destruct (remote_call _ _) as [[datapad_field | e] w2]; [eexists; reflexivity |].
  destruct e as [cls message code | m | m | m | m | m | m | m | m]; try (eexists; reflexivity).
  destruct cls; eexists; reflexivity.
Qed.

Lemma sync_field_returns_create (fuel : nat) (field : FormField.t) (force : bool)
    (conflict_resolution : string) (w : World R) :
  create_never_not_found ->
  truthy_opt (FormField.datapad_field_id field) = false ->
  exists out, _sync_field (S fuel) field force conflict_resolution w = Some out.
Proof.
  intros Hnever Hid. rewrite _sync_field_step.
  destruct (skipped field force); [eexists; reflexivity |].
  unfold remote_call.
  change (FormField.datapad_field_id (fst (mark_syncing field w)))
    with (FormField.datapad_field_id field).
  rewrite Hid. unfold _create_datapad_field.
  destruct (create_data_of _) as [create_data | e] eqn:Hdata.
  - specialize (Hnever create_data (datapad (snd (mark_syncing field w)))).
    destruct (create_field _ _) as [[datapad_field | e] d]; [eexists; reflexivity |].
    destruct e as [cls message code | m | m | m | m | m | m | m | m]; try (eexists; reflexivity).
    destruct cls; try (eexists; reflexivity).
    exfalso. apply (Hnever message code). reflexivity.
  - apply create_data_of_raises in Hdata. destruct Hdata as (m & ->).
    eexists; reflexivity.
Qed.

(** Two levels of [_sync_field] suffice when the policy is not ["overwrite"]
    or when [create_field] never raises [DataPadNotFoundError]. *)
Lemma sync_field_returns (fuel : nat) (field : FormField.t) (force : bool)
    (conflict_resolution : string) (w : World R) :
  String.eqb conflict_resolution "overwrite" = false \/ create_never_not_found ->
  exists out, _sync_field (S (S fuel)) field force conflict_resolution w = Some out.
Proof.
  intros [Hcr | Hnever]; [apply sync_field_returns_no_overwrite, Hcr |].
  rewrite _sync_field_step.
  destruct (skipped field force); [eexists; reflexivity |].
  destruct (remote_call _ _) as [[datapad_field | e] w2]; [eexists; reflexivity |].
  destruct e as [cls message code | m | m | m | m | m | m | m | m]; try (eexists; reflexivity).
  destruct cls; try (eexists; reflexivity).
  destruct (String.eqb conflict_resolution "overwrite"); [| eexists; reflexivity].
  apply sync_field_returns_create; [exact Hnever | reflexivity].
Qed.

Lemma sync_loop_returns (fuel : nat) (force : bool) (conflict_resolution : string)
    (todo : list FormField.t) :
  String.eqb conflict_resolution "overwrite" = false \/ create_never_not_found ->
  forall (results : list DataPadSyncResult.t) (summary : Summary.t) (w : World R),
    exists out,
      sync_loop (S (S fuel)) todo force conflict_resolution results summary w = Some out.
Proof.
  intros Hterm.
  induction todo as [| field rest IH]; intros results summary w; cbn [sync_loop].
  - eexists; reflexivity.
  - destruct (sync_field_returns fuel field force conflict_resolution w Hterm)
      as ([[field1 result] w1] & ->).
    apply IH.
Qed.

(** X26.  One field, whatever the remote call does: under a policy other
    than ["overwrite"], or with a client whose [create_field] never raises
    [DataPadNotFoundError], [_sync_field] returns within two levels of
    nesting.  What it returns is an entry for the field it was given:
    [synced] without message, or [error] or [conflict] with a non-empty
    message.  Under a policy other than ["overwrite"], an exception of the
    remote call, whatever its class, gives an [error] or [conflict] entry,
    and the row is stored with that status. *)
Theorem sync_field_captures_errors (fuel : nat) (field : FormField.t) (force : bool)
    (conflict_resolution : string) (w : World R) :
  String.eqb conflict_resolution "overwrite" = false \/ create_never_not_found ->
  exists (field' : FormField.t) (result : DataPadSyncResult.t) (w' : World R),
    _sync_field (S (S fuel)) field force conflict_resolution w
    = Some (field', result, w')
    /\ DataPadSyncResult.field_id result = FormField.id field
    /\ entry_ok result
    /\ (String.eqb conflict_resolution "overwrite" = false ->
        skipped field force = false ->
        forall (e : Exn) (w2 : World R),
          remote_call (fst (mark_syncing field w)) (snd (mark_syncing field w))
          = (Raise e, w2) ->
          (DataPadSyncResult.status result = error
           \/ DataPadSyncResult.status result = conflict)
          /\ FormField.status field' = status_string (DataPadSyncResult.status result)
          /\ w' = persist field' w2).
Proof.
  intros Hterm.
  destruct (sync_field_returns fuel field force conflict_resolution w Hterm)
    as ([[field' result] w'] & Hrun).
  exists field', result, w'. split; [exact Hrun |].
  destruct (sync_field_result _ _ _ _ _ _ _ _ Hrun) as (Hid & Hok).
  split; [exact Hid |]. split; [exact Hok |].
  intros Hcr Hskip e w2 Hcall.
  rewrite _sync_field_step, Hskip, Hcall, Hcr in Hrun.
  destruct e as [cls message code | m | m | m | m | m | m | m | m];
    [destruct cls |..];
    injection Hrun as <- <- <-; cbn; repeat split; auto.
Qed.

Lemma sync_loop_returns_no_overwrite (fuel : nat) (force : bool)
    (conflict_resolution : string) (todo : list FormField.t) :
  String.eqb conflict_resolution "overwrite" = false ->
  forall (results : list DataPadSyncResult.t) (summary : Summary.t) (w : World R),
    exists out,
      sync_loop (S fuel) todo force conflict_resolution results summary w = Some out.
Proof.
  intros Hcr.
  induction todo as [| field rest IH]; intros results summary w; cbn [sync_loop].
  - eexists; reflexivity.
  - destruct (sync_field_returns_no_overwrite fuel field force conflict_resolution w Hcr)
      as ([[field1 result] w1] & ->).
    apply IH.
Qed.

End SyncLoop.

(** * With [Form] and [FormField] bound

    What [sync_document], [get_sync_status] and [reset_sync_status] do once
    the lookups of [Form] and [FormField] succeed: [ns] is any namespace in
    which both names are bound.  The namespace of the module as it is
    shipped is not one of them. *)

Section NamesBound.
Variable ns : Globals.
Hypothesis ns_bound : names_bound ns.

(** ** A whole document: [sync_document] *)

Section SyncDocument.
Context {R : Type} {api : DataPadAPI R}.
Import SyncService.

Lemma sync_document_missing (fuel : nat) (document_id : Z) (field_ids : option (list Z))
    (force : bool) (conflict_resolution : string) (w : World R) :
  form_exists document_id w = false ->
  sync_document ns fuel document_id field_ids force conflict_resolution w
  = Some (Raise (ValueError ("Document " ++ str_Z document_id ++ " not found")),
          snd (utcnow w)).
Proof.
  intros H. unfold sync_document, load_name. cbn [utcnow].
  rewrite (proj1 ns_bound), ?(proj2 ns_bound).
  change (form_exists document_id _) with (form_exists document_id w).
  rewrite H. reflexivity.
Qed.

Lemma sync_document_present (fuel : nat) (document_id : Z) (field_ids : option (list Z))
    (force : bool) (conflict_resolution : string) (w : World R) :
  form_exists document_id w = true ->
  sync_document ns fuel document_id field_ids force conflict_resolution w
  = let w0 := snd (utcnow w) in
    let todo := select_fields document_id field_ids w in
    if negb (truthy_list todo) then
      Some (Ok (DataPadSyncResponse.mk document_id synced [] Summary.zero
                  (Some "No fields to sync") (Some (clock w)) (Some (clock w + 1)%Z)),
            snd (utcnow w0))
    else
      match sync_loop fuel todo force conflict_resolution [] Summary.zero w0 with
      | None => None
      | Some (results, summary, w1) =>
          Some (Ok (DataPadSyncResponse.mk document_id (overall_status summary)
                      results summary None (Some (clock w)) (Some (clock w1))),
                snd (utcnow w1))
      end.
Proof.
  intros H. unfold sync_document, load_name. cbn [utcnow].
  rewrite (proj1 ns_bound), ?(proj2 ns_bound).
  change (form_exists document_id _) with (form_exists document_id w).
  rewrite H. cbv zeta. cbn [negb snd].
  change (select_fields document_id field_ids _)
    with (select_fields document_id field_ids w).
  destruct (negb (truthy_list _)); [reflexivity |].
  destruct (sync_loop _ _ _ _ _ _ _) as [[[results summary] w1] |]; reflexivity.
Qed.

(** X21.  With [Form] and [FormField] bound: for an existing document
    whose selection of fields is empty, [sync_document] returns at once,
    whatever [fuel] is: the response has
    the status [synced], no results and the all-zero summary; the stored
    rows and the remote side are untouched and no call was made on the
    client (the clock alone was read, twice). *)
Theorem bound_sync_document_empty_selection (fuel : nat) (document_id : Z)
    (field_ids : option (list Z)) (force : bool) (conflict_resolution : string)
    (w : World R) :
  form_exists document_id w = true ->
  select_fields document_id field_ids w = [] ->
  sync_document ns fuel document_id field_ids force conflict_resolution w
  = Some (Ok (DataPadSyncResponse.mk document_id synced [] (Summary.mk 0 0 0 0)
                (Some "No fields to sync") (Some (clock w)) (Some (clock w + 1)%Z)),
          mkWorld (forms w) (fields w) (datapad w) (calls w) (clock w + 1 + 1)%Z).
Proof.
  intros Hdoc Hsel. rewrite (sync_document_present _ _ _ _ _ _ Hdoc).
  cbv zeta. rewrite Hsel. reflexivity.
Qed.

(** X22.  With [Form] and [FormField] bound: when [sync_document] returns a
    response, its status is [error] if
    the summary counts a failed field, else [syncing] if it counts a pending
    one, else [synced]; and the summary counts the results by status:
    [synced], [pending] and [error] entries under "synced", "pending" and
    "failed", all others under "skipped". *)
Theorem bound_sync_document_aggregate_status (fuel : nat) (document_id : Z)
    (field_ids : option (list Z)) (force : bool) (conflict_resolution : string)
    (w : World R) (response : DataPadSyncResponse.t) (w' : World R) :
  sync_document ns fuel document_id field_ids force conflict_resolution w
  = Some (Ok response, w') ->
  DataPadSyncResponse.status response
  = (if (0 <? Summary.failed (DataPadSyncResponse.summary response))%nat then error
     else if (0 <? Summary.pending (DataPadSyncResponse.summary response))%nat then syncing
     else synced)
  /\ Summary.synced (DataPadSyncResponse.summary response)
     = count_status synced (DataPadSyncResponse.results response)
  /\ Summary.pending (DataPadSyncResponse.summary response)
     = count_status pending (DataPadSyncResponse.results response)
  /\ Summary.failed (DataPadSyncResponse.summary response)
     = count_status error (DataPadSyncResponse.results response)
  /\ Summary.skipped (DataPadSyncResponse.summary response)
     = count_status syncing (DataPadSyncResponse.results response)
       + count_status conflict (DataPadSyncResponse.results response).
Proof.
  destruct (form_exists document_id w) eqn:Hdoc.
  2: { rewrite (sync_document_missing _ _ _ _ _ _ Hdoc). discriminate. }
  rewrite (sync_document_present _ _ _ _ _ _ Hdoc). cbv zeta.
  destruct (negb (truthy_list _)).
  { intros E; injection E as <- <-. repeat split. }
  destruct (sync_loop _ _ _ _ _ _ _) as [[[results summary] w1] |] eqn:Hloop;
    [| discriminate].
  intros E; injection E as <- <-.
  apply sync_loop_result in Hloop. destruct Hloop as (new & -> & _ & _ & ->).
  cbn [DataPadSyncResponse.status DataPadSyncResponse.summary
       DataPadSyncResponse.results app].
  split; [reflexivity |].
  destruct (count_result_fold new Summary.zero) as (H1 & H2 & H3 & H4).
  rewrite H1, H2, H3, H4. repeat split.
Qed.

(** X23.  With [Form] and [FormField] bound and [field_ids] the empty list,
    [sync_document] does what it does with [field_ids] omitted: the
    selection is every field of the document.  The [sync_form] route does
    with an empty [field_ids] in the payload what it does without payload,
    and passes the empty list on as [None].  A returned response has one
    result per field of the document, in the order of the rows, and when
    the document has fields it is not the response of the empty selection.
    For an existing document and a policy other than ["overwrite"] the
    call does return such a response. *)
Theorem bound_sync_document_empty_field_ids (fuel : nat) (document_id : Z) (force : bool)
    (conflict_resolution : string) (w : World R) :
  sync_document ns fuel document_id (Some []) force conflict_resolution w
  = sync_document ns fuel document_id None force conflict_resolution w
  /\ select_fields document_id (Some []) w
     = filter (fun r => (FormField.form_id r =? document_id)%Z) (fields w)
  /\ Routes.sync_form ns fuel document_id
       (Some (DataPadSyncPayload.mk document_id [] false "skip")) w
     = Routes.sync_form ns fuel document_id None w
  /\ (forall response w',
        Routes.sync_form ns fuel document_id
          (Some (DataPadSyncPayload.mk document_id [] force conflict_resolution)) w
        = Some (inr response, w')
        <-> sync_document ns fuel document_id None force conflict_resolution w
            = Some (Ok response, w'))
  /\ (forall response w',
        sync_document ns fuel document_id (Some []) force conflict_resolution w
        = Some (Ok response, w') ->
        map DataPadSyncResult.field_id (DataPadSyncResponse.results response)
        = map FormField.id
            (filter (fun r => (FormField.form_id r =? document_id)%Z) (fields w))
        /\ (filter (fun r => (FormField.form_id r =? document_id)%Z) (fields w) <> [] ->
            DataPadSyncResponse.message response = None))
  /\ (form_exists document_id w = true ->
      String.eqb conflict_resolution "overwrite" = false ->
      exists response w',
        sync_document ns (S fuel) document_id (Some []) force conflict_resolution w
        = Some (Ok response, w')
        /\ map DataPadSyncResult.field_id (DataPadSyncResponse.results response)
           = map FormField.id
               (filter (fun r => (FormField.form_id r =? document_id)%Z) (fields w))).
Proof.
  split; [reflexivity |]. split; [reflexivity |]. split; [reflexivity |].
  split; [| split].
  - intros response w'. unfold Routes.sync_form.
    cbn [DataPadSyncPayload.field_ids truthy_list DataPadSyncPayload.force
         DataPadSyncPayload.conflict_resolution].
    destruct (sync_document ns fuel document_id None force conflict_resolution w)
      as [[[response1 | e] w1] |].
    + split; intros E; injection E as <- <-; reflexivity.
    + destruct e; split; discriminate.
    + split; discriminate.
  - intros response w'.
    destruct (form_exists document_id w) eqn:Hdoc.
    2: { rewrite (sync_document_missing _ _ _ _ _ _ Hdoc). discriminate. }
    rewrite (sync_document_present _ _ _ _ _ _ Hdoc). cbv zeta.
    change (select_fields document_id (Some []) w)
      with (filter (fun r => (FormField.form_id r =? document_id)%Z) (fields w)).
    destruct (filter _ (fields w)) as [| field rest] eqn:Hsel.
    + cbn [truthy_list negb]. intros E; injection E as <- <-.
      split; [reflexivity | congruence].
    + cbn [truthy_list negb].
      destruct (sync_loop _ _ _ _ _ _ _) as [[[results summary] w1] |] eqn:Hloop;
        [| discriminate].
      intros E; injection E as <- <-.
      apply sync_loop_result in Hloop. destruct Hloop as (new & -> & Hids & _ & _).
      split; [exact Hids | reflexivity].
  - intros Hdoc Hcr.
    rewrite (sync_document_present _ _ _ _ _ _ Hdoc). cbv zeta.
    change (select_fields document_id (Some []) w)
      with (filter (fun r => (FormField.form_id r =? document_id)%Z) (fields w)).
    destruct (filter _ (fields w)) as [| field rest] eqn:Hsel.
    + cbn [truthy_list negb]. eexists _, _. split; reflexivity.
    + cbn [truthy_list negb].
      destruct (sync_loop_returns_no_overwrite fuel force conflict_resolution
                  (field :: rest) Hcr [] Summary.zero (snd (utcnow w)))
        as ([[results summary] w1] & Hloop).
      rewrite Hloop. eexists _, _. split; [reflexivity |].
      apply sync_loop_result in Hloop. destruct Hloop as (new & -> & Hids & _ & _).
      exact Hids.
Qed.

End SyncDocument.

(** ** [reset_sync_status] *)

Section Reset.
Context {R : Type} {api : DataPadAPI R}.
Import SyncService.

Lemma NoDup_map_eq {A B : Type} (key : A -> B) (l : list A) (a b : A) :
  NoDup (map key l) -> In a l -> In b l -> key a = key b -> a = b.
Proof.
  induction l as [| x l IH]; cbn [map In]; [contradiction |].
  intros Hnd Ha Hb Hg. inversion Hnd as [| y ys Hnotin Hnd']; subst.
  destruct Ha as [-> | Ha], Hb as [-> | Hb]; try reflexivity.
  - exfalso. apply Hnotin. rewrite Hg. apply in_map, Hb.
  - exfalso. apply Hnotin. rewrite <- Hg. apply in_map, Ha.
  - apply IH; assumption.
Qed.

Lemma NoDup_map_filter {A B : Type} (key : A -> B) (p : A -> bool) (l : list A) :
  NoDup (map key l) -> NoDup (map key (filter p l)).
Proof.
  induction l as [| x l IH]; cbn [map filter]; [trivial |].
  intros Hnd. inversion Hnd as [| y ys Hnotin Hnd']; subst.
  destruct (p x); [| apply IH, Hnd'].
  cbn [map]. constructor; [| apply IH, Hnd'].
  intros Hin. apply Hnotin. apply in_map_iff in Hin.
  destruct Hin as (a & <- & Ha). apply in_map. apply filter_In in Ha. apply Ha.
Qed.

Lemma existsb_id_false (i : Z) (ids : list Z) :
  ~ In i ids -> existsb (Z.eqb i) ids = false.
Proof.
  intros Hnotin. destruct (existsb (Z.eqb i) ids) eqn:E; [| reflexivity].
  apply existsb_exists in E. destruct E as (x & Hx & Heq).
  apply Z.eqb_eq in Heq. subst. contradiction.
Qed.

(** The loop counts the fields it is given, and rewrites exactly the rows
    whose key is among theirs; nothing else of the world changes but the
    clock. *)
Lemma reset_loop_rows (todo : list FormField.t) :
  forall (count : nat) (w : World R),
    primary_key w ->
    NoDup (map FormField.id todo) ->
    incl todo (fields w) ->
    fst (reset_loop todo count w) = count + List.length todo
    /\ map core (fields (snd (reset_loop todo count w)))
       = map (fun r => if existsb (Z.eqb (FormField.id r)) (map FormField.id todo)
                       then core (reset_row 0 r) else core r) (fields w)
    /\ forms (snd (reset_loop todo count w)) = forms w
    /\ datapad (snd (reset_loop todo count w)) = datapad w
    /\ calls (snd (reset_loop todo count w)) = calls w.
Proof.
  unfold primary_key.
  induction todo as [| f rest IH]; intros count w Hkey Hnd Hincl; cbn [reset_loop].
  - cbn [fst snd List.length map existsb]. split; [lia |].
    split; [apply map_ext; reflexivity | repeat split].
  - cbn [utcnow].
    set (f' := FormField.set_updated_at (clock w) _).
    set (w1 := persist f' _).
    inversion Hnd as [| y ys Hnotin Hnd']; subst.
    assert (Hrows : fields w1
                    = map (fun r => if (FormField.id r =? FormField.id f)%Z then f' else r)
                        (fields w)) by reflexivity.
    assert (Hids : map FormField.id (fields w1) = map FormField.id (fields w)).
    { rewrite Hrows, map_map. apply map_ext. intros r.
      destruct (FormField.id r =? FormField.id f)%Z eqn:E; [| reflexivity].
      apply Z.eqb_eq in E. symmetry. exact E. }
    assert (Hincl1 : incl rest (fields w1)).
    { intros g Hg. rewrite Hrows. apply in_map_iff. exists g. split.
      - destruct (FormField.id g =? FormField.id f)%Z eqn:E; [| reflexivity].
        apply Z.eqb_eq in E. exfalso. apply Hnotin. rewrite <- E. apply in_map, Hg.
      - apply Hincl. right. exact Hg. }
    destruct (IH (count + 1) w1) as (Hcount & Hcore & Hforms & Hdatapad & Hcalls);
      [unfold primary_key; rewrite Hids; exact Hkey | exact Hnd' | exact Hincl1 |].
    rewrite Hcount, Hcore, Hforms, Hdatapad, Hcalls.
    cbn [List.length map]. split; [lia |]. split; [| repeat split].
    rewrite Hrows, map_map. apply map_ext_in. intros r Hr. cbn [existsb].
    destruct (FormField.id r =? FormField.id f)%Z eqn:E.
    + apply Z.eqb_eq in E.
      assert (r = f) as -> by (apply (NoDup_map_eq FormField.id (fields w));
                               [exact Hkey | exact Hr | apply Hincl; left; reflexivity | exact E]).
      change (FormField.id f') with (FormField.id f).
      rewrite (existsb_id_false _ _ Hnotin). reflexivity.
    + reflexivity.
Qed.

(** With [FormField] bound, [reset_sync_status] is its loop over the
    selection. *)
Lemma reset_sync_status_bound (document_id : Z) (field_ids : option (list Z))
    (w : World R) :
  reset_sync_status ns document_id field_ids w
  = (Ok (fst (reset_loop (select_fields document_id field_ids w) 0 w)),
     snd (reset_loop (select_fields document_id field_ids w) 0 w)).
Proof.
  unfold reset_sync_status, load_name. rewrite (proj2 ns_bound).
  destruct (reset_loop _ 0 w); reflexivity.
Qed.

Lemma reset_sync_status_rows (document_id : Z) (w : World R) :
  primary_key w ->
  fst (reset_sync_status ns document_id None w)
  = Ok (List.length (document_fields document_id w))
  /\ map core (fields (snd (reset_sync_status ns document_id None w)))
     = map (reset_core document_id) (fields w)
  /\ forms (snd (reset_sync_status ns document_id None w)) = forms w
  /\ datapad (snd (reset_sync_status ns document_id None w)) = datapad w
  /\ calls (snd (reset_sync_status ns document_id None w)) = calls w.
Proof.
  intros Hkey. rewrite reset_sync_status_bound. cbn [fst snd].
  change (select_fields document_id None w) with (document_fields document_id w).
  destruct (reset_loop_rows (document_fields document_id w) 0 w Hkey)
    as (Hcount & Hcore & Hrest).
  { apply NoDup_map_filter, Hkey. }
  { intros r Hr. apply filter_In in Hr. apply Hr. }
  split; [f_equal; exact Hcount |]. split; [| exact Hrest].
  rewrite Hcore. apply map_ext_in. intros r Hr. unfold reset_core.
  destruct (FormField.form_id r =? document_id)%Z eqn:E.
  - assert (Hin : In (FormField.id r) (map FormField.id (document_fields document_id w))).
    { apply in_map. apply filter_In. split; assumption. }
    destruct (existsb _ _) eqn:Ex; [reflexivity |].
    exfalso. apply (Bool.not_true_iff_false _) in Ex. apply Ex.
    apply existsb_exists. exists (FormField.id r). split; [exact Hin | apply Z.eqb_refl].
  - destruct (existsb _ _) eqn:Ex; [| reflexivity].
    exfalso. apply existsb_exists in Ex. destruct Ex as (i & Hi & Heq).
    apply Z.eqb_eq in Heq. apply in_map_iff in Hi. destruct Hi as (g & Hg & Hgin).
    apply filter_In in Hgin. destruct Hgin as (Hgin & Hdoc).
    assert (r = g) as ->
      by (apply (NoDup_map_eq FormField.id (fields w)); [exact Hkey | | | congruence];
          assumption).
    congruence.
Qed.

Lemma reset_core_keys (document_id : Z) (rows rows' : list FormField.t) :
  map core rows' = map (reset_core document_id) rows ->
  map FormField.id rows' = map FormField.id rows
  /\ map FormField.form_id rows' = map FormField.form_id rows.
Proof.
  intros H.
  assert (Hid : map FormField.id (map core rows')
                = map FormField.id (map (reset_core document_id) rows)) by (rewrite H; reflexivity).
  assert (Hdoc : map FormField.form_id (map core rows')
                 = map FormField.form_id (map (reset_core document_id) rows))
    by (rewrite H; reflexivity).
  rewrite !map_map in Hid, Hdoc. split.
  - etransitivity; [| etransitivity; [exact Hid |]]; apply map_ext; intros r;
      [reflexivity |].
    unfold reset_core. destruct (_ =? _)%Z; reflexivity.
  - etransitivity; [| etransitivity; [exact Hdoc |]]; apply map_ext; intros r;
      [reflexivity |].
    unfold reset_core. destruct (_ =? _)%Z; reflexivity.
Qed.

Lemma filter_form_id_length (document_id : Z) (rows rows' : list FormField.t) :
  map FormField.form_id rows' = map FormField.form_id rows ->
  List.length (filter (fun r => (FormField.form_id r =? document_id)%Z) rows')
  = List.length (filter (fun r => (FormField.form_id r =? document_id)%Z) rows).
Proof.
  revert rows. induction rows' as [| r' rows' IH]; intros [| r rows]; cbn [map filter];
    try discriminate; [reflexivity |].
  intros E. injection E as Hhead Htail. rewrite Hhead.
  destruct (FormField.form_id r =? document_id)%Z; cbn [List.length];
    rewrite (IH rows Htail); reflexivity.
Qed.

Lemma reset_core_pending (document_id : Z) (rows rows' : list FormField.t) (r' : FormField.t) :
  map core rows' = map (reset_core document_id) rows ->
  In r' rows' ->
  FormField.form_id r' = document_id ->
  FormField.status r' = "pending" /\ FormField.datapad_field_id r' = None.
Proof.
  intros H Hin Hdoc.
  assert (Hc : In (core r') (map (reset_core document_id) rows))
    by (rewrite <- H; apply in_map, Hin).
  apply in_map_iff in Hc. destruct Hc as (r & Hr & _). unfold reset_core in Hr.
  destruct (FormField.form_id r =? document_id)%Z eqn:E.
  - split.
    + change (FormField.status (core r') = "pending"). rewrite <- Hr. reflexivity.
    + change (FormField.datapad_field_id (core r') = None). rewrite <- Hr. reflexivity.
  - exfalso. apply Z.eqb_neq in E. apply E.
    change (FormField.form_id (core r) = document_id). rewrite Hr. exact Hdoc.
Qed.

Lemma core_reset_pending (r : FormField.t) :
  FormField.status r = "pending" ->
  FormField.datapad_field_id r = None ->
  core (reset_row 0 r) = core r.
Proof.
  intros Hst Hid. unfold core, reset_row, FormField.set_updated_at,
    FormField.set_datapad_field_id, FormField.set_status.
  cbn. rewrite Hst, Hid. reflexivity.
Qed.

(** X24.  With [Form] and [FormField] bound, on a table keyed by [id]:
    [reset_sync_status] without [field_ids] returns the number of fields of
    the document, and afterwards every field of the document has the status
    ["pending"] and no remote field id.  Run again, it returns the same count and leaves
    every row as the first run left it, but for the update times, which
    each run sets anew.  Neither run makes a call on the client. *)
Theorem bound_reset_sync_status_all (document_id : Z) (w : World R) :
  primary_key w ->
  let count1 := fst (reset_sync_status ns document_id None w) in
  let w1 := snd (reset_sync_status ns document_id None w) in
  let count2 := fst (reset_sync_status ns document_id None w1) in
  let w2 := snd (reset_sync_status ns document_id None w1) in
  count1 = Ok (List.length (document_fields document_id w))
  /\ Ok (List.length (document_fields document_id w1)) = count1
  /\ (forall r, In r (document_fields document_id w1) ->
                FormField.status r = "pending" /\ FormField.datapad_field_id r = None)
  /\ count2 = count1
  /\ map core (fields w2) = map core (fields w1)
  /\ calls w2 = calls w /\ datapad w2 = datapad w.
Proof.
  intros Hkey. cbv zeta.
  destruct (reset_sync_status_rows document_id w Hkey)
    as (Hcount1 & Hcore1 & _ & Hdatapad1 & Hcalls1).
  destruct (reset_core_keys _ _ _ Hcore1) as (Hids1 & Hdocs1).
  assert (Hkey1 : primary_key (snd (reset_sync_status ns document_id None w)))
    by (unfold primary_key; rewrite Hids1; exact Hkey).
  destruct (reset_sync_status_rows document_id _ Hkey1)
    as (Hcount2 & Hcore2 & _ & Hdatapad2 & Hcalls2).
  assert (Hlen : List.length (document_fields document_id
                                (snd (reset_sync_status ns document_id None w)))
                 = List.length (document_fields document_id w))
    by (apply filter_form_id_length, Hdocs1).
  assert (Hpending : forall r,
             In r (document_fields document_id (snd (reset_sync_status ns document_id None w))) ->
             FormField.status r = "pending" /\ FormField.datapad_field_id r = None).
  { intros r Hr. apply filter_In in Hr. destruct Hr as (Hr & Hdoc).
    apply Z.eqb_eq in Hdoc. exact (reset_core_pending _ _ _ _ Hcore1 Hr Hdoc). }
  split; [exact Hcount1 |]. split; [congruence |]. split; [exact Hpending |].
  split; [congruence |]. split; [| split; congruence].
  rewrite Hcore2. apply map_ext_in. intros r Hr. unfold reset_core.
  destruct (FormField.form_id r =? document_id)%Z eqn:E; [| reflexivity].
  destruct (Hpending r) as (Hst & Hid); [apply filter_In; split; assumption |].
  apply core_reset_pending; assumption.
Qed.

End Reset.

(** ** The status report: [get_sync_status] *)

Section StatusReport.
Context {R : Type} {api : DataPadAPI R}.
Import SyncService.

Lemma filter_length_le {A : Type} (p : A -> bool) (l : list A) :
  List.length (filter p l) <= List.length l.
Proof.
  induction l as [| x l IH]; cbn [filter List.length]; [lia |].
  destruct (p x); cbn [List.length]; lia.
Qed.

Lemma filter_length_all {A : Type} (p : A -> bool) (l : list A) :
  List.length (filter p l) = List.length l <-> forall x, In x l -> p x = true.
Proof.
  induction l as [| x l IH]; cbn [filter List.length In]; [tauto |].
  pose proof (filter_length_le p l) as Hle.
  destruct (p x) eqn:Hx; cbn [List.length]; split.
  - intros E y [<- | Hy]; [exact Hx | apply IH; [lia | exact Hy]].
  - intros H. f_equal. apply IH. intros y Hy. apply H. right. exact Hy.
  - intros E. lia.
  - intros H. specialize (H x (or_introl eq_refl)). congruence.
Qed.

Lemma filter_length_pos {A : Type} (p : A -> bool) (l : list A) :
  0 < List.length (filter p l) <-> exists x, In x l /\ p x = true.
Proof.
  split.
  - destruct (filter p l) as [| x rest] eqn:E; cbn [List.length]; [lia |].
    intros _. exists x. apply filter_In. rewrite E. left. reflexivity.
  - intros (x & Hx & Hp).
    assert (Hin : In x (filter p l)) by (apply filter_In; split; assumption).
    destruct (filter p l); [contradiction | cbn [List.length]; lia].
Qed.

(** The three counters of the report count disjoint sets of rows. *)
Lemma status_counts_disjoint (rows : list FormField.t) :
  count_if (fun f => String.eqb (FormField.status f) "synced") rows
  + count_if (fun f => existsb (String.eqb (FormField.status f)) ["pending"; "draft"]) rows
  + count_if (fun f => String.eqb (FormField.status f) "error") rows
  <= List.length rows.
Proof.
  unfold count_if.
  induction rows as [| r rows IH]; cbn [filter List.length]; [lia |].
  destruct (String.eqb (FormField.status r) "synced") eqn:Ha;
    destruct (existsb (String.eqb (FormField.status r)) ["pending"; "draft"]) eqn:Hb;
    destruct (String.eqb (FormField.status r) "error") eqn:Hc;
    cbn [List.length]; try lia; exfalso;
    try (apply String.eqb_eq in Ha; rewrite Ha in *; discriminate);
    apply String.eqb_eq in Hc; rewrite Hc in *; discriminate.
Qed.

(** X5.  With [Form] and [FormField] bound: [get_sync_status] raises
    [ValueError] exactly for a missing document.  For an existing one the report counts the rows of the
    document; the synced, pending (["pending"] or ["draft"]) and failed
    counters count disjoint rows, so their sum is at most the total;
    [error_count] is the failed counter and the number of error lines.  The
    status is [error] exactly when some row is in ["error"], [synced]
    exactly when every row is ["synced"] (so also for a document without
    rows), and [pending] in every other case, in particular when the
    remaining rows are ["syncing"] or ["conflict"]. *)
Theorem get_sync_status_report (document_id : Z) (w : World R) :
  (form_exists document_id w = false ->
   get_sync_status ns document_id w
   = Raise (ValueError ("Document " ++ str_Z document_id ++ " not found")))
  /\ (form_exists document_id w = true ->
      exists st : DataPadSyncStatusResponse.t,
        get_sync_status ns document_id w = Ok st
        /\ DataPadSyncStatusResponse.total_fields st
           = List.length (document_fields document_id w)
        /\ DataPadSyncStatusResponse.synced_fields st
           + DataPadSyncStatusResponse.pending_fields st
           + DataPadSyncStatusResponse.failed_fields st
           <= DataPadSyncStatusResponse.total_fields st
        /\ DataPadSyncStatusResponse.error_count st
           = DataPadSyncStatusResponse.failed_fields st
        /\ List.length (DataPadSyncStatusResponse.errors st)
           = DataPadSyncStatusResponse.failed_fields st
        /\ (DataPadSyncStatusResponse.status st = error
            <-> exists f, In f (document_fields document_id w)
                          /\ FormField.status f = "error")
        /\ (DataPadSyncStatusResponse.status st = synced
            <-> forall f, In f (document_fields document_id w) ->
                          FormField.status f = "synced")
        /\ (DataPadSyncStatusResponse.status st = error
            \/ DataPadSyncStatusResponse.status st = synced
            \/ DataPadSyncStatusResponse.status st = pending)).
Proof.
  unfold get_sync_status, load_name.
  rewrite (proj1 ns_bound), (proj2 ns_bound). cbv beta iota. split; intros Hdoc; rewrite Hdoc; cbn [negb]; [reflexivity |].
  change (select_fields document_id None w) with (document_fields document_id w).
  set (rows := document_fields document_id w).
  pose proof (status_counts_disjoint rows) as Hsum.
  assert (Herr : (0 < count_if (fun f => String.eqb (FormField.status f) "error") rows)
                 <-> exists f, In f rows /\ FormField.status f = "error").
  { unfold count_if. rewrite filter_length_pos. split; intros (f & Hf & Hst); exists f;
      (split; [exact Hf |]); [apply String.eqb_eq | apply String.eqb_eq]; exact Hst. }
  assert (Hall : List.length rows
                 = count_if (fun f => String.eqb (FormField.status f) "synced") rows
                 <-> forall f, In f rows -> FormField.status f = "synced").
  { unfold count_if. split.
    - intros E f Hf. apply String.eqb_eq.
      apply (proj1 (filter_length_all _ rows) (eq_sym E)). exact Hf.
    - intros H. symmetry. apply filter_length_all. intros f Hf.
      apply String.eqb_eq, H, Hf. }
  eexists. split; [reflexivity |].
  cbn [DataPadSyncStatusResponse.total_fields DataPadSyncStatusResponse.synced_fields
       DataPadSyncStatusResponse.pending_fields DataPadSyncStatusResponse.failed_fields
       DataPadSyncStatusResponse.error_count DataPadSyncStatusResponse.errors
       DataPadSyncStatusResponse.status].
  split; [reflexivity |]. split; [exact Hsum |].
  split; [rewrite length_map; reflexivity |].
  split; [rewrite length_map; reflexivity |].
  destruct (0 <? count_if (fun f => String.eqb (FormField.status f) "error") rows)%nat
    eqn:Hfailed.
  - apply Nat.ltb_lt in Hfailed. split; [| split].
    + split; [intros _; apply Herr, Hfailed | reflexivity].
    + split; [discriminate |]. intros Hsynced. exfalso.
      apply Herr in Hfailed. destruct Hfailed as (f & Hf & Hst).
      rewrite (Hsynced f Hf) in Hst. discriminate Hst.
    + left. reflexivity.
  - apply Nat.ltb_ge in Hfailed.
    assert (Hnoerr : ~ exists f, In f rows /\ FormField.status f = "error")
      by (intros H; apply Herr in H; lia).
    destruct (0 <? count_if _ rows)%nat eqn:Hpending.
    + apply Nat.ltb_lt in Hpending. split; [| split].
      * split; [discriminate | intros H; contradiction].
      * split; [discriminate |]. intros Hsynced. apply Hall in Hsynced. lia.
      * right. right. reflexivity.
    + destruct (List.length rows =? count_if _ rows)%nat eqn:Htotal.
      * apply Nat.eqb_eq in Htotal. split; [| split].
        -- split; [discriminate | intros H; contradiction].
        -- split; [intros _; apply Hall, Htotal | reflexivity].
        -- right. left. reflexivity.
      * apply Nat.eqb_neq in Htotal. split; [| split].
        -- split; [discriminate | intros H; contradiction].
        -- split; [discriminate |]. intros Hsynced. apply Hall in Hsynced. contradiction.
        -- right. right. reflexivity.
Qed.

Lemma fold_max_ge (l : list Z) :
  forall x, (x <= fold_left Z.max l x)%Z
            /\ forall y, In y l -> (y <= fold_left Z.max l x)%Z.
Proof.
  induction l as [| a l IH]; intros x; cbn [fold_left In]; [split; [lia | tauto] |].
  destruct (IH (Z.max x a)) as (H1 & H2). split; [lia |].
  intros y [<- | Hy]; [lia | apply H2, Hy].
Qed.

Lemma fold_max_in (l : list Z) :
  forall x, fold_left Z.max l x = x \/ In (fold_left Z.max l x) l.
Proof.
  induction l as [| a l IH]; intros x; cbn [fold_left In]; [left; reflexivity |].
  destruct (IH (Z.max x a)) as [H | H]; [| right; right; exact H].
  rewrite H. destruct (Z.max_spec x a) as [(_ & ->) | (_ & ->)];
    [right; left; reflexivity | left; reflexivity].
Qed.

(** X6.  With [Form] and [FormField] bound: in a report of
    [get_sync_status], [last_sync_at] is [None] exactly when no row of the document is ["synced"]; otherwise it is the
    [updated_at] of a synced row of the document and no synced row of the
    document was updated later.  Rows in any other status do not count,
    however recent. *)
Theorem get_sync_status_last_sync_at (document_id : Z) (w : World R)
    (st : DataPadSyncStatusResponse.t) :
  get_sync_status ns document_id w = Ok st ->
  (DataPadSyncStatusResponse.last_sync_at st = None
   <-> forall f, In f (document_fields document_id w) -> FormField.status f <> "synced")
  /\ forall t, DataPadSyncStatusResponse.last_sync_at st = Some t ->
       (exists f, In f (document_fields document_id w)
                  /\ FormField.status f = "synced" /\ FormField.updated_at f = t)
       /\ forall f, In f (document_fields document_id w) ->
                    FormField.status f = "synced" -> (FormField.updated_at f <= t)%Z.
Proof.
  unfold get_sync_status, load_name.
  rewrite (proj1 ns_bound), (proj2 ns_bound). cbv beta iota.
  destruct (negb (form_exists document_id w)); [discriminate |].
  change (select_fields document_id None w) with (document_fields document_id w).
  set (rows := document_fields document_id w).
  intros E. injection E as <-. cbn [DataPadSyncStatusResponse.last_sync_at].
  assert (Hin : forall f, In f (filter (fun f => String.eqb (FormField.status f) "synced") rows)
                          <-> In f rows /\ FormField.status f = "synced").
  { intros f. rewrite filter_In, String.eqb_eq. reflexivity. }
  destruct (filter (fun f => String.eqb (FormField.status f) "synced") rows)
    as [| g rest] eqn:Hsynced; cbn [truthy_list map max_default].
  - split; [| discriminate]. split; [| reflexivity].
    intros _ f Hf Hst. apply (proj2 (Hin f)). split; assumption.
  - split.
    + split; [discriminate |]. intros H. exfalso.
      destruct (proj1 (Hin g) (or_introl eq_refl)) as (Hg & Hst). exact (H g Hg Hst).
    + intros t E. injection E as <-. split.
      * destruct (fold_max_in (map FormField.updated_at rest) (FormField.updated_at g))
          as [H | H].
        -- exists g. destruct (proj1 (Hin g) (or_introl eq_refl)) as (Hg & Hst).
           split; [exact Hg |]. split; [exact Hst | symmetry; exact H].
        -- apply in_map_iff in H. destruct H as (f & Hf & Hfin).
           destruct (proj1 (Hin f) (or_intror Hfin)) as (Hfrows & Hst).
           exists f. split; [exact Hfrows |]. split; [exact Hst | exact Hf].
      * intros f Hf Hst.
        destruct (fold_max_ge (map FormField.updated_at rest) (FormField.updated_at g))
          as (H1 & H2).
        destruct (proj2 (Hin f) (conj Hf Hst)) as [<- | Hrest]; [exact H1 |].
        apply H2. apply in_map, Hrest.
Qed.

End StatusReport.

(** ** What a synchronisation leaves in the table *)

Section StoredRows.
Context {R : Type} {api : DataPadAPI R}.
Import SyncService.

Lemma select_fields_selected (document_id : Z) (field_ids : option (list Z)) (w : World R) :
  select_fields document_id field_ids w
  = filter (selected document_id field_ids) (fields w).
Proof.
  unfold select_fields, selected.
  destruct (truthy_opt_list field_ids).
  - induction (fields w) as [| r rows IH]; cbn [filter]; [reflexivity |].
    destruct (FormField.form_id r =? document_id)%Z; cbn [filter andb]; [| exact IH].
    destruct (existsb _ _); rewrite IH; reflexivity.
  - apply filter_ext. intros r. rewrite andb_true_r. reflexivity.
Qed.

Lemma selected_same_key (document_id : Z) (field_ids : option (list Z))
    (a b : FormField.t) :
  FormField.id a = FormField.id b ->
  FormField.form_id a = FormField.form_id b ->
  selected document_id field_ids a = selected document_id field_ids b.
Proof. unfold selected. intros -> ->. reflexivity. Qed.

(** On a table keyed by [id], writing an object through replaces the one
    row that has its key. *)
Lemma persist_unique (done post : list FormField.t) (r r1 : FormField.t) (w : World R) :
  fields w = done ++ r :: post ->
  NoDup (map FormField.id (done ++ r :: post)) ->
  FormField.id r1 = FormField.id r ->
  fields (persist r1 w) = done ++ r1 :: post.
Proof.
  intros Hrows Hkey Hid. unfold persist. cbn [fields]. rewrite Hrows, map_app.
  cbn [map]. rewrite Hid, Z.eqb_refl.
  rewrite map_app in Hkey. cbn [map] in Hkey.
  apply NoDup_remove_2 in Hkey.
  assert (Hother : forall l, (forall x, In x l -> FormField.id x <> FormField.id r) ->
                             map (fun x => if (FormField.id x =? FormField.id r)%Z
                                           then r1 else x) l = l).
  { intros l Hl. induction l as [| x l IH]; cbn [map]; [reflexivity |].
    destruct (Z.eqb_spec (FormField.id x) (FormField.id r)) as [E | _].
    - exfalso. apply (Hl x); [left; reflexivity | exact E].
    - f_equal. apply IH. intros y Hy. apply Hl. right. exact Hy. }
  rewrite !Hother; [reflexivity | |].
  - intros x Hx E. apply Hkey. apply in_or_app. right. rewrite <- E. apply in_map, Hx.
  - intros x Hx E. apply Hkey. apply in_or_app. left. rewrite <- E. apply in_map, Hx.
Qed.

(** The loop of [sync_document] over the selected rows of a table keyed by
    [id]: row by row, a selected row is replaced by the object that
    [_sync_field] returned for it, which agrees with its entry, and an
    unselected row stays as it is. *)
Lemma sync_loop_rows (fuel : nat) (force : bool) (conflict_resolution : string)
    (document_id : Z) (field_ids : option (list Z)) (post : list FormField.t) :
  forall (done : list FormField.t) (results : list DataPadSyncResult.t)
         (summary : Summary.t) (w : World R)
         (results' : list DataPadSyncResult.t) (summary' : Summary.t) (w' : World R),
    fields w = done ++ post ->
    NoDup (map FormField.id (done ++ post)) ->
    sync_loop fuel (filter (selected document_id field_ids) post) force
      conflict_resolution results summary w = Some (results', summary', w') ->
    exists (post' : list FormField.t) (new : list DataPadSyncResult.t),
      fields w' = done ++ post'
      /\ results' = results ++ new
      /\ forms w' = forms w
      /\ map FormField.id post' = map FormField.id post
      /\ map FormField.form_id post' = map FormField.form_id post
      /\ Forall2 row_entry (filter (selected document_id field_ids) post') new
      /\ Forall2 (fun r r' => selected document_id field_ids r = false -> r' = r)
           post post'.
Proof.
  induction post as [| r post IH]; intros done results summary w results' summary' w'
    Hrows Hkey; cbn [filter].
  - cbn [sync_loop]. intros E; injection E as <- <- <-.
    exists [], []. rewrite !app_nil_r. rewrite app_nil_r in Hrows.
    split; [exact Hrows |]. repeat split; constructor.
  - destruct (selected document_id field_ids r) eqn:Hsel.
    + cbn [sync_loop].
      destruct (_sync_field fuel r force conflict_resolution w)
        as [[[r1 res] w1] |] eqn:Hfield; [| discriminate].
      destruct (sync_field_effect _ _ _ _ _ _ _ _ Hfield)
        as (Hid & Hdoc & Hforms & Hentry & Heffect).
      assert (Hrows1 : fields w1 = (done ++ [r1]) ++ post).
      { rewrite <- app_assoc. cbn [app].
        destruct Heffect as [(_ & -> & ->) | (_ & ->)]; [exact Hrows |].
        apply (persist_unique done post r); assumption. }
      assert (Hkey1 : NoDup (map FormField.id ((done ++ [r1]) ++ post))).
      { rewrite <- app_assoc. cbn [app]. rewrite map_app. cbn [map]. rewrite Hid.
        rewrite map_app in Hkey. exact Hkey. }
      intros Hloop.
      destruct (IH _ _ _ _ _ _ _ Hrows1 Hkey1 Hloop)
        as (post' & new & Hrows' & -> & Hforms' & Hids & Hdocs & Hentries & Hframe).
      exists (r1 :: post'), (res :: new).
      rewrite <- !app_assoc in *. cbn [app map filter] in *.
      rewrite (selected_same_key _ _ r1 r Hid Hdoc), Hsel, Hid, Hdoc, Hids, Hdocs.
      repeat split; try assumption; try congruence.
      * constructor; assumption.
      * constructor; [intros H; congruence | exact Hframe].
    + assert (Hrows1 : fields w = (done ++ [r]) ++ post)
        by (rewrite <- app_assoc; exact Hrows).
      assert (Hkey1 : NoDup (map FormField.id ((done ++ [r]) ++ post)))
        by (rewrite <- app_assoc; exact Hkey).
      intros Hloop.
      destruct (IH _ _ _ _ _ _ _ Hrows1 Hkey1 Hloop)
        as (post' & new & Hrows' & -> & Hforms' & Hids & Hdocs & Hentries & Hframe).
      exists (r :: post'), new.
      rewrite <- !app_assoc in *. cbn [app map filter] in *.
      rewrite Hsel, Hids, Hdocs.
      repeat split; try assumption.
      constructor; [reflexivity | exact Hframe].
Qed.

(** The rows that a returned [sync_document] leaves for its selection, on a
    table keyed by [id]: they agree, one by one and in order, with the
    entries of the response. *)
Lemma sync_document_rows (fuel : nat) (document_id : Z) (field_ids : option (list Z))
    (force : bool) (conflict_resolution : string) (w : World R)
    (response : DataPadSyncResponse.t) (w' : World R) :
  primary_key w ->
  sync_document ns fuel document_id field_ids force conflict_resolution w
  = Some (Ok response, w') ->
  form_exists document_id w' = true
  /\ Forall2 row_entry (select_fields document_id field_ids w')
       (DataPadSyncResponse.results response)
  /\ Forall entry_ok (DataPadSyncResponse.results response)
  /\ DataPadSyncResponse.summary response
     = fold_left count_result (DataPadSyncResponse.results response) Summary.zero
  /\ DataPadSyncResponse.status response
     = overall_status (DataPadSyncResponse.summary response)
  /\ Forall2 (fun r r' => selected document_id field_ids r = false -> r' = r)
       (fields w) (fields w').
Proof.
  intros Hkey.
  destruct (form_exists document_id w) eqn:Hdoc.
  2: { rewrite (sync_document_missing _ _ _ _ _ _ Hdoc). discriminate. }
  rewrite (sync_document_present _ _ _ _ _ _ Hdoc). cbv zeta.
  assert (Hsame : Forall2 (fun r r' : FormField.t =>
                             selected document_id field_ids r = false -> r' = r)
                    (fields w) (fields w)).
  { induction (fields w); constructor; [reflexivity | assumption]. }
  destruct (select_fields document_id field_ids w) as [| field rest] eqn:Hsel.
  - cbn [truthy_list negb]. intros E; injection E as <- <-.
    split; [exact Hdoc |]. split.
    { change (Forall2 row_entry (select_fields document_id field_ids w) []).
      rewrite Hsel. constructor. }
    repeat split; try constructor. exact Hsame.
  - cbn [truthy_list negb]. rewrite <- Hsel. rewrite select_fields_selected.
    destruct (sync_loop _ _ _ _ _ _ _) as [[[results summary] w1] |] eqn:Hloop;
      [| discriminate].
    intros E; injection E as <- <-.
    pose proof (sync_loop_result _ _ _ _ _ _ _ _ _ _ Hloop) as (new0 & Hnew0 & _ & Hok & Hsum).
    destruct (sync_loop_rows fuel force conflict_resolution document_id field_ids
                (fields w) [] [] Summary.zero (snd (utcnow w)) results summary w1
                eq_refl Hkey Hloop)
      as (post' & new & Hrows & Hnew & Hforms & _ & _ & Hentries & Hframe).
    cbn [app] in *. subst results summary.
    cbn [DataPadSyncResponse.results DataPadSyncResponse.summary
         DataPadSyncResponse.status].
    split; [unfold form_exists in *; cbn [utcnow snd forms]; rewrite Hforms; exact Hdoc |].
    rewrite select_fields_selected.
    subst new0. cbn [utcnow snd fields]. rewrite Hrows.
    split; [exact Hentries |]. split; [exact Hok |].
    split; [reflexivity |]. split; [reflexivity | exact Hframe].
Qed.

(** X17.  With [Form] and [FormField] bound: what a returned
    [sync_document] leaves in the table, when the table is keyed by [id]: the document still exists; the selected rows
    agree, one by one and in order, with the entries of the response (the
    status column holds the status of the entry, and a [synced] row carries
    the remote field id of its entry); every entry is [synced] without a
    message or [error] or [conflict] with one; and every row outside the
    selection, of this or of another document, is exactly as it was. *)
Theorem sync_document_stored_rows (fuel : nat) (document_id : Z)
    (field_ids : option (list Z)) (force : bool) (conflict_resolution : string)
    (w : World R) (response : DataPadSyncResponse.t) (w' : World R) :
  primary_key w ->
  sync_document ns fuel document_id field_ids force conflict_resolution w
  = Some (Ok response, w') ->
  form_exists document_id w' = true
  /\ Forall2 row_entry (select_fields document_id field_ids w')
       (DataPadSyncResponse.results response)
  /\ Forall entry_ok (DataPadSyncResponse.results response)
  /\ Forall2 (fun r r' => selected document_id field_ids r = false -> r' = r)
       (fields w) (fields w').
Proof.
  intros Hkey Hrun.
  destruct (sync_document_rows _ _ _ _ _ _ _ _ Hkey Hrun)
    as (Hdoc & Hentries & Hok & _ & _ & Hframe).
  repeat split; assumption.
Qed.

Lemma row_entry_counts (rows : list FormField.t) (results : list DataPadSyncResult.t) :
  Forall2 row_entry rows results ->
  List.length rows = List.length results
  /\ count_if (fun f => String.eqb (FormField.status f) "synced") rows
     = count_status synced results
  /\ count_if (fun f => existsb (String.eqb (FormField.status f)) ["pending"; "draft"]) rows
     = count_status pending results
  /\ count_if (fun f => String.eqb (FormField.status f) "error") rows
     = count_status error results.
Proof.
  unfold count_if, count_status.
  induction 1 as [| r res rows results (Hst & _) _ IH];
    cbn [filter List.length]; [repeat split |].
  destruct IH as (H0 & H1 & H2 & H3). rewrite Hst.
  destruct (DataPadSyncResult.status res);
    repeat match goal with
           | |- context [if ?b then _ else _] =>
               let v := eval vm_compute in b in change b with v; cbv iota
           end;
    cbn [List.length]; rewrite ?H0, ?H1, ?H2, ?H3; repeat apply conj; reflexivity.
Qed.

Lemma count_status_total (results : list DataPadSyncResult.t) :
  List.length results
  = count_status synced results + count_status pending results
    + count_status error results + count_status syncing results
    + count_status conflict results.
Proof.
  unfold count_status.
  induction results as [| r results IH]; cbn [filter List.length]; [reflexivity |].
  destruct (DataPadSyncResult.status r); cbn; lia.
Qed.

Lemma entry_ok_counts (results : list DataPadSyncResult.t) :
  Forall entry_ok results ->
  count_status pending results = 0 /\ count_status syncing results = 0.
Proof.
  unfold count_status.
  induction 1 as [| r results Hr _ IH]; cbn [filter List.length]; [split; reflexivity |].
  destruct Hr as [(-> & _) | ([-> | ->] & _)]; cbn; exact IH.
Qed.

(** X7.  With [Form] and [FormField] bound: after a returned
    [sync_document] over all fields of a document (on a table keyed by [id]), [get_sync_status] reports what the response
    summarised: as many rows as entries, the synced and failed counters of
    the summary, and no pending row; the stored rows agree with the entries
    one by one.  The status of the report is [error] when an entry failed,
    [synced] when there is no [conflict] entry either, and [pending] when
    there is one: in that last case the report does not repeat the status
    [synced] that the response itself carried. *)
Theorem sync_then_status_report (fuel : nat) (document_id : Z) (force : bool)
    (conflict_resolution : string) (w : World R)
    (response : DataPadSyncResponse.t) (w' : World R) :
  primary_key w ->
  sync_document ns fuel document_id None force conflict_resolution w
  = Some (Ok response, w') ->
  exists st : DataPadSyncStatusResponse.t,
    get_sync_status ns document_id w' = Ok st
    /\ Forall2 row_entry (document_fields document_id w')
         (DataPadSyncResponse.results response)
    /\ DataPadSyncStatusResponse.total_fields st
       = List.length (DataPadSyncResponse.results response)
    /\ DataPadSyncStatusResponse.synced_fields st
       = Summary.synced (DataPadSyncResponse.summary response)
    /\ DataPadSyncStatusResponse.failed_fields st
       = Summary.failed (DataPadSyncResponse.summary response)
    /\ DataPadSyncStatusResponse.pending_fields st = 0
    /\ DataPadSyncStatusResponse.status st
       = (if (0 <? Summary.failed (DataPadSyncResponse.summary response))%nat then error
          else if (Summary.skipped (DataPadSyncResponse.summary response) =? 0)%nat
               then synced else pending)
    /\ (DataPadSyncStatusResponse.status st = DataPadSyncResponse.status response
        <-> Summary.failed (DataPadSyncResponse.summary response) <> 0
            \/ Summary.skipped (DataPadSyncResponse.summary response) = 0).
Proof.
  intros Hkey Hrun.
  destruct (sync_document_rows _ _ _ _ _ _ _ _ Hkey Hrun)
    as (Hdoc & Hentries & Hok & Hsum & Hstatus & _).
  change (select_fields document_id None w') with (document_fields document_id w')
    in Hentries.
  destruct (row_entry_counts _ _ Hentries) as (Hlen & Hsynced & Hpending & Hfailed).
  destruct (count_result_fold (DataPadSyncResponse.results response) Summary.zero)
    as (S1 & S2 & S3 & S4).
  rewrite <- Hsum in S1, S2, S3, S4. cbn [Summary.zero Summary.synced Summary.pending
    Summary.failed Summary.skipped Nat.add] in S1, S2, S3, S4.
  destruct (entry_ok_counts _ Hok) as (Hp0 & Hs0).
  pose proof (count_status_total (DataPadSyncResponse.results response)) as Htotal.
  unfold get_sync_status, load_name.
  rewrite (proj1 ns_bound), (proj2 ns_bound). cbv beta iota.
  rewrite Hdoc. cbn [negb].
  change (select_fields document_id None w') with (document_fields document_id w').
  eexists. split; [reflexivity |].
  cbn [DataPadSyncStatusResponse.total_fields DataPadSyncStatusResponse.synced_fields
       DataPadSyncStatusResponse.pending_fields DataPadSyncStatusResponse.failed_fields
       DataPadSyncStatusResponse.status].
  rewrite Hlen, Hsynced, Hpending, Hfailed, Hp0, <- S1, <- S3.
  assert (Hst : (if (0 <? Summary.failed (DataPadSyncResponse.summary response))%nat
                 then error
                 else if (0 <? 0)%nat then pending
                      else if (List.length (DataPadSyncResponse.results response)
                               =? Summary.synced (DataPadSyncResponse.summary response))%nat
                           then synced else pending)
                = (if (0 <? Summary.failed (DataPadSyncResponse.summary response))%nat
                   then error
                   else if (Summary.skipped (DataPadSyncResponse.summary response) =? 0)%nat
                        then synced else pending)).
  { destruct (0 <? Summary.failed _)%nat eqn:Hf; [reflexivity |].
    apply Nat.ltb_ge in Hf. cbn [Nat.ltb Nat.leb].
    destruct (Nat.eqb_spec (Summary.skipped (DataPadSyncResponse.summary response)) 0)
      as [Hk | Hk].
    - replace (List.length _ =? _)%nat with true; [reflexivity |].
      symmetry. apply Nat.eqb_eq. lia.
    - replace (List.length _ =? _)%nat with false; [reflexivity |].
      symmetry. apply Nat.eqb_neq. lia. }
  split; [exact Hentries |]. split; [reflexivity |]. split; [reflexivity |].
  split; [reflexivity |]. split; [reflexivity |]. split; [exact Hst |].
  rewrite Hst, Hstatus. unfold overall_status. rewrite S2, Hp0.
  destruct (0 <? Summary.failed _)%nat eqn:Hf.
  - apply Nat.ltb_lt in Hf. split; [intros _; left; lia | reflexivity].
  - apply Nat.ltb_ge in Hf. cbn [Nat.ltb Nat.leb].
    destruct (Nat.eqb_spec (Summary.skipped (DataPadSyncResponse.summary response)) 0)
      as [Hk | Hk].
    + split; [intros _; right; exact Hk | reflexivity].
    + split; [discriminate | intros [H | H]; [lia | contradiction]].
Qed.

Lemma sync_loop_skipped (fuel : nat) (conflict_resolution : string)
    (todo : list FormField.t) :
  forall (results : list DataPadSyncResult.t) (summary : Summary.t) (w : World R),
    Forall (fun f => skipped f false = true) todo ->
    sync_loop (S fuel) todo false conflict_resolution results summary w
    = Some (results ++ map skip_result todo,
            fold_left count_result (map skip_result todo) summary, w).
Proof.
  induction todo as [| f rest IH]; intros results summary w Hall;
    cbn [sync_loop map fold_left].
  - rewrite app_nil_r. reflexivity.
  - inversion Hall as [| f0 rest0 Hf Hrest]; subst.
    rewrite _sync_field_step, Hf. fold (skip_result f).
    rewrite (IH _ _ _ Hrest), <- app_assoc. reflexivity.
Qed.

Lemma count_skip_results (rows : list FormField.t) :
  forall summary : Summary.t,
    fold_left count_result (map skip_result rows) summary
    = Summary.mk (Summary.synced summary + List.length rows) (Summary.pending summary)
        (Summary.failed summary) (Summary.skipped summary).
Proof.
  induction rows as [| r rows IH]; intros [a b c d]; cbn [map fold_left List.length].
  - cbn [Summary.synced Summary.pending Summary.failed Summary.skipped].
    rewrite Nat.add_0_r. reflexivity.
  - rewrite IH. unfold count_result, skip_result.
    cbn [DataPadSyncResult.status SyncStatus_eqb Summary.synced Summary.pending
         Summary.failed Summary.skipped].
    f_equal. lia.
Qed.

(** X8.  With [Form] and [FormField] bound: running [sync_document]
    again, without [force], after a run that returned and whose entries are all [synced] with a truthy remote field id (on a table
    keyed by [id]): the second run returns whatever the policy, makes no
    call on the client and leaves every row and the remote side as they
    were.  Its response is [synced] and has, for the same fields in the
    same order, entries with the same status and remote field id, but
    without [synced_at]; its summary counts them all as synced. *)
Theorem sync_document_twice (fuel fuel2 : nat) (document_id : Z)
    (field_ids : option (list Z)) (force : bool)
    (conflict_resolution conflict_resolution2 : string)
    (w : World R) (response : DataPadSyncResponse.t) (w1 : World R) :
  primary_key w ->
  sync_document ns fuel document_id field_ids force conflict_resolution w
  = Some (Ok response, w1) ->
  Forall (fun r => DataPadSyncResult.status r = synced
                   /\ truthy_opt (DataPadSyncResult.datapad_field_id r) = true)
    (DataPadSyncResponse.results response) ->
  exists (response2 : DataPadSyncResponse.t) (w2 : World R),
    sync_document ns (S fuel2) document_id field_ids false conflict_resolution2 w1
    = Some (Ok response2, w2)
    /\ fields w2 = fields w1 /\ forms w2 = forms w1
    /\ datapad w2 = datapad w1 /\ calls w2 = calls w1
    /\ DataPadSyncResponse.status response2 = synced
    /\ map (fun r => (DataPadSyncResult.field_id r, DataPadSyncResult.status r,
                      DataPadSyncResult.datapad_field_id r))
         (DataPadSyncResponse.results response2)
       = map (fun r => (DataPadSyncResult.field_id r, DataPadSyncResult.status r,
                        DataPadSyncResult.datapad_field_id r))
           (DataPadSyncResponse.results response)
    /\ Forall (fun r => DataPadSyncResult.synced_at r = None
                        /\ DataPadSyncResult.error_message r = None)
         (DataPadSyncResponse.results response2)
    /\ DataPadSyncResponse.summary response2
       = Summary.mk (List.length (DataPadSyncResponse.results response)) 0 0 0.
Proof.
  intros Hkey Hrun Hall.
  destruct (sync_document_rows _ _ _ _ _ _ _ _ Hkey Hrun) as (Hdoc & Hentries & _).
  set (rows := select_fields document_id field_ids w1) in *.
  assert (Hskip : Forall (fun f => skipped f false = true) rows
                  /\ map (fun r => (DataPadSyncResult.field_id r, DataPadSyncResult.status r,
                                    DataPadSyncResult.datapad_field_id r))
                       (map skip_result rows)
                     = map (fun r => (DataPadSyncResult.field_id r,
                                      DataPadSyncResult.status r,
                                      DataPadSyncResult.datapad_field_id r))
                         (DataPadSyncResponse.results response)
                  /\ List.length rows
                     = List.length (DataPadSyncResponse.results response)).
  { clearbody rows. revert Hall.
    induction Hentries as [| r res rows0 results0 (Hst & Hid & Hremote) _ IH];
      intros Hall; [repeat split; constructor |].
    inversion Hall as [| res0 results1 (Hsynced & Htruthy) Hrest]; subst.
    destruct (IH Hrest) as (IH1 & IH2 & IH3).
    specialize (Hremote Hsynced). rewrite Hsynced in Hst.
    split; [| split].
    - constructor; [| exact IH1].
      unfold skipped. rewrite Hremote, Htruthy, Hst. reflexivity.
    - cbn [map]. rewrite IH2. unfold skip_result.
      cbn [DataPadSyncResult.field_id DataPadSyncResult.status
           DataPadSyncResult.datapad_field_id].
      rewrite Hid, Hsynced, Hremote. reflexivity.
    - cbn [List.length]. rewrite IH3. reflexivity. }
  destruct Hskip as (Hskip & Hsame & Hlen).
  rewrite (sync_document_present _ _ _ _ _ _ Hdoc). cbv zeta. fold rows.
  destruct rows as [| r rows0] eqn:Hrows; cbn [truthy_list negb].
  - eexists. eexists. split; [reflexivity |].
    cbn [utcnow snd fields forms datapad calls DataPadSyncResponse.status
         DataPadSyncResponse.results DataPadSyncResponse.summary].
    repeat split; try reflexivity; [exact Hsame | constructor |].
    rewrite <- Hlen. reflexivity.
  - rewrite (sync_loop_skipped _ _ _ _ _ _ Hskip).
    eexists. eexists. split; [reflexivity |].
    cbn [utcnow snd fields forms datapad calls DataPadSyncResponse.status
         DataPadSyncResponse.results DataPadSyncResponse.summary app].
    rewrite count_skip_results.
    cbn [Summary.zero Summary.synced Summary.pending Summary.failed Summary.skipped
         Nat.add].
    repeat split; try reflexivity; [exact Hsame | | rewrite <- Hlen; reflexivity].
    apply Forall_forall. intros x Hx. apply in_map_iff in Hx.
    destruct Hx as (f & <- & _). split; reflexivity.
Qed.

(** The loop of [reset_sync_status] over the selected rows of a table keyed
    by [id], row by row. *)
Lemma reset_loop_selected (document_id : Z) (field_ids : option (list Z))
    (post : list FormField.t) :
  forall (done : list FormField.t) (count : nat) (w : World R),
    fields w = done ++ post ->
    NoDup (map FormField.id (done ++ post)) ->
    exists post' : list FormField.t,
      fields (snd (reset_loop (filter (selected document_id field_ids) post) count w))
      = done ++ post'
      /\ fst (reset_loop (filter (selected document_id field_ids) post) count w)
         = count + List.length (filter (selected document_id field_ids) post)
      /\ clock (snd (reset_loop (filter (selected document_id field_ids) post) count w))
         = (clock w + Z.of_nat (List.length (filter (selected document_id field_ids) post)))%Z
      /\ forms (snd (reset_loop (filter (selected document_id field_ids) post) count w))
         = forms w
      /\ datapad (snd (reset_loop (filter (selected document_id field_ids) post) count w))
         = datapad w
      /\ calls (snd (reset_loop (filter (selected document_id field_ids) post) count w))
         = calls w
      /\ Forall2 (fun r r' =>
                    if selected document_id field_ids r
                    then exists now : Z,
                           (clock w <= now
                            < clock w + Z.of_nat (List.length
                                (filter (selected document_id field_ids) post)))%Z
                           /\ r' = reset_row now r
                    else r' = r)
           post post'.
Proof.
  induction post as [| r post IH]; intros done count w Hrows Hkey; cbn [filter].
  - exists []. cbn [reset_loop fst snd List.length]. rewrite Nat.add_0_r, Z.add_0_r.
    repeat split; [exact Hrows | constructor].
  - destruct (selected document_id field_ids r) eqn:Hsel.
    + cbn [reset_loop utcnow].
      set (r1 := FormField.set_updated_at (clock w) _).
      set (w1 := persist r1 _).
      assert (Hr1 : r1 = reset_row (clock w) r) by reflexivity.
      assert (Hrows1 : fields w1 = (done ++ [r1]) ++ post).
      { rewrite <- app_assoc. cbn [app]. subst w1.
        apply (persist_unique done post r); [exact Hrows | exact Hkey | reflexivity]. }
      assert (Hkey1 : NoDup (map FormField.id ((done ++ [r1]) ++ post))).
      { rewrite <- app_assoc. cbn [app]. rewrite map_app. cbn [map].
        rewrite map_app in Hkey. exact Hkey. }
      destruct (IH (done ++ [r1]) (count + 1) w1 Hrows1 Hkey1)
        as (post' & Hrows' & Hcount & Hclock & Hforms & Hdatapad & Hcalls & Hframe).
      exists (r1 :: post'). rewrite <- app_assoc in Hrows'. cbn [app] in Hrows'.
      change (clock w1) with (clock w + 1)%Z in Hclock, Hframe.
      rewrite Hrows', Hcount, Hclock, Hforms, Hdatapad, Hcalls. cbn [List.length].
      split; [reflexivity |]. split; [lia |]. split; [lia |].
      split; [reflexivity |]. split; [reflexivity |]. split; [reflexivity |].
      constructor.
      * rewrite Hsel. exists (clock w). split; [lia | exact Hr1].
      * eapply Forall2_impl; [| exact Hframe]. intros a b. cbv beta.
        destruct (selected document_id field_ids a); [| trivial].
        intros (now & Hnow & ->). exists now. split; [lia | reflexivity].
    + assert (Hrows1 : fields w = (done ++ [r]) ++ post)
        by (rewrite <- app_assoc; exact Hrows).
      assert (Hkey1 : NoDup (map FormField.id ((done ++ [r]) ++ post)))
        by (rewrite <- app_assoc; exact Hkey).
      destruct (IH (done ++ [r]) count w Hrows1 Hkey1)
        as (post' & Hrows' & Hcount & Hclock & Hforms & Hdatapad & Hcalls & Hframe).
      exists (r :: post'). rewrite <- app_assoc in Hrows'. cbn [app] in Hrows'.
      split; [exact Hrows' |]. split; [exact Hcount |]. split; [exact Hclock |].
      split; [exact Hforms |]. split; [exact Hdatapad |]. split; [exact Hcalls |].
      constructor; [rewrite Hsel; reflexivity | exact Hframe].
Qed.

(** X10.  With [Form] and [FormField] bound: [reset_sync_status] with any
    [field_ids], on a table keyed by [id]: the count is the number of selected rows, which are the rows of
    the document, narrowed to the listed ids when the list is neither
    absent nor empty.  Each selected row is written back with the status
    ["pending"], no remote field id and the time of its own reading of the
    clock; every other row, in particular a listed row of another document,
    is exactly as it was.  The clock was read once per selected row, and
    neither the forms, the remote side nor the call log changed. *)
Theorem reset_sync_status_selected (document_id : Z) (field_ids : option (list Z))
    (w : World R) :
  primary_key w ->
  let count := List.length (select_fields document_id field_ids w) in
  let w' := snd (reset_sync_status ns document_id field_ids w) in
  fst (reset_sync_status ns document_id field_ids w) = Ok count
  /\ select_fields document_id field_ids w
     = filter (selected document_id field_ids) (fields w)
  /\ clock w' = (clock w + Z.of_nat count)%Z
  /\ forms w' = forms w /\ datapad w' = datapad w /\ calls w' = calls w
  /\ Forall2 (fun r r' =>
                if selected document_id field_ids r
                then exists now : Z,
                       (clock w <= now < clock w + Z.of_nat count)%Z
                       /\ r' = reset_row now r
                else r' = r)
       (fields w) (fields w').
Proof.
  intros Hkey. cbv zeta. rewrite reset_sync_status_bound. cbn [fst snd].
  rewrite select_fields_selected.
  destruct (reset_loop_selected document_id field_ids (fields w) [] 0 w eq_refl Hkey)
    as (post' & Hrows & Hcount & Hclock & Hforms & Hdatapad & Hcalls & Hframe).
  cbn [app] in Hrows. rewrite Hrows, Hcount, Hclock, Hforms, Hdatapad, Hcalls.
  cbn [Nat.add]. repeat split. exact Hframe.
Qed.

Lemma filter_length_all_eq {A : Type} (p : A -> bool) (l : list A) :
  (forall x, In x l -> p x = true) -> filter p l = l.
Proof.
  induction l as [| x l IH]; cbn [filter]; [reflexivity |].
  intros H. rewrite (H x (or_introl eq_refl)). f_equal. apply IH.
  intros y Hy. apply H. right. exact Hy.
Qed.

Lemma filter_nil_all {A : Type} (p : A -> bool) (l : list A) :
  (forall x, In x l -> p x = false) -> filter p l = [].
Proof.
  induction l as [| x l IH]; cbn [filter]; [reflexivity |].
  intros H. rewrite (H x (or_introl eq_refl)). apply IH.
  intros y Hy. apply H. right. exact Hy.
Qed.

(** X11.  With [Form] and [FormField] bound: the report of
    [get_sync_status] right after a reset of the whole document (on a table keyed by [id], for an existing document): every
    row counts as pending, none as synced or failed, there is no last sync
    time and no error line; the status is [pending], unless the document
    has no row at all, for which the report says [synced]. *)
Theorem reset_then_status_report (document_id : Z) (w : World R) :
  primary_key w ->
  form_exists document_id w = true ->
  let count := List.length (document_fields document_id w) in
  let w' := snd (reset_sync_status ns document_id None w) in
  fst (reset_sync_status ns document_id None w) = Ok count
  /\ get_sync_status ns document_id w'
     = Ok (DataPadSyncStatusResponse.mk document_id
             (if (count =? 0)%nat then synced else pending)
             count 0 count 0 None 0 []).
Proof.
  intros Hkey Hdoc. cbv zeta.
  destruct (reset_sync_status_rows document_id w Hkey)
    as (Hcount & Hcore & Hforms & _ & _).
  split; [exact Hcount |].
  destruct (reset_core_keys _ _ _ Hcore) as (_ & Hdocs).
  set (w' := snd (reset_sync_status ns document_id None w)) in *.
  assert (Hpending : forall r, In r (document_fields document_id w') ->
                               FormField.status r = "pending").
  { intros r Hr. apply filter_In in Hr. destruct Hr as (Hr & Hd).
    apply Z.eqb_eq in Hd. exact (proj1 (reset_core_pending _ _ _ _ Hcore Hr Hd)). }
  assert (Hlen : List.length (document_fields document_id w')
                 = List.length (document_fields document_id w))
    by (apply filter_form_id_length, Hdocs).
  unfold get_sync_status, load_name.
  rewrite (proj1 ns_bound), (proj2 ns_bound). cbv beta iota.
  replace (form_exists document_id w') with true
    by (unfold form_exists; rewrite Hforms; symmetry; exact Hdoc).
  cbn [negb].
  change (select_fields document_id None w') with (document_fields document_id w').
  unfold count_if.
  rewrite (filter_nil_all (fun f => String.eqb (FormField.status f) "synced")),
          (filter_nil_all (fun f => String.eqb (FormField.status f) "error")).
  2, 3: intros r Hr; rewrite (Hpending r Hr); reflexivity.
  replace (filter (fun f => existsb (String.eqb (FormField.status f)) ["pending"; "draft"])
             (document_fields document_id w'))
    with (document_fields document_id w').
  2: { symmetry. apply filter_length_all_eq. intros r Hr. rewrite (Hpending r Hr).
       reflexivity. }
  cbn [truthy_list map List.length Nat.ltb Nat.leb]. rewrite Hlen.
  destruct (List.length (document_fields document_id w)) as [| n]; reflexivity.
Qed.

End StoredRows.


(** ** The form routes *)

Section FormRoutes.
Context {R : Type} {api : DataPadAPI R}.
Import SyncService.

(** X16.  With [Form] and [FormField] bound, the [sync_form] route, where
    [field_ids], [force] and [conflict_resolution] are those of the payload
    or its defaults and an empty [field_ids] is passed on as [None].  For a
    missing form the handler raises the [HTTPException] 404 "Document ...
    not found", having touched nothing but the clock.  It returns a
    response exactly when [sync_document] returns it, and leaves the same
    state.  For an existing form and a policy other than ["overwrite"] it
    does return a response: the one for this form, with one result per
    selected field, in the order of the rows. *)
Theorem bound_sync_form_outcomes (fuel : nat) (form_id : Z)
    (payload : option DataPadSyncPayload.t) (w : World R) :
  let p :=
    match payload with Some p => p | None => DataPadSyncPayload.default form_id end in
  let ids :=
    if truthy_list (DataPadSyncPayload.field_ids p)
    then Some (DataPadSyncPayload.field_ids p) else None in
  (form_exists form_id w = false ->
   Routes.sync_form ns fuel form_id payload w
   = Some (inl (Routes.mk 404 ("Document " ++ str_Z form_id ++ " not found")),
           mkWorld (forms w) (fields w) (datapad w) (calls w) (clock w + 1)%Z))
  /\ (forall response w',
        Routes.sync_form ns fuel form_id payload w = Some (inr response, w')
        <-> sync_document ns fuel form_id ids (DataPadSyncPayload.force p)
              (DataPadSyncPayload.conflict_resolution p) w
            = Some (Ok response, w'))
  /\ (form_exists form_id w = true ->
      String.eqb (DataPadSyncPayload.conflict_resolution p) "overwrite" = false ->
      exists response w',
        Routes.sync_form ns (S fuel) form_id payload w = Some (inr response, w')
        /\ DataPadSyncResponse.form_id response = form_id
        /\ map DataPadSyncResult.field_id (DataPadSyncResponse.results response)
           = map FormField.id (select_fields form_id ids w)).
Proof.
  intros p ids. split; [| split].
  - intros Hdoc. unfold Routes.sync_form. fold p. fold ids.
    rewrite (sync_document_missing _ _ _ _ _ _ Hdoc). reflexivity.
  - intros response w'. unfold Routes.sync_form. fold p. fold ids.
    destruct (sync_document ns fuel form_id ids _ _ w) as [[[response1 | e] w1] |].
    + split; intros E; injection E as <- <-; reflexivity.
    + destruct e; split; discriminate.
    + split; discriminate.
  - intros Hdoc Hcr. unfold Routes.sync_form. fold p. fold ids.
    rewrite (sync_document_present _ _ _ _ _ _ Hdoc). cbv zeta.
    destruct (select_fields form_id ids w) as [| field rest] eqn:Hsel.
    + cbn [truthy_list negb]. eexists _, _. repeat split.
    + cbn [truthy_list negb].
      destruct (sync_loop_returns_no_overwrite fuel (DataPadSyncPayload.force p)
                  (DataPadSyncPayload.conflict_resolution p)
                  (field :: rest) Hcr [] Summary.zero (snd (utcnow w)))
        as ([[results summary] w1] & Hloop).
      rewrite Hloop. eexists _, _. split; [reflexivity |]. split; [reflexivity |].
      apply sync_loop_result in Hloop. destruct Hloop as (new & -> & Hids & _ & _).
      exact Hids.
Qed.

Lemma reset_loop_count (todo : list FormField.t) :
  forall (count : nat) (w : World R),
    fst (reset_loop todo count w) = count + List.length todo.
Proof.
  induction todo as [| f rest IH]; intros count w; cbn [reset_loop List.length].
  - cbn [fst]. lia.
  - cbn [utcnow]. rewrite IH. lia.
Qed.

(** X25.  With [Form] and [FormField] bound, the two other form routes.
    The [get_sync_status] route raises the [HTTPException] 404 "Document
    ... not found" when the form does not exist and returns the report of
    the service when it does.  The [reset_sync] route does not look the
    form up: it answers with the number of rows that carry the form id and
    are selected, which is 0, with nothing changed, when there is no such
    row, as for a form that does not exist. *)
Theorem bound_status_and_reset_routes (form_id : Z) (field_ids : option (list Z))
    (w : World R) :
  (form_exists form_id w = false ->
   Routes.get_sync_status ns form_id w
   = Routes.HttpRaised (Routes.mk 404 ("Document " ++ str_Z form_id ++ " not found")))
  /\ (form_exists form_id w = true ->
      exists st, get_sync_status ns form_id w = Ok st
                 /\ Routes.get_sync_status ns form_id w = Routes.Returned st
                 /\ DataPadSyncStatusResponse.form_id st = form_id
                 /\ DataPadSyncStatusResponse.total_fields st
                    = List.length (document_fields form_id w))
  /\ fst (Routes.reset_sync ns form_id field_ids w)
     = Routes.Returned (form_id, List.length (select_fields form_id field_ids w))
  /\ (select_fields form_id field_ids w = [] ->
      Routes.reset_sync ns form_id field_ids w = (Routes.Returned (form_id, 0), w)).
Proof.
  split; [| split; [| split]].
  - intros Hdoc. unfold Routes.get_sync_status, get_sync_status, load_name.
    rewrite (proj1 ns_bound), Hdoc. reflexivity.
  - intros Hdoc. unfold Routes.get_sync_status, get_sync_status, load_name.
    rewrite (proj1 ns_bound), (proj2 ns_bound), Hdoc.
    cbn [negb]. eexists. repeat split.
  - unfold Routes.reset_sync. rewrite reset_sync_status_bound.
    rewrite reset_loop_count. reflexivity.
  - intros Hsel. unfold Routes.reset_sync. rewrite reset_sync_status_bound, Hsel.
    reflexivity.
Qed.

End FormRoutes.

End NamesBound.

(** ** Runs on the sample data *)

Section Runs.
Import SyncService.

Lemma sync_field_already_synced_witness :
  SyncService._sync_field 1 (Sample.field 7 (Some "dp-1") "synced") false "skip"
    (Sample.world [Sample.field 7 (Some "dp-1") "synced"] [])
  = Some (Sample.field 7 (Some "dp-1") "synced",
          DataPadSyncResult.mk 7 synced (Some "dp-1") None None,
          Sample.world [Sample.field 7 (Some "dp-1") "synced"] []).
Proof.
  apply (sync_field_already_synced 0 (Sample.field 7 (Some "dp-1") "synced") "skip"
           (Sample.world [Sample.field 7 (Some "dp-1") "synced"] []) "dp-1").
  - reflexivity.
  - discriminate.
  - reflexivity.
Defined.

(** C4, counterexample.  A field whose remote field id is the empty string
    has a non-null id, yet it is not skipped: [create_field] is called and
    the field takes the id of the created remote field. *)
Lemma sync_field_empty_remote_id_not_skipped :
  ~ already_synced_skipped_when_non_null
  /\ exists (field' : FormField.t) (result : DataPadSyncResult.t) (w' : World DataPadClient.t),
       _sync_field 1 (Sample.field 7 (Some "") "synced") false "skip"
         (Sample.world [Sample.field 7 (Some "") "synced"] [Sample.ok "dp-9"])
       = Some (field', result, w')
       /\ map is_create (calls w') = [true]
       /\ FormField.datapad_field_id field' = Some "dp-9"
       /\ fields w' = [field'].
Proof.
  split.
  - intros H.
    specialize (H (Sample.field 7 (Some "") "synced")
                  (Sample.world [Sample.field 7 (Some "") "synced"] [Sample.ok "dp-9"])
                  "" eq_refl eq_refl).
    vm_compute in H. discriminate H.
  - eexists _, _, _. split; [vm_compute; reflexivity |]. repeat split.
Qed.

Lemma sync_field_not_found_conflict_witness :
  exists (field' : FormField.t) (result : DataPadSyncResult.t) (w' : World DataPadClient.t),
    _sync_field 1 (Sample.field 7 (Some "dp-1") "pending") false "skip"
      (Sample.world [Sample.field 7 (Some "dp-1") "pending"] [Sample.not_found])
    = Some (field', result, w')
    /\ FormField.status field' = "conflict"
    /\ FormField.datapad_field_id field' = Some "dp-1"
    /\ DataPadSyncResult.status result = conflict
    /\ List.length (calls w') = 1.
Proof.
  destruct (sync_field_not_found_conflict (api := DataPadClient_API) 0
              (Sample.field 7 (Some "dp-1") "pending") false "skip"
              (Sample.world [Sample.field 7 (Some "dp-1") "pending"] [Sample.not_found])
              (DataPadFieldUpdate.mk (Some "Kundennummer") (Some text) (Some "Allgemein")
                 (Some true) None None None)
              "Field not found" (Some 404%Z)
              (DataPadClient.mk (DataPadClient.net (Sample.client [Sample.not_found]))
                 [("PATCH", "/api/v1/fields/dp-1")] [])
              eq_refl eq_refl eq_refl eq_refl (or_introl eq_refl))
    as (field' & result & w' & Hrun & Hst & Hid & _ & Hres & _ & Hcalls & _).
  exists field', result, w'.
  split; [exact Hrun |]. split; [exact Hst |]. split; [exact Hid |].
  split; [exact Hres |]. rewrite Hcalls. reflexivity.
Defined.

Lemma sync_field_not_found_overwrite_witness :
  exists (field' : FormField.t) (result : DataPadSyncResult.t) (w' : World DataPadClient.t),
    _sync_field 2 (Sample.field 7 (Some "dp-1") "pending") false "overwrite"
      (Sample.world [Sample.field 7 (Some "dp-1") "pending"]
         [Sample.not_found; Sample.ok "dp-9"])
    = Some (field', result, w')
    /\ FormField.status field' = "synced"
    /\ FormField.datapad_field_id field' = Some "dp-9"
    /\ map is_create (calls w') = [false; true].
Proof.
  destruct (sync_field_not_found_overwrite (api := DataPadClient_API) 0
              (Sample.field 7 (Some "dp-1") "pending") false
              (Sample.world [Sample.field 7 (Some "dp-1") "pending"]
                 [Sample.not_found; Sample.ok "dp-9"])
              (DataPadFieldUpdate.mk (Some "Kundennummer") (Some text) (Some "Allgemein")
                 (Some true) None None None)
              "Field not found" (Some 404%Z)
              (DataPadClient.mk
                 (DataPadClient.net (Sample.client [Sample.not_found; Sample.ok "dp-9"]))
                 [("PATCH", "/api/v1/fields/dp-1")] [])
              (DataPadFieldCreate.mk "Kundennummer" text (Some "Allgemein") true None None
                 (Some (Metadata.mk "customer_no" 1 7)))
              (Sample.remote_field "dp-9")
              (DataPadClient.mk
                 (DataPadClient.net (Sample.client [Sample.not_found; Sample.ok "dp-9"]))
                 [("PATCH", "/api/v1/fields/dp-1"); ("POST", "/api/v1/fields")] [])
              eq_refl eq_refl eq_refl eq_refl eq_refl eq_refl)
    as (field' & result & w' & Hrun & Hst & Hid & _ & _ & _ & Hcalls & _).
  exists field', result, w'.
  split; [exact Hrun |]. split; [exact Hst |]. split; [exact Hid |].
  rewrite Hcalls. reflexivity.
Defined.

Lemma overwrite_retry_unbounded_witness :
  _sync_field 50 (Sample.field 7 (Some "dp-1") "pending") false "overwrite"
    (mkWorld [1%Z] [Sample.field 7 (Some "dp-1") "pending"]
       (Sample.always Sample.not_found) [] 100)
  = None.
Proof.
  apply (overwrite_retry_unbounded 50).
  - reflexivity.
  - eexists; reflexivity.
  - eexists; reflexivity.
  - reflexivity.
Defined.

Lemma sync_field_forced_update_witness :
  exists (field' : FormField.t) (result : DataPadSyncResult.t) (w' : World DataPadClient.t),
    _sync_field 1 (Sample.field 7 (Some "dp-1") "synced") true "skip"
      (Sample.world [Sample.field 7 (Some "dp-1") "synced"] [Sample.ok "dp-1"])
    = Some (field', result, w')
    /\ FormField.status field' = "synced"
    /\ map is_create (calls w') = [false].
Proof.
  destruct (sync_field_forced_update (api := DataPadClient_API) 0
              (Sample.field 7 (Some "dp-1") "synced") "skip"
              (Sample.world [Sample.field 7 (Some "dp-1") "synced"] [Sample.ok "dp-1"])
              (DataPadFieldUpdate.mk (Some "Kundennummer") (Some text) (Some "Allgemein")
                 (Some true) None None None)
              (Sample.remote_field "dp-1")
              (DataPadClient.mk (DataPadClient.net (Sample.client [Sample.ok "dp-1"]))
                 [("PATCH", "/api/v1/fields/dp-1")] [])
              eq_refl eq_refl eq_refl)
    as (field' & result & w' & Hrun & Hst & _ & _ & _ & Hcalls & _).
  exists field', result, w'.
  split; [exact Hrun |]. split; [exact Hst |]. rewrite Hcalls. reflexivity.
Defined.

Lemma sync_field_unmapped_create_witness :
  exists (field' : FormField.t) (result : DataPadSyncResult.t) (w' : World DataPadClient.t),
    _sync_field 1 (Sample.field 7 None "draft") false "skip"
      (Sample.world [Sample.field 7 None "draft"] [Sample.ok "dp-9"])
    = Some (field', result, w')
    /\ FormField.datapad_field_id field' = Some "dp-9"
    /\ map is_create (calls w') = [true].
Proof.
  destruct (sync_field_unmapped_create (api := DataPadClient_API) 0
              (Sample.field 7 None "draft") false "skip"
              (Sample.world [Sample.field 7 None "draft"] [Sample.ok "dp-9"])
              (DataPadFieldCreate.mk "Kundennummer" text (Some "Allgemein") true None None
                 (Some (Metadata.mk "customer_no" 1 7)))
              (Sample.remote_field "dp-9")
              (DataPadClient.mk (DataPadClient.net (Sample.client [Sample.ok "dp-9"]))
                 [("POST", "/api/v1/fields")] [])
              eq_refl eq_refl eq_refl)
    as (field' & result & w' & Hrun & _ & Hid & _ & _ & Hcalls & _).
  exists field', result, w'.
  split; [exact Hrun |]. split; [exact Hid |]. rewrite Hcalls. reflexivity.
Defined.

Lemma bound_sync_document_empty_selection_witness :
  sync_document with_models 0 1 (Some [5%Z]) false "skip" Sample.two_fields
  = Some (Ok (DataPadSyncResponse.mk 1 synced [] (Summary.mk 0 0 0 0)
                (Some "No fields to sync") (Some 100%Z) (Some 101%Z)),
          mkWorld [1%Z] (fields Sample.two_fields) (datapad Sample.two_fields) [] 102).
Proof.
  apply (bound_sync_document_empty_selection with_models (conj eq_refl eq_refl)
           0 1 (Some [5%Z]) false "skip" Sample.two_fields);
    reflexivity.
Defined.

Lemma bound_sync_document_aggregate_status_witness :
  exists (response : DataPadSyncResponse.t) (w' : World DataPadClient.t),
    sync_document with_models 1 1 None false "skip" Sample.two_fields
    = Some (Ok response, w')
    /\ DataPadSyncResponse.status response = error
    /\ DataPadSyncResponse.summary response = Summary.mk 1 0 1 0.
Proof.
  eexists _, _.
  match goal with
  | |- ?run /\ _ => assert (Hrun : run) by (vm_compute; reflexivity)
  end.
  split; [exact Hrun |].
  destruct (bound_sync_document_aggregate_status with_models (conj eq_refl eq_refl)
              _ _ _ _ _ _ _ _ Hrun) as (Hstatus & _).
  split; [rewrite Hstatus |]; reflexivity.
Defined.

Lemma two_fields_primary_key : primary_key Sample.two_fields.
Proof.
  unfold primary_key. cbn.
  constructor; [intros [H | []]; discriminate H |].
  constructor; [intros [] | constructor].
Qed.

Lemma bound_reset_sync_status_all_witness :
  primary_key Sample.two_fields
  /\ fst (reset_sync_status with_models 1 None Sample.two_fields) = Ok 2
  /\ fst (reset_sync_status with_models 1 None
            (snd (reset_sync_status with_models 1 None Sample.two_fields))) = Ok 2.
Proof.
  pose proof (bound_reset_sync_status_all with_models (conj eq_refl eq_refl)
                1 Sample.two_fields two_fields_primary_key) as H.
  cbv zeta in H. destruct H as (H1 & _ & _ & H4 & _).
  split; [exact two_fields_primary_key |].
  split; [rewrite H1 | rewrite H4, H1]; reflexivity.
Defined.

(** A collaborator whose [create_field] raises nothing meets
    [create_never_not_found]. *)
Example accepting_never_not_found : @create_never_not_found nat Sample.accepting.
Proof. intros field_data n message code. cbn. discriminate. Qed.


(** Document 1 with one unmapped field; the remote side accepts the
    create. *)
Lemma one_field_primary_key :
  primary_key (Sample.world [Sample.field 7 None "draft"] [Sample.ok "dp-7"]).
Proof.
  unfold primary_key. cbn. constructor; [intros [] | constructor].
Qed.

Lemma get_sync_status_last_sync_at_witness :
  exists st : DataPadSyncStatusResponse.t,
    get_sync_status with_models 1
      (Sample.world [Sample.field 7 (Some "dp-7") "synced";
                     Sample.field 8 None "error"] []) = Ok st
    /\ DataPadSyncStatusResponse.last_sync_at st = Some 0%Z
    /\ exists f, FormField.status f = "synced" /\ FormField.updated_at f = 0%Z.
Proof.
  eexists.
  match goal with
  | |- ?run /\ _ => assert (Hrun : run) by reflexivity
  end.
  split; [exact Hrun |]. split; [reflexivity |].
  destruct (get_sync_status_last_sync_at with_models (conj eq_refl eq_refl)
              _ _ _ Hrun) as (_ & Hlast).
  destruct (Hlast 0%Z eq_refl) as ((f & _ & Hst & Hat) & _).
  exists f. split; assumption.
Defined.

Lemma sync_field_calls_witness :
  exists (field' : FormField.t) (result : DataPadSyncResult.t)
         (w' : World DataPadClient.t) (new : list Call),
    _sync_field 2 (Sample.field 7 (Some "dp-1") "pending") false "overwrite"
      (Sample.world [Sample.field 7 (Some "dp-1") "pending"]
         [Sample.not_found; Sample.ok "dp-9"])
    = Some (field', result, w')
    /\ calls w' = [] ++ new
    /\ Forall (fun c => is_create c = true) (tl new).
Proof.
  eexists _, _, _.
  match goal with
  | |- exists new, ?run /\ _ =>
      assert (Hrun : run) by (vm_compute; reflexivity)
  end.
  destruct (sync_field_calls (api := DataPadClient_API) _ _ _ _ _ _ _ _ Hrun)
    as (new & Hcalls & Htail & _).
  exists new. split; [exact Hrun |]. split; [exact Hcalls | exact Htail].
Defined.

Lemma sync_document_stored_rows_witness :
  primary_key Sample.two_fields
  /\ exists (response : DataPadSyncResponse.t) (w' : World DataPadClient.t),
       sync_document with_models 1 1 (Some [7%Z]) false "skip" Sample.two_fields
       = Some (Ok response, w')
       /\ Forall2 row_entry (select_fields 1 (Some [7%Z]) w')
            (DataPadSyncResponse.results response)
       /\ Forall2 (fun r r' => selected 1 (Some [7%Z]) r = false -> r' = r)
            (fields Sample.two_fields) (fields w').
Proof.
  split; [exact two_fields_primary_key |].
  eexists _, _.
  match goal with
  | |- ?run /\ _ => assert (Hrun : run) by (vm_compute; reflexivity)
  end.
  split; [exact Hrun |].
  destruct (sync_document_stored_rows with_models (conj eq_refl eq_refl)
              (api := DataPadClient_API) _ _ _ _ _ _ _ _
              two_fields_primary_key Hrun) as (_ & Hentries & _ & Hframe).
  split; [exact Hentries | exact Hframe].
Defined.

Lemma sync_then_status_report_witness :
  primary_key Sample.two_fields
  /\ exists (response : DataPadSyncResponse.t) (w' : World DataPadClient.t)
            (st : DataPadSyncStatusResponse.t),
       sync_document with_models 1 1 None false "skip" Sample.two_fields
       = Some (Ok response, w')
       /\ get_sync_status with_models 1 w' = Ok st
       /\ DataPadSyncStatusResponse.status st = error
       /\ DataPadSyncStatusResponse.synced_fields st = 1
       /\ DataPadSyncStatusResponse.failed_fields st = 1.
Proof.
  split; [exact two_fields_primary_key |].
  eexists _, _.
  match goal with
  | |- exists st, ?run /\ _ => assert (Hrun : run) by (vm_compute; reflexivity)
  end.
  destruct (sync_then_status_report with_models (conj eq_refl eq_refl)
              (api := DataPadClient_API) _ _ _ _ _ _ _
              two_fields_primary_key Hrun)
    as (st & Hst & _ & _ & Hsynced & Hfailed & _ & Hstatus & _).
  exists st. split; [exact Hrun |]. split; [exact Hst |].
  split; [rewrite Hstatus | split; [rewrite Hsynced | rewrite Hfailed]]; reflexivity.
Defined.

Lemma sync_document_twice_witness :
  primary_key (Sample.world [Sample.field 7 None "draft"] [Sample.ok "dp-7"])
  /\ exists (response : DataPadSyncResponse.t) (w1 : World DataPadClient.t)
            (response2 : DataPadSyncResponse.t) (w2 : World DataPadClient.t),
       sync_document with_models 1 1 None false "skip"
         (Sample.world [Sample.field 7 None "draft"] [Sample.ok "dp-7"])
       = Some (Ok response, w1)
       /\ sync_document with_models 1 1 None false "overwrite" w1
          = Some (Ok response2, w2)
       /\ calls w2 = calls w1 /\ fields w2 = fields w1
       /\ DataPadSyncResponse.status response2 = synced.
Proof.
  split; [exact one_field_primary_key |].
  eexists _, _.
  match goal with
  | |- exists response2 w2, ?run /\ _ =>
      assert (Hrun : run) by (vm_compute; reflexivity)
  end.
  destruct (sync_document_twice with_models (conj eq_refl eq_refl)
              (api := DataPadClient_API) 1 0 1 None false "skip"
              "overwrite" _ _ _ one_field_primary_key Hrun)
    as (response2 & w2 & Hrun2 & Hfields & _ & _ & Hcalls & Hstatus & _).
  { repeat constructor. }
  exists response2, w2. repeat split; assumption.
Defined.

Lemma reset_sync_status_selected_witness :
  primary_key Sample.two_fields
  /\ fst (reset_sync_status with_models 1 (Some [8%Z; 9%Z]) Sample.two_fields) = Ok 1
  /\ clock (snd (reset_sync_status with_models 1 (Some [8%Z; 9%Z]) Sample.two_fields))
     = 101%Z.
Proof.
  pose proof (reset_sync_status_selected with_models (conj eq_refl eq_refl)
                1 (Some [8%Z; 9%Z]) Sample.two_fields two_fields_primary_key) as H.
  cbv zeta in H. destruct H as (Hcount & _ & Hclock & _).
  split; [exact two_fields_primary_key |].
  split; [rewrite Hcount | rewrite Hclock]; reflexivity.
Defined.

Lemma reset_then_status_report_witness :
  primary_key Sample.two_fields
  /\ form_exists 1 Sample.two_fields = true
  /\ get_sync_status with_models 1
       (snd (reset_sync_status with_models 1 None Sample.two_fields))
     = Ok (DataPadSyncStatusResponse.mk 1 pending 2 0 2 0 None 0 []).
Proof.
  split; [exact two_fields_primary_key |]. split; [reflexivity |].
  pose proof (reset_then_status_report with_models (conj eq_refl eq_refl)
                1 Sample.two_fields two_fields_primary_key eq_refl) as H.
  cbv zeta in H. destruct H as (_ & H). rewrite H. reflexivity.
Defined.

Lemma field_routes_error_status_witness :
  (400 <= 403)%Z
  /\ fst (Routes.create_datapad_field
            (DataPadFieldCreate.mk "Kundennummer" text None true None None None)
            (Sample.always (Response 403 "Forbidden" JsonOther)))
     = Routes.HttpRaised (Routes.mk 401 "Forbidden").
Proof.
  split; [lia |].
  destruct (field_routes_error_status
              (DataPadFieldCreate.mk "Kundennummer" text None true None None None)
              "dp-1" (DataPadFieldUpdate.mk None None None None None None None)
              (Sample.always (Response 403 "Forbidden" JsonOther))
              403 "Forbidden" JsonOther eq_refl ltac:(lia)) as (Hcreate & _).
  rewrite Hcreate. reflexivity.
Defined.

Lemma field_routes_transport_failure_witness :
  exists msg : string,
    fst (Routes.update_datapad_field "dp-1"
           (DataPadFieldUpdate.mk None None None None None None None)
           (Sample.always (Timeout "timed out")))
    = Routes.Propagated (RetryError msg).
Proof.
  destruct (field_routes_transport_failure
              (DataPadFieldCreate.mk "Kundennummer" text None true None None None)
              "dp-1" (DataPadFieldUpdate.mk None None None None None None None)
              (Sample.always (Timeout "timed out")) (fun _ _ => eq_refl))
    as (_ & (msg & Hupdate) & _).
  exists msg. rewrite Hupdate. reflexivity.
Defined.

Lemma field_routes_success_status_witness :
  (204 < 400)%Z
  /\ fst (Routes.delete_datapad_field "dp-1"
            (Sample.always (Response 204 "" (NotJson "Expecting value"))))
     = Routes.HttpRaised (Routes.mk 500 "Unexpected error: Expecting value").
Proof.
  split; [lia |].
  pose proof (field_routes_success_status
                (DataPadFieldCreate.mk "Kundennummer" text None true None None None)
                "dp-1" (DataPadFieldUpdate.mk None None None None None None None)
                (Sample.always (Response 204 "" (NotJson "Expecting value")))
                204 "" (NotJson "Expecting value") eq_refl ltac:(lia)) as H.
  cbv zeta in H. destruct H as (_ & _ & _ & _ & Hdeleted). exact Hdeleted.
Defined.

(** A field without display label and with an empty PDF name: its label is
    empty. *)
Lemma sync_field_payload_refused_witness :
  exists (field' : FormField.t) (msg : string) (w' : World DataPadClient.t),
    _sync_field 1
      (FormField.mk 7 1 "" None None "text" false None None "draft" 0)
      false "skip"
      (Sample.world [FormField.mk 7 1 "" None None "text" false None None "draft" 0]
         [Sample.ok "dp-7"])
    = Some (field',
            DataPadSyncResult.mk 7 error None
              (Some ("Unexpected error: " ++ msg)%string) None, w')
    /\ calls w' = [] /\ FormField.status field' = "error".
Proof.
  destruct (sync_field_payload_refused (api := DataPadClient_API) 0
              (FormField.mk 7 1 "" None None "text" false None None "draft" 0)
              false "skip"
              (Sample.world
                 [FormField.mk 7 1 "" None None "text" false None None "draft" 0]
                 [Sample.ok "dp-7"]) eq_refl (or_introl eq_refl))
    as (field' & msg & w' & Hrun & -> & _ & Hcalls & _).
  eexists _, msg, w'. split; [exact Hrun |]. split; [exact Hcalls | reflexivity].
Defined.

Lemma sync_field_transport_failure_witness :
  exists (field' : FormField.t) (msg : string) (w' : World DataPadClient.t),
    _sync_field 1 (Sample.field 7 None "draft") false "overwrite"
      (Sample.world [Sample.field 7 None "draft"] [])
    = Some (field',
            DataPadSyncResult.mk 7 error None
              (Some ("Unexpected error: " ++ msg)%string) None, w')
    /\ DataPadClient.slept (datapad w') = [2; 2]%Z.
Proof.
  destruct (sync_field_transport_failure 0 (Sample.field 7 None "draft") false
              "overwrite" (Sample.world [Sample.field 7 None "draft"] [])
              eq_refl eq_refl eq_refl)
    as (field' & msg & w' & call & Hrun & _ & _ & _ & _ & _ & Hslept).
  { intros i Hi. cbn [Sample.world Sample.client datapad DataPadClient.net
                      DataPadClient.sent List.length Nat.add].
    destruct i as [| [| [| i]]]; reflexivity. }
  exists field', msg, w'. split; [exact Hrun | exact Hslept].
Defined.

Lemma get_sync_status_report_witness :
  get_sync_status with_models 9 Sample.two_fields
  = Raise (ValueError "Document 9 not found")
  /\ exists st : DataPadSyncStatusResponse.t,
       get_sync_status with_models 1 Sample.two_fields = Ok st
       /\ DataPadSyncStatusResponse.total_fields st = 2.
Proof.
  split.
  - exact (proj1 (get_sync_status_report with_models (conj eq_refl eq_refl)
                    9 Sample.two_fields) eq_refl).
  - destruct (proj2 (get_sync_status_report with_models (conj eq_refl eq_refl)
                       1 Sample.two_fields) eq_refl) as (st & Hst & Htotal & _).
    exists st. split; [exact Hst | rewrite Htotal; reflexivity].
Defined.

Lemma bound_sync_document_empty_field_ids_witness :
  form_exists 1 Sample.two_fields = true
  /\ exists (response : DataPadSyncResponse.t) (w' : World DataPadClient.t),
       sync_document with_models 1 1 (Some []) false "skip" Sample.two_fields
       = Some (Ok response, w')
       /\ map DataPadSyncResult.field_id (DataPadSyncResponse.results response)
          = [7%Z; 8%Z].
Proof.
  split; [reflexivity |].
  destruct (bound_sync_document_empty_field_ids with_models (conj eq_refl eq_refl)
              (api := DataPadClient_API) 0 1 false "skip" Sample.two_fields)
    as (_ & _ & _ & _ & _ & Hreturns).
  destruct (Hreturns eq_refl eq_refl) as (response & w' & Hrun & Hids).
  exists response, w'. split; [exact Hrun | exact Hids].
Defined.

Lemma bound_sync_form_outcomes_witness :
  Routes.sync_form with_models 1 9 None Sample.two_fields
  = Some (inl (Routes.mk 404 "Document 9 not found"),
          mkWorld [1%Z] (fields Sample.two_fields) (datapad Sample.two_fields) [] 101)
  /\ exists (response : DataPadSyncResponse.t) (w' : World DataPadClient.t),
       Routes.sync_form with_models 1 1 None Sample.two_fields
       = Some (inr response, w')
       /\ map DataPadSyncResult.field_id (DataPadSyncResponse.results response)
          = [7%Z; 8%Z].
Proof.
  split.
  - exact (proj1 (bound_sync_form_outcomes with_models (conj eq_refl eq_refl)
                    (api := DataPadClient_API) 1 9 None Sample.two_fields) eq_refl).
  - destruct (proj2 (proj2 (bound_sync_form_outcomes with_models (conj eq_refl eq_refl)
                              (api := DataPadClient_API) 0 1 None Sample.two_fields))
                eq_refl eq_refl) as (response & w' & Hrun & _ & Hids).
    exists response, w'. split; [exact Hrun | exact Hids].
Defined.

Lemma bound_status_and_reset_routes_witness :
  Routes.get_sync_status with_models 9 Sample.two_fields
  = Routes.HttpRaised (Routes.mk 404 "Document 9 not found")
  /\ fst (Routes.reset_sync with_models 1 None Sample.two_fields)
     = Routes.Returned (1%Z, 2)
  /\ Routes.reset_sync with_models 9 None Sample.two_fields
     = (Routes.Returned (9%Z, 0), Sample.two_fields).
Proof.
  split; [| split].
  - exact (proj1 (bound_status_and_reset_routes with_models (conj eq_refl eq_refl)
                    9 None Sample.two_fields) eq_refl).
  - exact (proj1 (proj2 (proj2 (bound_status_and_reset_routes with_models
                                  (conj eq_refl eq_refl) 1 None Sample.two_fields)))).
  - exact (proj2 (proj2 (proj2 (bound_status_and_reset_routes with_models
                                  (conj eq_refl eq_refl) 9 None Sample.two_fields)))
             eq_refl).
Defined.

Lemma sync_field_captures_errors_witness :
  exists (field' : FormField.t) (result : DataPadSyncResult.t) (w' : World DataPadClient.t),
    _sync_field 2 (Sample.field 7 None "draft") false "skip"
      (Sample.world [Sample.field 7 None "draft"] [Sample.server_error])
    = Some (field', result, w')
    /\ DataPadSyncResult.status result = error
    /\ FormField.status field' = "error".
Proof.
  destruct (sync_field_captures_errors (api := DataPadClient_API) 0
              (Sample.field 7 None "draft") false "skip"
              (Sample.world [Sample.field 7 None "draft"] [Sample.server_error])
              (or_introl eq_refl))
    as (field' & result & w' & Hrun & _ & _ & Hraised).
  exists field', result, w'. split; [exact Hrun |].
  vm_compute in Hrun. injection Hrun as <- <- <-. split; reflexivity.
Defined.

(** [_map_field_type] on upper-case input, on the Kelvin sign (the bytes
    226, 132, 170) in the place of a [k], and on types that the mapping does
    not know. *)
Example map_field_type_runs :
  map _map_field_type
    ["CheckBox"; "DROPDOWN"; "Text"; "list";
     String "226" (String "132" (String "170" "elvin"));
     String "c" (String "h" (String "e" (String "c"
       (String "226" (String "132" (String "170" "box"))))))]
  = ["checkbox"; "select"; "text"; "text"; "text"; "checkbox"].
Proof. reflexivity. Qed.

(** A label of 200 characters of three bytes each (the euro sign, the bytes
    226, 130, 172) has 200 code points and is accepted. *)
Example label_of_three_byte_characters :
  let label :=
    String.concat "" (repeat (String "226" (String "130" (String "172" ""))) 200) in
  String.length label = 600 /\ len label = 200 /\ label_ok label = true.
Proof. vm_compute. repeat split. Qed.

(** With [Form] and [FormField] bound, one failing field does not abort
    the batch: the first field of the sample ends in [error], the second is
    still synchronised. *)
Example one_failing_field_does_not_abort :
  match sync_document with_models 2 1 None false "skip" Sample.two_fields with
  | Some (Ok response, w') =>
      map DataPadSyncResult.status (DataPadSyncResponse.results response) = [error; synced]
      /\ map FormField.status (fields w') = ["error"; "synced"]
  | _ => False
  end.
Proof. vm_compute. split; reflexivity. Qed.

End Runs.

